(** * Markdown to Notion blocks: link preservation and block construction

    A shallow embedding of

      - [Agent_Prototype/Tools/notion_markdown_utils/link_handler.py]
        (placeholder substitution before conversion, placeholder
        resolution after it), and
      - [Apps/Tools/notion_markdown_utils/markdown_converter.py]
        (input normalisation, backend selection, the BeautifulSoup based
        block classifier with its inline formatter and table handling).

    Conventions of the embedding.

      - A Python [str] is a [string]; a character is an 8-bit code, read as
        the code point of the same number.
      - A block tree is a [value]: the JSON-like data the Python code
        builds from [dict], [list] and [str].  A [dict] is an association
        list in insertion order, which is the order Python iterates in.
      - The Python code mutates the block tree in place.  The trees it
        works on are freshly built (by [json.loads] or by dictionary
        displays), so no two positions share an object and an in-place
        update is the functional update of the tree.
      - An exception is the [Raise] outcome of the [result] monad.
      - [re], [markdown], [bs4] and the Node.js bridge are not part of the
        repository.  The two regular expressions of the link handler are
        written out as matchers; the parsed HTML document and the outcome
        of the bridge process are fields of an [environment]. *)

From Stdlib Require Import String Ascii List Bool Arith ZArith Lia.
From Stdlib Require Import DecimalString DecimalNat.
Import ListNotations.

Local Open Scope list_scope.
Local Open Scope string_scope.

Set Implicit Arguments.
Set Warnings "-register-all".

(** ** Python string primitives *)

Module PyStr.

(** [str.isspace] on one character, which is also what [\s] matches in a
    [str] pattern: TAB, LF, VT, FF, CR, the separators 28-31, SPACE, NEL
    and NBSP. *)
Definition isspace (c : ascii) : bool :=
  let n := nat_of_ascii c in
  (Nat.leb 9 n && Nat.leb n 13) || (Nat.leb 28 n && Nat.leb n 32)
  || Nat.eqb n 133 || Nat.eqb n 160.

Definition newline : ascii := ascii_of_nat 10.

(** [s.startswith(p)] *)
Definition startswith (s p : string) : bool := String.prefix p s.

(** [p in s] for two strings: [p] occurs in [s] as a contiguous piece. *)
Fixpoint contains (s p : string) : bool :=
  String.prefix p s ||
  match s with
  | EmptyString => false
  | String _ s' => contains s' p
  end.

(** [s.endswith(p)] *)
Definition endswith (s p : string) : bool :=
  Nat.leb (String.length p) (String.length s)
  && String.eqb (String.substring (String.length s - String.length p)
                                  (String.length p) s) p.

Fixpoint lstrip (s : string) : string :=
  match s with
  | String c s' => if isspace c then lstrip s' else s
  | EmptyString => EmptyString
  end.

Fixpoint rstrip (s : string) : string :=
  match s with
  | EmptyString => EmptyString
  | String c s' =>
      match rstrip s' with
      | EmptyString => if isspace c then EmptyString
                       else String c EmptyString
      | r => String c r
      end
  end.

(** [s.strip()] *)
Definition strip (s : string) : string := rstrip (lstrip s).

(** [s.split('\n')]: never the empty list. *)
Fixpoint split_lines (s : string) : list string :=
  match s with
  | EmptyString => [EmptyString]
  | String c s' =>
      if Ascii.eqb c newline then EmptyString :: split_lines s'
      else match split_lines s' with
           | l :: ls => String c l :: ls
           | [] => [String c EmptyString]
           end
  end.

(** ['\n'.join(lines)] *)
Fixpoint join_lines (lines : list string) : string :=
  match lines with
  | [] => EmptyString
  | [l] => l
  | l :: ls => l ++ String newline (join_lines ls)
  end.

(** [s[max(0, i - 2):i]], the slice the link handler takes. *)
Definition slice_before (s : string) (i : nat) : string :=
  String.substring (i - 2) (Nat.min i (String.length s) - (i - 2)) s.

(** Longest prefix of characters satisfying [p], and what follows it. *)
Fixpoint span (p : ascii -> bool) (s : string) : string * string :=
  match s with
  | String c s' =>
      if p c then let '(a, b) := span p s' in (String c a, b)
      else (EmptyString, s)
  | EmptyString => (EmptyString, EmptyString)
  end.

(** [str(n)] for a natural number: its decimal numeral. *)
Definition of_nat (n : nat) : string :=
  NilEmpty.string_of_uint (Nat.to_uint n).

End PyStr.

(** ** Outcomes of Python code *)

(** The exceptions that the modelled code can meet. *)
Inductive exn : Type :=
| TypeError
| KeyError
| AttributeError
| FileNotFoundError
| OSError
| UserError      (* raised by a method of the caller's own object *)
| LibraryError.  (* raised inside markdown.markdown or BeautifulSoup *)

(** A run of Python code returns a value, raises, or, for the one
    traversal that is defined with fuel, is cut short. *)
Inductive result (A : Type) : Type :=
| Ok (a : A)
| Raise (e : exn)
| OutOfFuel.

Arguments Ok {A} a.
Arguments Raise {A} e.
Arguments OutOfFuel {A}.

Definition bind {A B : Type} (r : result A) (k : A -> result B) : result B :=
  match r with
  | Ok a => k a
  | Raise e => Raise e
  | OutOfFuel => OutOfFuel
  end.

Declare Scope py_scope.
Delimit Scope py_scope with py.
Notation "x <- c ;; k" := (bind c (fun x => k))
  (at level 61, c at next level, right associativity) : py_scope.
Local Open Scope py_scope.

(** [try: body  except Exception: handler] *)
Definition try_except {A : Type} (body : result A) (handler : exn -> result A)
  : result A :=
  match body with
  | Raise e => handler e
  | r => r
  end.

Section ForLoops.
Variables A B : Type.
Variable f : A -> result B.

(** [[f(x) for x in l]], and a loop [for i, x in enumerate(l): l[i] = f(x)]:
    the elements are visited in order and the first exception ends it. *)
Fixpoint for_each (l : list A) : result (list B) :=
  match l with
  | [] => Ok []
  | x :: l' =>
      y <- f x ;;
      ys <- for_each l' ;;
      Ok (y :: ys)
  end.
End ForLoops.

(** ** Block trees *)

(** What [json.loads] returns and what the converter builds.  The
    traversals never look into a number, so integers stand for all
    numbers.  The keys of a dictionary that Python builds are distinct;
    nothing below relies on it.  The induction principle that reaches
    below lists and dictionaries is [value_ind'], stated with the
    lemmas. *)
Unset Elimination Schemes.
Inductive value : Type :=
| VNone
| VBool (b : bool)
| VNum (n : Z)
| VStr (s : string)
| VList (l : list value)
| VDict (d : list (string * value)).
Set Elimination Schemes.

Definition dict := list (string * value).

Module Dict.

(** [d.get(k)] as an option, [k in d], [d[k]]. *)
Fixpoint get (k : string) (d : dict) : option value :=
  match d with
  | [] => None
  | (k', v) :: d' => if String.eqb k k' then Some v else get k d'
  end.

Definition mem (k : string) (d : dict) : bool :=
  match get k d with Some _ => true | None => false end.

(** [d[k] = v]: an existing key keeps its position, a new key goes last. *)
Fixpoint set (k : string) (v : value) (d : dict) : dict :=
  match d with
  | [] => [(k, v)]
  | (k', v') :: d' =>
      if String.eqb k k' then (k', v) :: d' else (k', v') :: set k v d'
  end.

Section Items.
Variable f : value -> result value.

(** [for key, value in list(d.items()): d[key] = f(value)]: every value
    is rewritten where it stands. *)
Fixpoint for_items (d : dict) : result dict :=
  match d with
  | [] => Ok []
  | (k, v) :: d' =>
      v' <- f v ;;
      d'' <- for_items d' ;;
      Ok ((k, v') :: d'')
  end.
End Items.

End Dict.

(** [isinstance(v, dict)], [isinstance(v, list)] *)
Definition is_dict (v : value) : bool :=
  match v with VDict _ => true | _ => false end.

Definition is_list (v : value) : bool :=
  match v with VList _ => true | _ => false end.

(** [v == s] for a string [s]. *)
Definition eq_str (v : value) (s : string) : bool :=
  match v with VStr t => String.eqb t s | _ => false end.

(** [s in v]: substring of a string, element of a list, key of a dict;
    anything else is not iterable. *)
Definition py_in (s : string) (v : value) : result bool :=
  match v with
  | VStr c => Ok (PyStr.contains c s)
  | VList l => Ok (existsb (fun e => eq_str e s) l)
  | VDict d => Ok (Dict.mem s d)
  | VNone | VBool _ | VNum _ => Raise TypeError
  end.

(** [v[k]] for a string key [k]. *)
Definition getitem (v : value) (k : string) : result value :=
  match v with
  | VDict d => match Dict.get k d with
               | Some x => Ok x
               | None => Raise KeyError
               end
  | _ => Raise TypeError
  end.

(** ** [re.sub] with a replacement function *)

Section ReSub.
Variables M St : Type.

(** The pattern, as a matcher at the head of the text that is left: the
    match object and the length of the match.  Neither pattern of the
    link handler matches the empty string or looks behind, so a match
    depends on the remaining text alone and has a positive length. *)
Variable match_at : string -> option (M * nat).

(** The replacement function, called with [match.start()] and the match;
    the closures of the link handler append to [extracted_links], which
    is the state [St] passed along. *)
Variable repl : nat -> M -> St -> string * St.

(** Leftmost matches, not overlapping: after a match of length [len] the
    scan skips the [len - 1] characters that the match still covers. *)
Fixpoint sub_from (pos skip : nat) (s : string) (st : St) : string * St :=
  match s with
  | EmptyString => (EmptyString, st)
  | String c s' =>
      match skip with
      | S k => sub_from (S pos) k s' st
      | O =>
          match match_at s with
          | Some (m, len) =>
              let '(r, st1) := repl pos m st in
              let '(out, st2) := sub_from (S pos) (len - 1) s' st1 in
              (r ++ out, st2)
          | None =>
              let '(out, st1) := sub_from (S pos) 0 s' st in
              (String c out, st1)
          end
      end
  end.

Definition re_sub (s : string) (st : St) : string * St :=
  sub_from 0 0 s st.
End ReSub.

(** ** link_handler.py *)

Module LinkHandler.

(** One entry of [extracted_links]. *)
Record link : Type := mkLink {
  placeholder : string;
  text : string;
  url : string
}.

Definition not_char (x : ascii) (c : ascii) : bool := negb (Ascii.eqb c x).

(** [\[([^\]]+)\]\(([^)]+)\)] at the head of [s]: groups 1 and 2 and the
    length of the match.  Each of the two greedy runs is followed by the
    character it excludes, so the longest run is the only one that can
    match. *)
Definition match_markdown_link (s : string)
  : option ((string * string) * nat) :=
  match s with
  | String "["%char r =>
      let '(link_text, r1) := PyStr.span (not_char "]") r in
      match link_text, r1 with
      | String _ _, String "]"%char (String "("%char r2) =>
          let '(link_url, r3) := PyStr.span (not_char ")") r2 in
          match link_url, r3 with
          | String _ _, String ")"%char _ =>
              Some ((link_text, link_url),
                    String.length link_text + String.length link_url + 4)
          | _, _ => None
          end
      | _, _ => None
      end
  | _ => None
  end.

Definition double_quote : ascii := ascii_of_nat 34.
Definition single_quote : ascii := ascii_of_nat 39.

(** The negated class of the URL pattern: anything but white space, a
    closing parenthesis, a double quote, a single quote, a closing
    bracket and a closing brace. *)
Definition url_char (c : ascii) : bool :=
  negb (PyStr.isspace c
        || Ascii.eqb c ")" || Ascii.eqb c double_quote
        || Ascii.eqb c single_quote || Ascii.eqb c "]" || Ascii.eqb c "}").

Definition drop (n : nat) (s : string) : string :=
  String.substring n (String.length s - n) s.

(** The URL pattern at the head of [s], that is [http], an optional [s],
    [://] and one or more [url_char]s: group 0 and its length. *)
Definition match_bare_url (s : string) : option (string * nat) :=
  let scheme :=
    if String.prefix "https://" s then Some "https://"
    else if String.prefix "http://" s then Some "http://"
    else None in
  match scheme with
  | Some sch =>
      match PyStr.span url_char (drop (String.length sch) s) with
      | (String c body, _) =>
          let m := sch ++ String c body in Some (m, String.length m)
      | (EmptyString, _) => None
      end
  | None => None
  end.

(** The closure [replace_markdown_link]. *)
Definition replace_markdown_link (start : nat) (m : string * string)
           (extracted_links : list link) : string * list link :=
  let '(link_text, link_url) := m in
  let ph := "LINKPLACEHOLDER_" ++ PyStr.of_nat (length extracted_links) in
  ("[" ++ ph ++ "]", (extracted_links ++ [mkLink ph link_text link_url])%list).

(** The closure [replace_bare_url].  [start] is [match.start()], an index
    into the line that [re.sub] is working on; the slice is taken from
    [markdown_content], the text the function was called with. *)
Definition replace_bare_url (markdown_content : string) (start : nat)
           (u : string) (extracted_links : list link)
  : string * list link :=
  let prev_chars := PyStr.slice_before markdown_content start in
  if PyStr.endswith prev_chars "](" then (u, extracted_links)
  else
    let ph :=
      "URLLINKPLACEHOLDER_" ++ PyStr.of_nat (length extracted_links) in
    (ph, (extracted_links ++ [mkLink ph u u])%list).

Definition fence : string := "```".

(** The loop over [lines] with its flag [in_code_block]. *)
Fixpoint bare_url_lines (markdown_content : string) (lines : list string)
         (in_code_block : bool) (extracted_links : list link)
  : list string * list link :=
  match lines with
  | [] => ([], extracted_links)
  | line :: rest =>
      if PyStr.startswith (PyStr.strip line) fence then
        let '(out, ls) :=
          bare_url_lines markdown_content rest (negb in_code_block)
                         extracted_links in
        (line :: out, ls)
      else if negb in_code_block then
        let '(line', ls1) :=
          re_sub match_bare_url (replace_bare_url markdown_content)
                 line extracted_links in
        let '(out, ls2) :=
          bare_url_lines markdown_content rest in_code_block ls1 in
        (line' :: out, ls2)
      else
        let '(out, ls) :=
          bare_url_lines markdown_content rest in_code_block
                         extracted_links in
        (line :: out, ls)
  end.

Definition preprocess_markdown_links (markdown_content : string)
  : string * list link :=
  let '(processed_content, links1) :=
    re_sub match_markdown_link replace_markdown_link markdown_content [] in
  let lines := PyStr.split_lines processed_content in
  let '(lines', links2) :=
    bare_url_lines markdown_content lines false links1 in
  (PyStr.join_lines lines', links2).

(** [link_lookup], the dictionary from placeholder to entry, as its
    items in iteration order: a key stays where it was first inserted
    and holds the entry inserted last. *)
Fixpoint lookup_set (k : string) (l : link) (d : list (string * link))
  : list (string * link) :=
  match d with
  | [] => [(k, l)]
  | (k', l') :: d' =>
      if String.eqb k k' then (k', l) :: d' else (k', l') :: lookup_set k l d'
  end.

Definition make_lookup (extracted_links : list link)
  : list (string * link) :=
  fold_left (fun d l => lookup_set (placeholder l) l d) extracted_links [].

Definition bracketed (ph : string) : string := "[" ++ ph ++ "]".

(** One of the two loops over [link_lookup.items()]: the entry of the
    first key that, written as [form key], is [in] the content. *)
Fixpoint find_placeholder (form : string -> string)
         (link_lookup : list (string * link)) (content : value)
  : result (option link) :=
  match link_lookup with
  | [] => Ok None
  | (ph, link_data) :: rest =>
      hit <- py_in (form ph) content ;;
      if hit then Ok (Some link_data)
      else find_placeholder form rest content
  end.

(** [block["text"]["content"] = link_data["text"]] and
    [block["text"]["link"] = {"url": link_data["url"]}], on the
    dictionary [block["text"]]. *)
Definition resolve (text_dict : dict) (link_data : link) : dict :=
  Dict.set "link" (VDict [("url", VStr (url link_data))])
           (Dict.set "content" (VStr (text link_data)) text_dict).

(** The part of [process_block] on text content: [Some block'] is the
    early return of the resolved block, [None] falls through to the
    recursion over the values. *)
Definition process_text (link_lookup : list (string * link)) (block : dict)
  : result (option dict) :=
  match Dict.get "text" block with
  | Some (VDict text_dict) =>
      match Dict.get "content" text_dict with
      | Some content =>
          bare <- find_placeholder (fun ph => ph) link_lookup content ;;
          match bare with
          | Some link_data =>
              Ok (Some (Dict.set "text" (VDict (resolve text_dict link_data))
                                 block))
          | None =>
              wrapped <- find_placeholder bracketed link_lookup content ;;
              match wrapped with
              | Some link_data =>
                  Ok (Some (Dict.set "text"
                                     (VDict (resolve text_dict link_data))
                                     block))
              | None => Ok None
              end
          end
      | None => Ok None
      end
  | _ => Ok None
  end.

(** [v[k] = x] on a value that is a dictionary. *)
Definition setitem (v : value) (k : string) (x : value) : value :=
  match v with
  | VDict d => VDict (Dict.set k x d)
  | _ => v
  end.

Section TablePass.
(** The recursive call [process_block]. *)
Variable rec : value -> result value.

Definition process_cell (cell : value) : result value :=
  match cell with
  | VList items => items' <- for_each rec items ;; Ok (VList items')
  | _ => Ok cell
  end.

Definition process_row (row : value) : result value :=
  match row with
  | VDict row_dict =>
      match Dict.get "table_row" row_dict with
      | Some table_row =>
          has_cells <- py_in "cells" table_row ;;
          if has_cells then
            cells <- getitem table_row "cells" ;;
            match cells with
            | VList cs =>
                cs' <- for_each process_cell cs ;;
                Ok (VDict (Dict.set "table_row"
                                    (setitem table_row "cells" (VList cs'))
                                    row_dict))
            | _ => Ok row
            end
          else Ok row
      | None => Ok row
      end
  | _ => Ok row
  end.

(** The branch for a block with [type] equal to [table] and a key
    [table]. *)
Definition process_table (block : dict) : result dict :=
  match Dict.get "table" block with
  | Some table =>
      has_children <- py_in "children" table ;;
      if has_children then
        children <- getitem table "children" ;;
        match children with
        | VList rows =>
            rows' <- for_each process_row rows ;;
            Ok (Dict.set "table"
                         (setitem table "children" (VList rows')) block)
        | _ => Ok block
        end
      else Ok block
  | None => Ok block
  end.
End TablePass.

Definition is_table_block (block : dict) : bool :=
  match Dict.get "type" block with
  | Some t => eq_str t "table" && Dict.mem "table" block
  | None => false
  end.

(** The helper [process_block].  It calls itself on the values of a
    dictionary after the table branch has rewritten them, so the
    recursion is not on a part of its argument and is bounded by
    [fuel]. *)
Fixpoint process_block (fuel : nat) (link_lookup : list (string * link))
         (block : value) : result value :=
  match fuel with
  | O => OutOfFuel
  | S fuel' =>
      let rec := process_block fuel' link_lookup in
      match block with
      | VDict d =>
          d1 <- (if is_table_block d then process_table rec d else Ok d) ;;
          resolved <- process_text link_lookup d1 ;;
          match resolved with
          | Some d2 => Ok (VDict d2)
          | None =>
              d2 <- Dict.for_items
                      (fun v => if is_dict v || is_list v then rec v
                                else Ok v) d1 ;;
              Ok (VDict d2)
          end
      | VList l => l' <- for_each rec l ;; Ok (VList l')
      | _ => Ok block
      end
  end.

Definition postprocess_notion_blocks (fuel : nat) (blocks : value)
           (extracted_links : list link) : result value :=
  match extracted_links with
  | [] => Ok blocks
  | _ :: _ => process_block fuel (make_lookup extracted_links) blocks
  end.

(** [fix_markdown_links], with [converter_func] the backend. *)
Definition fix_markdown_links (fuel : nat) (markdown_content : string)
           (converter_func : string -> result value) : result value :=
  let '(processed_content, extracted_links) :=
    preprocess_markdown_links markdown_content in
  blocks <- converter_func processed_content ;;
  match extracted_links with
  | [] => Ok blocks
  | _ :: _ => postprocess_notion_blocks fuel blocks extracted_links
  end.

End LinkHandler.

(** ** The parsed document *)

Module Soup.

(** A node of the tree that [BeautifulSoup(html, 'html.parser')] builds.
    [NavigableString] and [Comment] are both instances of [str] with
    [name] equal to [None]; [get_text] leaves comments out.  The
    attributes are kept as written in the HTML. *)
Inductive node : Type :=
| NavigableString (s : string)
| Comment (s : string)
| Tag (name : string) (attrs : list (string * string))
      (children : list node).

Definition has_name (n : node) (nm : string) : bool :=
  match n with
  | Tag nm' _ _ => String.eqb nm' nm
  | _ => false
  end.

Definition children (n : node) : list node :=
  match n with
  | Tag _ _ cs => cs
  | _ => []
  end.

(** [element[key]], and with it [element.has_attr(key)]. *)
Fixpoint lookup_attr (key : string) (attrs : list (string * string))
  : option string :=
  match attrs with
  | [] => None
  | (k, v) :: rest => if String.eqb k key then Some v
                      else lookup_attr key rest
  end.

Definition attr (n : node) (key : string) : option string :=
  match n with
  | Tag _ attrs _ => lookup_attr key attrs
  | _ => None
  end.

(** [element.get_text()]: the strings below the element, in document
    order, joined.  This is the text of an element with no [script],
    [style], [template], [rt] or [rp] tag in it or around it: the
    strings below such a tag are of classes of their own in bs4, and
    the text of an enclosing element leaves them out. *)
Fixpoint get_text (n : node) : string :=
  match n with
  | NavigableString s => s
  | Comment _ => EmptyString
  | Tag _ _ cs =>
      (fix texts (l : list node) : string :=
         match l with
         | [] => EmptyString
         | c :: l' => get_text c ++ texts l'
         end) cs
  end.

(** Everything below a node, in document order. *)
Fixpoint descendants (n : node) : list node :=
  match n with
  | Tag _ _ cs =>
      (fix below (l : list node) : list node :=
         match l with
         | [] => []
         | c :: l' => (c :: descendants c ++ below l')%list
         end) cs
  | _ => []
  end.

Definition named (names : list string) (n : node) : bool :=
  existsb (has_name n) names.

(** [element.find_all(names)], [element.find_all(name, recursive=False)]
    and [element.find(name)]. *)
Definition find_all (names : list string) (n : node) : list node :=
  filter (named names) (descendants n).

Definition find_all_children (nm : string) (n : node) : list node :=
  filter (fun c => has_name c nm) (children n).

Definition find (nm : string) (n : node) : option node :=
  List.find (fun c => has_name c nm) (descendants n).

(** The value of a [class] attribute, which bs4 splits at white space. *)
Fixpoint words_from (cur : string) (s : string) : list string :=
  match s with
  | EmptyString => match cur with EmptyString => [] | _ => [cur] end
  | String c s' =>
      if PyStr.isspace c then
        match cur with
        | EmptyString => words_from EmptyString s'
        | _ => cur :: words_from EmptyString s'
        end
      else words_from (cur ++ String c EmptyString) s'
  end.

Definition classes (n : node) : option (list string) :=
  match attr n "class" with
  | Some v => Some (words_from EmptyString v)
  | None => None
  end.

End Soup.

(** ** markdown_converter.py *)

(** What a caller may pass as [md_content]: a [str], or an object seen
    through the operations the converter tries on it. *)
Inductive pyval : Type :=
| PStr (s : string)
| PObj (class_name : string)                    (* type(x).__name__ *)
       (truth : bool)                           (* bool(x) *)
       (to_str : result string)                 (* str(x) *)
       (to_json : option (result pyval))        (* x.to_json(), if any *)
       (items : option (list (result string))). (* str(item) for item in x,
                                                   if x has __iter__ *)

(** The outcome of one [subprocess.run] of the bridge script followed by
    [json.loads] of its output. *)
Inductive bridge_run : Type :=
| Crashed                                   (* subprocess.run raised *)
| Exited (returncode : Z) (parsed : option value).
                                 (* json.loads(stdout), None if it raises *)

(** What lies outside the repository. *)
Record environment : Type := {
  LINK_HANDLER_AVAILABLE : bool;
  MARKDOWN_LIBS_AVAILABLE : bool;
  (** [os.path.exists(script_path)] for [markdown_to_notion.js] *)
  script_exists : bool;
  (** whether the temporary file can be created *)
  tempfile_fails : bool;
  (** the two command lines, as functions of the text written to the file *)
  run_npx : string -> bridge_run;
  run_node : string -> bridge_run;
  (** the children of [BeautifulSoup(markdown.markdown(md, ...), 'html.parser')],
      or what one of the two calls raises *)
  markdown_soup : string -> result (list Soup.node)
}.

(** Truth value of a [pyval] and of a block tree. *)
Definition truthy (v : pyval) : bool :=
  match v with
  | PStr s => negb (String.eqb s EmptyString)
  | PObj _ t _ _ _ => t
  end.

Definition truthy_value (v : value) : bool :=
  match v with
  | VNone => false
  | VBool b => b
  | VNum n => negb (Z.eqb n 0)
  | VStr s => negb (String.eqb s EmptyString)
  | VList l => match l with [] => false | _ => true end
  | VDict d => match d with [] => false | _ => true end
  end.

(** ['\n'.join([str(item) for item in x])] *)
Definition join_items (x : option (list (result string))) : result string :=
  match x with
  | Some its => l <- for_each (fun r => r) its ;; Ok (PyStr.join_lines l)
  | None => Raise TypeError
  end.

(** The block [if not isinstance(md_content, str): ...] that opens
    [_convert_with_martian], [_convert_with_bs4] and
    [clean_markdown_to_notion_blocks].  [Ok None] is its [return []]. *)
Definition normalize (md_content : pyval) : result (option pyval) :=
  match md_content with
  | PStr _ => Ok (Some md_content)
  | PObj _ _ to_str to_json items =>
      try_except
        (md_content_str <- to_str ;;
         match items with
         | Some _ =>
             if String.eqb (PyStr.strip md_content_str) EmptyString then
               joined <- join_items items ;; Ok (Some (PStr joined))
             else Ok (Some (PStr md_content_str))
         | None => Ok (Some (PStr md_content_str))
         end)
        (fun _ =>
           match to_json with
           | Some call =>
               try_except
                 (v <- call ;; Ok (Some v))
                 (fun _ =>
                    match items with
                    | Some _ =>
                        joined <- join_items items ;; Ok (Some (PStr joined))
                    | None => Ok None
                    end)
           | None => Ok (Some md_content)
           end)
  end.

Module MarkdownConverter.
Import Soup.

(** *** Dictionary displays of the block classifier *)

(** [{"type": "text", "text": {"content": content}}] *)
Definition text_run (content : string) : value :=
  VDict [("type", VStr "text"); ("text", VDict [("content", VStr content)])].

(** [{"type": "text", "text": {"content": content, "link": {"url": href}}}] *)
Definition link_run (content href : string) : value :=
  VDict [("type", VStr "text");
         ("text", VDict [("content", VStr content);
                         ("link", VDict [("url", VStr href)])])].

(** [{"object": "block", "type": ty, ty: {"rich_text": rich_text}}] *)
Definition rich_text_block (ty : string) (rich_text : list value) : value :=
  VDict [("object", VStr "block"); ("type", VStr ty);
         (ty, VDict [("rich_text", VList rich_text)])].

Definition nonempty (s : string) : bool := negb (String.eqb s EmptyString).

(** *** The inline formatter *)

(** The annotation that a tag name stands for. *)
Definition annotation_of (nm : string) : option string :=
  if String.eqb nm "strong" || String.eqb nm "b" then Some "bold"
  else if String.eqb nm "em" || String.eqb nm "i" then Some "italic"
  else if String.eqb nm "u" then Some "underline"
  else if String.eqb nm "code" then Some "code"
  else if String.eqb nm "del" || String.eqb nm "s" then Some "strikethrough"
  else None.

(** One turn of the loop [for child in element.children], as the runs it
    appends to [rich_text]. *)
Definition rich_text_of_child (child : node) : list value :=
  match child with
  | NavigableString s | Comment s =>
      if nonempty (PyStr.strip s) then [text_run s] else []
  | Tag nm _ _ =>
      match (if String.eqb nm "a" then attr child "href" else None) with
      | Some href =>
          let link_text := get_text child in
          if nonempty link_text then [link_run link_text href] else []
      | None =>
          let text_content := get_text child in
          if nonempty text_content then
            let link :=
              match find "a" child with
              | Some a =>
                  match attr a "href" with
                  | Some href => [("link", VDict [("url", VStr href)])]
                  | None => []
                  end
              | None => []
              end in
            let annotations :=
              match annotation_of nm with
              | Some a => [("annotations", VDict [(a, VBool true)])]
              | None => []
              end in
            [VDict ([("type", VStr "text");
                     ("text", VDict (("content", VStr text_content) :: link))]
                    ++ annotations)%list]
          else []
      end
  end.

Definition process_rich_text_element (element : node) : list value :=
  match element with
  | NavigableString s | Comment s => [text_run s]
  | Tag nm _ cs =>
      match (if String.eqb nm "a" then attr element "href" else None) with
      | Some href =>
          let text_content := get_text element in
          if nonempty text_content then [link_run text_content href] else []
      | None => flat_map rich_text_of_child cs
      end
  end.

(** *** The block classifier *)

(** The language of a [pre] element: the first class of its [code]
    element that starts with [language-], without that prefix. *)
Definition language_of (element : node) : string :=
  match find "code" element with
  | Some code_element =>
      match classes code_element with
      | Some cls =>
          match List.find (fun c => PyStr.startswith c "language-") cls with
          | Some c => LinkHandler.drop 9 c
          | None => "plain text"
          end
      | None => "plain text"
      end
  | None => "plain text"
  end.

(** The padding cell [[{"type": "text", "text": {"content": ""}}]]. *)
Definition empty_cell : value := VList [text_run EmptyString].

(** [while len(row_cells) < table_width: row_cells.append(...)], which
    appends as many padding cells as are missing, and then
    [if len(row_cells) > table_width: row_cells = row_cells[:table_width]]. *)
Definition fit_row (table_width : nat) (row_cells : list value)
  : list value :=
  let padded :=
    (row_cells ++ repeat empty_cell (table_width - length row_cells))%list in
  if Nat.ltb table_width (length padded) then firstn table_width padded
  else padded.

Definition table_row (table_width : nat) (row : node) : value :=
  let cells := find_all ["th"; "td"] row in
  let row_cells :=
    map (fun cell => VList (process_rich_text_element cell)) cells in
  VDict [("type", VStr "table_row");
         ("table_row", VDict [("cells", VList (fit_row table_width row_cells))])].

(** The body of the [try] of the [table] branch.  Every operation in it
    is total on a [node], so the [except] clause, which would emit two
    paragraphs instead, is never entered. *)
Definition convert_table (element : node) : list value :=
  match find_all ["tr"] element with
  | [] => []
  | (first_row :: _) as rows =>
      let header_cells := find_all ["th"; "td"] first_row in
      let table_width := length header_cells in
      if Nat.eqb table_width 0 then []
      else
        let has_header :=
          match find "th" first_row with Some _ => true | None => false end in
        [VDict [("object", VStr "block"); ("type", VStr "table");
                ("table",
                 VDict [("table_width", VNum (Z.of_nat table_width));
                        ("has_column_header", VBool has_header);
                        ("has_row_header", VBool false);
                        ("children",
                         VList (map (table_row table_width) rows))])]]
  end.

Definition is_paragraph (child : node) : bool := has_name child "p".

(** One turn of the loop [for element in soup.children], as the blocks
    it appends. *)
Definition convert_element (element : node) : list value :=
  match element with
  | NavigableString _ | Comment _ => []
  | Tag nm _ cs =>
      if String.eqb nm "h1" then
        [rich_text_block "heading_1" (process_rich_text_element element)]
      else if String.eqb nm "h2" then
        [rich_text_block "heading_2" (process_rich_text_element element)]
      else if String.eqb nm "h3" then
        [rich_text_block "heading_3" (process_rich_text_element element)]
      else if String.eqb nm "p" then
        if nonempty (PyStr.strip (get_text element)) then
          [rich_text_block "paragraph" (process_rich_text_element element)]
        else []
      else if String.eqb nm "ul" then
        map (fun li => rich_text_block "bulleted_list_item"
                                       (process_rich_text_element li))
            (find_all_children "li" element)
      else if String.eqb nm "ol" then
        map (fun li => rich_text_block "numbered_list_item"
                                       (process_rich_text_element li))
            (find_all_children "li" element)
      else if String.eqb nm "blockquote" then
        [rich_text_block "quote" (process_rich_text_element element)]
      else if String.eqb nm "pre" then
        [VDict [("object", VStr "block"); ("type", VStr "code");
                ("code", VDict [("rich_text",
                                 VList [text_run (get_text element)]);
                                ("language", VStr (language_of element))])]]
      else if String.eqb nm "hr" then
        [VDict [("object", VStr "block"); ("type", VStr "divider");
                ("divider", VDict [])]]
      else if String.eqb nm "table" then convert_table element
      else
        match (if String.eqb nm "img" then attr element "src" else None) with
        | Some src =>
            if PyStr.startswith src "http://"
               || PyStr.startswith src "https://" then
              [VDict [("object", VStr "block"); ("type", VStr "image");
                      ("image",
                       VDict [("type", VStr "external");
                              ("external", VDict [("url", VStr src)])])]]
            else []
        | None =>
            if String.eqb nm "div" || String.eqb nm "span" then
              let div_blocks :=
                map (fun child =>
                       rich_text_block "paragraph"
                                       (process_rich_text_element child))
                    (filter is_paragraph cs) in
              match div_blocks with
              | [] => [rich_text_block "paragraph"
                                       (process_rich_text_element element)]
              | _ => div_blocks
              end
            else
              let text_content := PyStr.strip (get_text element) in
              if nonempty text_content then
                [rich_text_block "paragraph" [text_run text_content]]
              else []
        end
  end.

(** The loop over [soup.children]. *)
Definition classify (soup : list node) : list value :=
  flat_map convert_element soup.

(** *** The two backends *)

(** [_convert_with_bs4].  [markdown.markdown] needs a [str]: an object
    that the opening block left as it was makes it raise.  The calls of
    [markdown.markdown] and [BeautifulSoup] stand outside every [try]:
    what they raise on a text is raised by the method. *)
Definition _convert_with_bs4 (env : environment) (md_content : pyval)
  : result value :=
  n <- normalize md_content ;;
  match n with
  | None => Ok (VList [])
  | Some md =>
      if negb (truthy md) || negb (MARKDOWN_LIBS_AVAILABLE env) then
        Ok (VList [])
      else
        match md with
        | PStr s => soup <- markdown_soup env s ;; Ok (VList (classify soup))
        | PObj _ _ _ _ _ => Raise AttributeError
        end
  end.

(** One attempt to run the bridge: its parsed output on exit code 0. *)
Definition attempt (r : bridge_run) : option value :=
  match r with
  | Exited 0 (Some blocks) => Some blocks
  | _ => None
  end.

(** [_convert_with_martian].  Writing something other than a [str] to
    the temporary file raises. *)
Definition _convert_with_martian (env : environment) (md_content : pyval)
  : result value :=
  n <- normalize md_content ;;
  match n with
  | None => Ok (VList [])
  | Some md =>
      if negb (truthy md) then Ok (VList [])
      else if negb (script_exists env) then Raise FileNotFoundError
      else if tempfile_fails env then Raise OSError
      else
        match md with
        | PObj _ _ _ _ _ => Raise TypeError
        | PStr s =>
            match attempt (run_npx env s) with
            | Some blocks => Ok blocks
            | None =>
                match attempt (run_node env s) with
                | Some blocks => Ok blocks
                | None => Ok (VList [])
                end
            end
        end
  end.

(** [MarkdownConverter(use_martian).convert(md_content)] *)
Definition convert (env : environment) (use_martian : bool)
           (md_content : pyval) : result value :=
  md <- match md_content with
        | PStr _ => Ok md_content
        | PObj cls _ to_str to_json items =>
            if String.eqb cls "List" then
              try_except
                (s <- to_str ;; Ok (PStr s))
                (fun _ =>
                   match to_json with
                   | Some call => call
                   | None => joined <- join_items items ;; Ok (PStr joined)
                   end)
            else Ok md_content
        end ;;
  if negb (truthy md) then Ok (VList [])
  else
    from_martian <-
      (if use_martian then
         try_except
           (blocks <- _convert_with_martian env md ;;
            Ok (if truthy_value blocks then Some blocks else None))
           (fun _ => Ok None)
       else Ok None) ;;
    match from_martian with
    | Some blocks => Ok blocks
    | None => _convert_with_bs4 env md
    end.

End MarkdownConverter.

(** *** The module level functions of markdown_converter.py *)

(** [re.search] of [https?://[^\s]+]: the first match in the text. *)
Definition match_plain_url (s : string) : option string :=
  let scheme :=
    if String.prefix "https://" s then Some "https://"
    else if String.prefix "http://" s then Some "http://"
    else None in
  match scheme with
  | Some sch =>
      match PyStr.span (fun c => negb (PyStr.isspace c))
                       (LinkHandler.drop (String.length sch) s) with
      | (String c body, _) => Some (sch ++ String c body)
      | (EmptyString, _) => None
      end
  | None => None
  end.

Fixpoint search_url (s : string) : option string :=
  match match_plain_url s with
  | Some u => Some u
  | None => match s with
            | EmptyString => None
            | String _ s' => search_url s'
            end
  end.

(** The body of the innermost loop of [process_table_with_links] on one
    [text_obj] of a cell. *)
Definition link_text_obj (text_obj : value) : result value :=
  match text_obj with
  | VDict d =>
      match Dict.get "text" d with
      | Some (VDict text) =>
          let content := match Dict.get "content" text with
                         | Some c => c
                         | None => VStr EmptyString
                         end in
          if truthy_value content && negb (Dict.mem "link" text) then
            match content with
            | VStr c =>
                match search_url c with
                | Some u =>
                    Ok (VDict (Dict.set "text"
                                        (VDict (Dict.set "link"
                                                         (VDict [("url", VStr u)])
                                                         text)) d))
                | None => Ok text_obj
                end
            | _ => Raise TypeError        (* re.search on something else *)
            end
          else Ok text_obj
      | Some _ => Raise AttributeError    (* .get of something else *)
      | None => Ok text_obj
      end
  | _ => Ok text_obj
  end.

(** [for j, text_obj in enumerate(cell)]: a list is walked, a string or a
    dictionary yields strings, which the loop body passes over. *)
Definition link_cell (cell : value) : result value :=
  match cell with
  | VList items => items' <- for_each link_text_obj items ;; Ok (VList items')
  | VStr _ | VDict _ => Ok cell
  | VNone | VBool _ | VNum _ => Raise TypeError
  end.

Definition link_row (row : value) : result value :=
  match row with
  | VDict row_dict =>
      match Dict.get "table_row" row_dict with
      | Some table_row =>
          has_cells <- py_in "cells" table_row ;;
          if has_cells then
            cells <- getitem table_row "cells" ;;
            match cells with
            | VList cs =>
                cs' <- for_each link_cell cs ;;
                Ok (VDict (Dict.set "table_row"
                                    (LinkHandler.setitem table_row "cells"
                                                         (VList cs'))
                                    row_dict))
            | _ => Ok row
            end
          else Ok row
      | None => Ok row
      end
  | _ => Ok row
  end.

Definition process_table_with_links (block : value) : result value :=
  match block with
  | VDict d =>
      if LinkHandler.is_table_block d then
        match Dict.get "table" d with
        | Some table =>
            has_children <- py_in "children" table ;;
            if has_children then
              children <- getitem table "children" ;;
              match children with
              | VList rows =>
                  rows' <- for_each link_row rows ;;
                  Ok (VDict (Dict.set "table"
                                      (LinkHandler.setitem table "children"
                                                           (VList rows'))
                                      d))
              | _ => Ok block
              end
            else Ok block
        | None => Ok block
        end
      else Ok block
  | _ => Ok block
  end.

(** The loop [for i, block in enumerate(blocks)] of
    [clean_markdown_to_notion_blocks], over whatever [json.loads]
    returned. *)
Definition link_tables (blocks : value) : result value :=
  match blocks with
  | VList l =>
      l' <- for_each
              (fun block =>
                 match block with
                 | VDict d =>
                     match Dict.get "type" d with
                     | Some t => if eq_str t "table"
                                 then process_table_with_links block
                                 else Ok block
                     | None => Ok block
                     end
                 | _ => Ok block
                 end) l ;;
      Ok (VList l')
  | VStr _ | VDict _ => Ok blocks
  | VNone | VBool _ | VNum _ => Raise TypeError
  end.

(** [clean_markdown_to_notion_blocks].  Every failure after the script
    was found ends in [MarkdownConverter(use_martian=True).convert]; the
    removal of the temporary file is taken to succeed. *)
Definition clean_markdown_to_notion_blocks (env : environment)
           (md_content : pyval) : result value :=
  n <- normalize md_content ;;
  match n with
  | None => Ok (VList [])
  | Some md =>
      let fallback := MarkdownConverter.convert env true md in
      if negb (truthy md) then Ok (VList [])
      else if negb (script_exists env) then fallback
      else if tempfile_fails env then fallback
      else
        match md with
        | PObj _ _ _ _ _ => fallback       (* temp.write raises *)
        | PStr s =>
            match run_node env s with
            | Crashed => fallback
            | Exited rc parsed =>
                if negb (Z.eqb rc 0) then fallback
                else match parsed with
                     | None => fallback
                     | Some blocks =>
                         try_except (link_tables blocks) (fun _ => fallback)
                     end
            end
        end
  end.

(** [markdown_to_notion_blocks] with [debug=False];
    [Debug.markdown_to_notion_blocks] has the parameter. *)
Definition markdown_to_notion_blocks (env : environment) (md_content : pyval)
           (use_martian fix_links : bool) : result value :=
  if fix_links && LINK_HANDLER_AVAILABLE env then
    clean_markdown_to_notion_blocks env md_content
  else
    MarkdownConverter.convert env use_martian md_content.

(** *** [debug_markdown_conversion] and the [debug] flag *)

Module Debug.

(** A run of the debug helper ends as a [result] describes, or with
    [UnboundLocalError], which [exn] does not list: the helper reads its
    local [md_content_str] on a path that never binds it. *)
Inductive outcome (A : Type) : Type :=
| Finished (r : result A)
| UnboundLocal.

Arguments Finished {A} r.
Arguments UnboundLocal {A}.

(** The negated class of [url_pattern]: anything but white space, a
    closing parenthesis and a double quote. *)
Definition report_char (c : ascii) : bool :=
  negb (PyStr.isspace c || Ascii.eqb c ")"
        || Ascii.eqb c LinkHandler.double_quote).

(** [url_pattern] at the head of [s]: the match and its length. *)
Definition match_url (s : string) : option (string * nat) :=
  let scheme :=
    if String.prefix "https://" s then Some "https://"
    else if String.prefix "http://" s then Some "http://"
    else None in
  match scheme with
  | Some sch =>
      match PyStr.span report_char
                       (LinkHandler.drop (String.length sch) s) with
      | (String c body, _) =>
          let m := sch ++ String c body in Some (m, String.length m)
      | (EmptyString, _) => None
      end
  | None => None
  end.

(** [re.findall(url_pattern, s)]: the matches from left to right, none
    overlapping another. *)
Fixpoint findall_from (skip : nat) (s : string) : list string :=
  match s with
  | EmptyString => []
  | String _ s' =>
      match skip with
      | S k => findall_from k s'
      | O =>
          match match_url s with
          | Some (u, len) => u :: findall_from (len - 1) s'
          | None => findall_from 0 s'
          end
      end
  end.

Definition findall (s : string) : list string := findall_from 0 s.

(** The block that opens the helper: [md_content] and [md_content_str]
    after it.  [md_content_str] stays unbound when [str] raises and the
    object has no [to_json]; when [str] returns a blank text and the
    join of the items raises, it is bound to that text and [md_content]
    is still the object.  [Ok None] is the early return of the empty
    report. *)
Definition opening (md_content : pyval)
  : result (option (pyval * option pyval)) :=
  match md_content with
  | PStr _ => Ok (Some (md_content, Some md_content))
  | PObj _ _ to_str to_json items =>
      let joined_items :=
        joined <- join_items items ;;
        Ok (Some (PStr joined, Some (PStr joined))) in
      let handler (bound : option pyval) :=
        match to_json with
        | Some call =>
            try_except
              (v <- call ;; Ok (Some (v, Some v)))
              (fun _ =>
                 match items with
                 | Some _ => joined_items
                 | None => Ok None
                 end)
        | None => Ok (Some (md_content, bound))
        end in
      match to_str with
      | Ok md_content_str =>
          let as_string :=
            Ok (Some (PStr md_content_str, Some (PStr md_content_str))) in
          match items with
          | Some _ =>
              if String.eqb (PyStr.strip md_content_str) EmptyString
              then try_except joined_items
                              (fun _ => handler (Some (PStr md_content_str)))
              else as_string
          | None => as_string
          end
      | Raise _ => handler None
      | OutOfFuel => OutOfFuel
      end
  end.

(** [d["link"].get("url", "")] for a dictionary [d] whose [link] is a
    dictionary. *)
Definition url_or_empty (link : dict) : value :=
  match Dict.get "url" link with
  | Some u => u
  | None => VStr EmptyString
  end.

(** One turn of the loop [for text_item in value] under the key
    [rich_text]. *)
Definition text_item_urls (text_item : value) : list value :=
  match text_item with
  | VDict item =>
      match Dict.get "text" item with
      | Some (VDict text) =>
          match Dict.get "link" text with
          | Some (VDict link) => [url_or_empty link]
          | _ => []
          end
      | _ => []
      end
  | _ => []
  end.

(** One turn of the loop [for block in blocks] of
    [extract_urls_from_blocks], as the URLs it appends to
    [urls_in_blocks]: a dictionary is walked item by item, anything else
    is passed over.  The helper calls itself on [[value]] for a
    dictionary and on [value] for a list. *)
Fixpoint extract_block (block : value) : list value :=
  match block with
  | VDict d =>
      (fix items (d : list (string * value)) : list value :=
         match d with
         | [] => []
         | (key, v) :: d' =>
             (match v with
              | VStr s =>
                  if String.eqb key "url" && PyStr.startswith s "http"
                  then [v] else []
              | VDict vd =>
                  if String.eqb key "link" && Dict.mem "url" vd then
                    [url_or_empty vd]
                  else
                    match (if String.eqb key "text" then Dict.get "link" vd
                           else None) with
                    | Some (VDict link) => [url_or_empty link]
                    | _ => extract_block v
                    end
              | VList l =>
                  if String.eqb key "rich_text" then
                    flat_map text_item_urls l
                  else
                    (fix each (l : list value) : list value :=
                       match l with
                       | [] => []
                       | x :: l' => extract_block x ++ each l'
                       end) l
              | VNone | VBool _ | VNum _ => []
              end ++ items d')%list
         end) d
  | _ => []
  end.

(** The call [extract_urls_from_blocks(blocks)] on what [convert]
    returned: a string or a dictionary yields strings, which the loop
    passes over. *)
Definition extract_urls_from_blocks (blocks : value) : result (list value) :=
  match blocks with
  | VList l => Ok (flat_map extract_block l)
  | VStr _ | VDict _ => Ok []
  | VNone | VBool _ | VNum _ => Raise TypeError
  end.

(** The dictionary that the helper returns. *)
Record report : Type := mkReport {
  markdown : pyval;
  urls_found_in_markdown : list string;
  urls_found_in_blocks : list value;
  missing_urls : list string;
  blocks : value
}.

(** [url not in urls_in_blocks] *)
Definition reported (urls_in_blocks : list value) (u : string) : bool :=
  existsb (fun v => eq_str v u) urls_in_blocks.

Definition debug_markdown_conversion (env : environment)
           (md_content : pyval) : outcome report :=
  match opening md_content with
  | Ok None => Finished (Ok (mkReport (PStr EmptyString) [] [] [] (VList [])))
  | Ok (Some (_, None)) => UnboundLocal
  | Ok (Some (_, Some (PObj _ _ _ _ _))) =>
      Finished (Raise TypeError)      (* re.findall on something else *)
  | Ok (Some (md, Some (PStr md_content_str))) =>
      let urls_in_content := findall md_content_str in
      Finished
        (converted <- MarkdownConverter.convert env true md ;;
         urls_in_blocks <- extract_urls_from_blocks converted ;;
         Ok (mkReport md urls_in_content urls_in_blocks
                      (filter (fun u => negb (reported urls_in_blocks u))
                              urls_in_content)
                      converted))
  | Raise e => Finished (Raise e)
  | OutOfFuel => Finished OutOfFuel
  end.

(** [markdown_to_notion_blocks] with its [debug] parameter: the report
    is computed for printing, after the conversion when links are fixed
    and before it otherwise, and what it raises is not caught. *)
Definition markdown_to_notion_blocks (env : environment)
           (md_content : pyval) (use_martian debug fix_links : bool)
  : outcome value :=
  let after_report (k : outcome value) : outcome value :=
    if debug then
      match debug_markdown_conversion env md_content with
      | Finished (Ok _) => k
      | Finished (Raise e) => Finished (Raise e)
      | Finished OutOfFuel => Finished OutOfFuel
      | UnboundLocal => UnboundLocal
      end
    else k in
  if fix_links && LINK_HANDLER_AVAILABLE env then
    match clean_markdown_to_notion_blocks env md_content with
    | Ok converted => after_report (Finished (Ok converted))
    | r => Finished r
    end
  else
    after_report
      (Finished (MarkdownConverter.convert env use_martian md_content)).

End Debug.

(** ** NotionAction.py: the methods that prepare a page from markdown *)

Module NotionAction.











End NotionAction.

(** * Vocabulary of the properties *)

Import LinkHandler MarkdownConverter.

(** The built-in backend as a [converter_func]:
    [MarkdownConverter(use_martian=False).convert]. *)
Definition builtin_backend (env : environment) (s : string) : result value :=
  MarkdownConverter.convert env false (PStr s).

(** An environment without the bridge, in which markdown renders a text
    with no markup as one paragraph. *)
Definition plain_env : environment := {|
  LINK_HANDLER_AVAILABLE := true;
  MARKDOWN_LIBS_AVAILABLE := true;
  script_exists := false;
  tempfile_fails := false;
  run_npx := fun _ => Crashed;
  run_node := fun _ => Crashed;
  markdown_soup := fun s => Ok [Soup.Tag "p" [] [Soup.NavigableString s]]
|}.

(** An object of a class named [List] whose [__str__] and [to_json] both
    raise. *)
Definition broken_list : pyval :=
  PObj "List" true (Raise UserError) (Some (Raise UserError)) None.

(** An object of another class whose [__str__] raises and that has
    neither [to_json] nor [__iter__]. *)
Definition opaque_object : pyval :=
  PObj "Doc" true (Raise UserError) None None.

(** Reading a block: [b["type"]], [b["table"]["table_width"]],
    [b["table"]["children"]] and [row["table_row"]["cells"]]. *)
Definition block_type (b : value) : option string :=
  match b with
  | VDict d => match Dict.get "type" d with
               | Some (VStr t) => Some t
               | _ => None
               end
  | _ => None
  end.






(** The content of a text run, [run["text"]["content"]]. *)
Definition content_of (run : value) : option string :=
  match run with
  | VDict d => match Dict.get "text" d with
               | Some (VDict t) => match Dict.get "content" t with
                                   | Some (VStr c) => Some c
                                   | _ => None
                                   end
               | _ => None
               end
  | _ => None
  end.













(** The seven block types built from rich text. *)
Definition rich_text_types : list string :=
  ["heading_1"; "heading_2"; "heading_3"; "paragraph";
   "bulleted_list_item"; "numbered_list_item"; "quote"].

(** The link of a text run, [run["text"]["link"]["url"]]. *)
Definition link_of (run : value) : option string :=
  match run with
  | VDict d => match Dict.get "text" d with
               | Some (VDict t) =>
                   match Dict.get "link" t with
                   | Some (VDict l) => match Dict.get "url" l with
                                       | Some (VStr u) => Some u
                                       | _ => None
                                       end
                   | _ => None
                   end
               | _ => None
               end
  | _ => None
  end.

(** A run after resolution by [link_data]: only [run["text"]] is
    written. *)
Definition resolved_run (run text_dict : dict) (link_data : link) : value :=
  VDict (Dict.set "text" (VDict (resolve text_dict link_data)) run).

(** The first entry of the lookup, in iteration order, whose token
    occurs in the content. *)
Definition first_hit (link_lookup : list (string * link)) (content : string)
           (ph : string) (link_data : link) : Prop :=
  exists before after,
    link_lookup = (before ++ (ph, link_data) :: after)%list
    /\ PyStr.contains content ph = true
    /\ forall e, In e before -> PyStr.contains content (fst e) = false.

(** The token of the entry with index [i] when the first [m] entries
    come from markdown links and the others from bare URLs. *)
Definition token_of (m i : nat) : string :=
  (if Nat.ltb i m then "LINKPLACEHOLDER_" else "URLLINKPLACEHOLDER_")
  ++ PyStr.of_nat i.

Definition named_by_index (m : nat) (links : list link) : Prop :=
  forall i l, nth_error links i = Some l -> placeholder l = token_of m i.

(** The entry of [link_lookup] for a link. *)
Definition entry (l : link) : string * link := (placeholder l, l).

(** Eleven markdown links in a row. *)
Definition eleven_links : string :=
  "[a](u0) [b](u1) [c](u2) [d](u3) [e](u4) [f](u5) "
  ++ "[g](u6) [h](u7) [i](u8) [j](u9) [k](u10)".

(** Twelve markdown links in a row. *)
Definition twelve_links : string := eleven_links ++ " [l](u11)".

(** Three links as preprocessing names them, and a run that holds the
    tokens of the second and the third. *)
Definition three_links : list link :=
  [mkLink "LINKPLACEHOLDER_0" "x" "https://x.example";
   mkLink "LINKPLACEHOLDER_1" "y" "https://y.example";
   mkLink "LINKPLACEHOLDER_2" "z" "https://z.example"].

Definition run_with (content : string) : dict :=
  [("type", VStr "text"); ("text", VDict [("content", VStr content)])].

(** A table whose second body cell is a link with the display text
    [LINKPLACEHOLDER_0], the masked text that preprocessing makes of it,
    and the document that markdown and the parser make of the masked
    text. *)
Definition mirror_table_md : string :=
  "| Site | Mirror |
|---|---|
| [x](https://u.example) | [LINKPLACEHOLDER_0](https://v.example) |".

Definition mirror_table_masked : string :=
  "| Site | Mirror |
|---|---|
| [LINKPLACEHOLDER_0] | [LINKPLACEHOLDER_1] |".

Definition nl : Soup.node :=
  Soup.NavigableString (String PyStr.newline EmptyString).

Definition mirror_table_soup : list Soup.node :=
  [Soup.Tag "table" []
     [nl;
      Soup.Tag "thead" []
        [nl;
         Soup.Tag "tr" []
           [nl; Soup.Tag "th" [] [Soup.NavigableString "Site"];
            nl; Soup.Tag "th" [] [Soup.NavigableString "Mirror"]; nl];
         nl];
      nl;
      Soup.Tag "tbody" []
        [nl;
         Soup.Tag "tr" []
           [nl; Soup.Tag "td" [] [Soup.NavigableString "[LINKPLACEHOLDER_0]"];
            nl; Soup.Tag "td" [] [Soup.NavigableString "[LINKPLACEHOLDER_1]"];
            nl];
         nl];
      nl]].

Definition mirror_env : environment := {|
  LINK_HANDLER_AVAILABLE := true;
  MARKDOWN_LIBS_AVAILABLE := true;
  script_exists := false;
  tempfile_fails := false;
  run_npx := fun _ => Crashed;
  run_node := fun _ => Crashed;
  markdown_soup := fun s =>
    Ok (if String.eqb s mirror_table_masked
        then mirror_table_soup
        else [Soup.Tag "p" [] [Soup.NavigableString s]])
|}.

Definition mirror_links : list link :=
  [mkLink "LINKPLACEHOLDER_0" "x" "https://u.example";
   mkLink "LINKPLACEHOLDER_1" "LINKPLACEHOLDER_0" "https://v.example"].

(** A table row block with the given cells. *)
Definition row_block (cells : list value) : value :=
  VDict [("type", VStr "table_row");
         ("table_row", VDict [("cells", VList cells)])].

(** The placeholder tokens of a list of links. *)
Definition tokens_of (links : list link) : list string :=
  map placeholder links.

Definition has_token (tokens : list string) (s : string) : bool :=
  existsb (PyStr.contains s) tokens.

(** A token occurs in a block tree when some string of the tree, a
    dictionary key included, holds it. *)
Fixpoint mentions (tokens : list string) (v : value) : bool :=
  match v with
  | VStr s => has_token tokens s
  | VList l =>
      (fix any (l : list value) : bool :=
         match l with
         | [] => false
         | x :: l' => mentions tokens x || any l'
         end) l
  | VDict d =>
      (fix any (d : list (string * value)) : bool :=
         match d with
         | [] => false
         | (k, x) :: d' => has_token tokens k || mentions tokens x || any d'
         end) d
  | VNone | VBool _ | VNum _ => false
  end.

(** The height of a block tree. *)
Fixpoint height (v : value) : nat :=
  match v with
  | VList l =>
      S ((fix hmax (l : list value) : nat :=
            match l with
            | [] => 0
            | x :: l' => Nat.max (height x) (hmax l')
            end) l)
  | VDict d =>
      S ((fix hmax (d : list (string * value)) : nat :=
            match d with
            | [] => 0
            | (_, x) :: d' => Nat.max (height x) (hmax d')
            end) d)
  | _ => 0
  end.

Definition is_str (v : value) : bool :=
  match v with VStr _ => true | _ => false end.

(** The shape that the traversal relies on: what is stored under [table]
    and [table_row] is a dictionary and what is stored under [content]
    is a string, at every level. *)
Definition entry_shaped (k : string) (v : value) : bool :=
  (if String.eqb k "table" || String.eqb k "table_row" then is_dict v
   else true)
  && (if String.eqb k "content" then is_str v else true).

Fixpoint well_shaped (v : value) : bool :=
  match v with
  | VList l =>
      (fix all (l : list value) : bool :=
         match l with
         | [] => true
         | x :: l' => well_shaped x && all l'
         end) l
  | VDict d =>
      (fix all (d : list (string * value)) : bool :=
         match d with
         | [] => true
         | (k, x) :: d' => entry_shaped k x && well_shaped x && all d'
         end) d
  | _ => true
  end.

(** A tree that the traversal with fuel [bound] returns as it is: no
    token occurs in it, it has the expected shape, and it is less than
    [bound] high. *)
Definition settled (tokens : list string) (bound : nat) (x : value) : Prop :=
  mentions tokens x = false /\ well_shaped x = true /\ height x < bound.

(** Two paragraphs, of which the second holds a token. *)
Definition two_paragraphs : list value :=
  [rich_text_block "paragraph" [text_run "plain text"];
   rich_text_block "paragraph" [text_run "[LINKPLACEHOLDER_0]"]].

Definition one_link : list link :=
  [mkLink "LINKPLACEHOLDER_0" "Example" "https://example.com"].

(** A line that toggles the fence. *)
Definition is_fence (line : string) : bool :=
  PyStr.startswith (PyStr.strip line) fence.

(** The flag [in_code_block] when the loop reaches the line with index
    [i], having started with the flag [b]. *)
Fixpoint fence_state (lines : list string) (b : bool) (i : nat) : bool :=
  match i, lines with
  | S i', line :: rest =>
      fence_state rest (if is_fence line then negb b else b) i'
  | _, _ => b
  end.

(** The lines on which bare URLs are replaced: neither a fence marker
    nor inside a fence. *)
Fixpoint outside_fences (lines : list string) (b : bool) : list string :=
  match lines with
  | [] => []
  | line :: rest =>
      if is_fence line then outside_fences rest (negb b)
      else if b then outside_fences rest b
      else line :: outside_fences rest b
  end.

(** The links after the bare URLs of the given lines, taken in order,
    have been replaced. *)
Definition record_lines (markdown_content : string) (lines : list string)
           (links : list link) : list link :=
  fold_left
    (fun ls line =>
       snd (re_sub match_bare_url (replace_bare_url markdown_content) line ls))
    lines links.

(** A text with the same URL inside a fenced code block and after it,
    what preprocessing makes of it, and the document that markdown and
    the parser make of that. *)
Definition fenced_md : string :=
  "```
https://example.com
```

https://example.com".

Definition fenced_masked : string :=
  "```
https://example.com
```

URLLINKPLACEHOLDER_0".

Definition fenced_soup : list Soup.node :=
  [Soup.Tag "pre" []
     [Soup.Tag "code" []
        [Soup.NavigableString
           ("https://example.com" ++ String PyStr.newline EmptyString)]];
   nl;
   Soup.Tag "p" [] [Soup.NavigableString "URLLINKPLACEHOLDER_0"]].

Definition fenced_env : environment := {|
  LINK_HANDLER_AVAILABLE := true;
  MARKDOWN_LIBS_AVAILABLE := true;
  script_exists := false;
  tempfile_fails := false;
  run_npx := fun _ => Crashed;
  run_node := fun _ => Crashed;
  markdown_soup := fun s =>
    Ok (if String.eqb s fenced_masked then fenced_soup
        else [Soup.Tag "p" [] [Soup.NavigableString s]])
|}.

(** The code block with the given text and no language. *)
Definition code_block (code_text : string) : value :=
  VDict [("object", VStr "block"); ("type", VStr "code");
         ("code", VDict [("rich_text", VList [text_run code_text]);
                         ("language", VStr "plain text")])].

(** A string without its first [k] characters. *)
Fixpoint string_drop (k : nat) (s : string) : string :=
  match k, s with
  | S k', String _ s' => string_drop k' s'
  | _, _ => s
  end.

(** The backend that the facade selects, as a [converter_func]:
    [clean_markdown_to_notion_blocks] when links are to be fixed and the
    link handler was imported, [MarkdownConverter(use_martian).convert]
    otherwise. *)
Definition selected_backend (env : environment)
           (use_martian fix_links : bool) (s : string) : result value :=
  if fix_links && LINK_HANDLER_AVAILABLE env
  then clean_markdown_to_notion_blocks env (PStr s)
  else MarkdownConverter.convert env use_martian (PStr s).

(** The link preservation protocol around that backend: the text is
    masked, the backend converts the masked text and the placeholders
    are resolved in its output. *)
Definition wrapped (env : environment) (fuel : nat) (md : string)
           (use_martian fix_links : bool) : result value :=
  fix_markdown_links fuel md (selected_backend env use_martian fix_links).

(** A bound on the depth that the traversal of a tree can reach.  It is
    the height, except that a dictionary with a key [content] counts as
    if it already had the [link] that resolution may give it; resolution
    therefore never raises it. *)
Fixpoint potential (v : value) : nat :=
  match v with
  | VList l =>
      S ((fix pmax (l : list value) : nat :=
            match l with
            | [] => 0
            | x :: l' => Nat.max (potential x) (pmax l')
            end) l)
  | VDict d =>
      S (Nat.max
           (if Dict.mem "content" d then 1 else 0)
           ((fix pmax (d : list (string * value)) : nat :=
               match d with
               | [] => 0
               | (_, x) :: d' => Nat.max (potential x) (pmax d')
               end) d))
  | _ => 0
  end.

(** The constructor of a value. *)
Definition same_kind (v r : value) : Prop :=
  is_dict r = is_dict v /\ is_list r = is_list v /\ is_str r = is_str v.

(** What the traversal makes of a tree of the expected shape: a tree of
    the same kind and shape whose [potential] is not larger. *)
Definition tamed (v r : value) : Prop :=
  same_kind v r /\ well_shaped r = true /\ potential r <= potential v.

(** The largest [potential] among the elements of a list and among the
    values of a dictionary. *)
Fixpoint list_potential (l : list value) : nat :=
  match l with
  | [] => 0
  | x :: l' => Nat.max (potential x) (list_potential l')
  end.

Fixpoint dict_potential (d : dict) : nat :=
  match d with
  | [] => 0
  | (_, x) :: d' => Nat.max (potential x) (dict_potential d')
  end.

(** Two dictionaries with the same keys in the same order, the values of
    the second tamed values of the first. *)
Definition tamed_dict (d d' : dict) : Prop :=
  Forall2 (fun kv kv' => fst kv' = fst kv /\ tamed (snd kv) (snd kv')) d d'.

(** Eleven links, each a paragraph of its own, and an environment in
    which markdown renders every line that is not empty as a paragraph,
    as it does for lines without markup that blank lines separate. *)
Definition eleven_paragraphs : string :=
  "[a](https://a.example)

[b](https://b.example)

[c](https://c.example)

[d](https://d.example)

[e](https://e.example)

[f](https://f.example)

[g](https://g.example)

[h](https://h.example)

[i](https://i.example)

[j](https://j.example)

[k](https://k.example)".

Definition paragraph_soup (s : string) : list Soup.node :=
  flat_map (fun line =>
              if String.eqb line EmptyString then []
              else [Soup.Tag "p" [] [Soup.NavigableString line]; nl])
           (PyStr.split_lines s).

Definition paragraphs_env : environment := {|
  LINK_HANDLER_AVAILABLE := true;
  MARKDOWN_LIBS_AVAILABLE := true;
  script_exists := false;
  tempfile_fails := false;
  run_npx := fun _ => Crashed;
  run_node := fun _ => Crashed;
  markdown_soup := fun s => Ok (paragraph_soup s)
|}.

(** A paragraph that is one link. *)
Definition link_paragraph (content href : string) : value :=
  rich_text_block "paragraph" [link_run content href].

(** ** Vocabulary of the further properties *)

(** Every character of a string satisfies [p]. *)
Fixpoint all_chars (p : ascii -> bool) (s : string) : bool :=
  match s with
  | EmptyString => true
  | String c s' => p c && all_chars p s'
  end.

(** An entry recorded for a markdown link: the display text holds no
    closing bracket and the target no closing parenthesis. *)
Definition markdown_entry (l : link) : Prop :=
  String.prefix "LINKPLACEHOLDER_" (placeholder l) = true
  /\ all_chars (not_char "]") (text l) = true
  /\ all_chars (not_char ")") (url l) = true.

(** An entry recorded for a bare URL: the display text is the target,
    which starts with a scheme and consists of characters of the URL
    pattern. *)
Definition bare_url_entry (l : link) : Prop :=
  String.prefix "URLLINKPLACEHOLDER_" (placeholder l) = true
  /\ text l = url l
  /\ (String.prefix "http://" (url l) = true
      \/ String.prefix "https://" (url l) = true)
  /\ all_chars url_char (url l) = true.

(** The two schemes of the URL pattern. *)
Definition is_scheme (sch : string) : Prop :=
  sch = "http://" \/ sch = "https://".

(** A value that is neither a dictionary nor a list. *)
Definition scalar (v : value) : bool := negb (is_dict v || is_list v).

(** An item of a dictionary before and after postprocessing: the key and
    the kind of the value are kept, and a scalar value is kept as it
    is. *)
Definition item_kept (kv kv' : string * value) : Prop :=
  fst kv' = fst kv
  /\ same_kind (snd kv) (snd kv')
  /\ (scalar (snd kv) = true -> snd kv' = snd kv).

Definition fields_kept (d d' : dict) : Prop := Forall2 item_kept d d'.

(** [link_lookup.get(k)], and the last entry of [extracted_links] whose
    placeholder is [k]. *)
Fixpoint lookup_get (k : string) (d : list (string * link)) : option link :=
  match d with
  | [] => None
  | (k', l) :: d' => if String.eqb k k' then Some l else lookup_get k d'
  end.

Definition last_with (k : string) (links : list link) : option link :=
  List.find (fun l => String.eqb k (placeholder l)) (rev links).

(** What the bridge gives [_convert_with_martian] for a text: the parsed
    output of the first of its two runs that exits with code 0, when the
    script is there and the temporary file can be written. *)
Definition bridge_answer (env : environment) (s : string) : option value :=
  if script_exists env && negb (tempfile_fails env) then
    match attempt (run_npx env s) with
    | Some answer => Some answer
    | None => attempt (run_node env s)
    end
  else None.

(** What the built-in parser gives for a text: nothing for the empty
    text and without the markdown libraries, and otherwise the blocks of
    the document that [markdown.markdown] and [BeautifulSoup] make of
    the text, or what one of the two raises. *)
Definition builtin_blocks (env : environment) (s : string) : result value :=
  if nonempty s && MARKDOWN_LIBS_AVAILABLE env
  then soup <- markdown_soup env s ;; Ok (VList (classify soup))
  else Ok (VList []).


(** A declaration that the HTML parser of the standard library does not
    accept, and an environment without the bridge in which markdown and
    the parser raise on the text that holds it and render every other
    text as one paragraph. *)
Definition rejected_text : string := "<![x y]>".

Definition rejecting_env : environment := {|
  LINK_HANDLER_AVAILABLE := true;
  MARKDOWN_LIBS_AVAILABLE := true;
  script_exists := false;
  tempfile_fails := false;
  run_npx := fun _ => Crashed;
  run_node := fun _ => Crashed;
  markdown_soup := fun s =>
    if String.eqb s rejected_text then Raise LibraryError
    else Ok [Soup.Tag "p" [] [Soup.NavigableString s]]
|}.

(** An environment in which [node] answers every text with the empty
    list and [npx] with one paragraph. *)
Definition silent_node_env : environment := {|
  LINK_HANDLER_AVAILABLE := true;
  MARKDOWN_LIBS_AVAILABLE := true;
  script_exists := true;
  tempfile_fails := false;
  run_npx := fun s => Exited 0 (Some (VList [rich_text_block "paragraph"
                                                [text_run s]]));
  run_node := fun _ => Exited 0 (Some (VList []));
  markdown_soup := fun s => Ok [Soup.Tag "p" [] [Soup.NavigableString s]]
|}.

(** The blocks of the classifier, by type: what is stored beside
    [object] and [type]. *)
Inductive shaped_block : value -> Prop :=
| shaped_rich_text (ty : string) (runs : list value) :
    In ty rich_text_types -> shaped_block (rich_text_block ty runs)
| shaped_code (code_text language : string) :
    shaped_block
      (VDict [("object", VStr "block"); ("type", VStr "code");
              ("code", VDict [("rich_text", VList [text_run code_text]);
                              ("language", VStr language)])])
| shaped_divider :
    shaped_block
      (VDict [("object", VStr "block"); ("type", VStr "divider");
              ("divider", VDict [])])
| shaped_image (src : string) :
    PyStr.startswith src "http://" || PyStr.startswith src "https://" = true ->
    shaped_block
      (VDict [("object", VStr "block"); ("type", VStr "image");
              ("image", VDict [("type", VStr "external");
                               ("external", VDict [("url", VStr src)])])])
| shaped_table (width : nat) (has_header : bool) (rows : list value) :
    0 < width ->
    shaped_block
      (VDict [("object", VStr "block"); ("type", VStr "table");
              ("table", VDict [("table_width", VNum (Z.of_nat width));
                               ("has_column_header", VBool has_header);
                               ("has_row_header", VBool false);
                               ("children", VList rows)])]).

(** The text that a list of runs shows. *)
Definition run_text (run : value) : string :=
  match content_of run with
  | Some c => c
  | None => EmptyString
  end.

Fixpoint text_of_runs (runs : list value) : string :=
  match runs with
  | [] => EmptyString
  | run :: rest => run_text run ++ text_of_runs rest
  end.

(** The texts of a list of nodes, joined. *)
Fixpoint texts (l : list Soup.node) : string :=
  match l with
  | [] => EmptyString
  | c :: l' => Soup.get_text c ++ texts l'
  end.

(** A child whose text the inline formatter keeps: a tag, a string that
    is empty or holds more than white space, a comment of white space. *)
Definition solid (c : Soup.node) : bool :=
  match c with
  | Soup.NavigableString s =>
      String.eqb s EmptyString || nonempty (PyStr.strip s)
  | Soup.Comment s => negb (nonempty (PyStr.strip s))
  | Soup.Tag _ _ _ => true
  end.

(** A table of one row with one cell that holds one run. *)
Definition one_cell_table (run : value) : value :=
  VDict [("object", VStr "block"); ("type", VStr "table");
         ("table", VDict [("table_width", VNum 1);
                          ("has_column_header", VBool false);
                          ("has_row_header", VBool false);
                          ("children", VList [row_block [VList [run]]])])].

(** A string is empty or starts with white space. *)
Definition at_white_space (s : string) : Prop :=
  s = EmptyString
  \/ exists c rest, s = String c rest /\ PyStr.isspace c = true.


(** A tree of the expected shape that the traversal can go through with
    any fuel above [n]. *)
Definition fit (n : nat) (v : value) : Prop :=
  well_shaped v = true /\ potential v <= n.

(** A code block without a language around one run. *)
Definition code_block_of (run : value) : value :=
  VDict [("object", VStr "block"); ("type", VStr "code");
         ("code", VDict [("rich_text", VList [run]);
                         ("language", VStr "plain text")])].

(** A fenced code block that holds an index followed by a call, what
    preprocessing makes of it, and an environment in which markdown and
    the parser render the masked text as the code block it is. *)
Definition fenced_call_md : string :=
  "```
v = a[0](x)
```".

Definition fenced_call_masked : string :=
  "```
v = a[LINKPLACEHOLDER_0]
```".

Definition fenced_call_env : environment := {|
  LINK_HANDLER_AVAILABLE := true;
  MARKDOWN_LIBS_AVAILABLE := true;
  script_exists := false;
  tempfile_fails := false;
  run_npx := fun _ => Crashed;
  run_node := fun _ => Crashed;
  markdown_soup := fun s =>
    Ok (if String.eqb s fenced_call_masked then
          [Soup.Tag "pre" []
             [Soup.Tag "code" []
                [Soup.NavigableString
                   ("v = a[LINKPLACEHOLDER_0]"
                    ++ String PyStr.newline EmptyString)]]]
        else [Soup.Tag "p" [] [Soup.NavigableString s]])
|}.

(** The code block that the classifier builds for a [pre] element, with
    its language and its text. *)
Definition code_block_in (language code_text : string) : value :=
  VDict [("object", VStr "block"); ("type", VStr "code");
         ("code", VDict [("rich_text", VList [text_run code_text]);
                         ("language", VStr language)])].

(** A fenced code block that holds an index followed by a call beside a
    URL, what preprocessing makes of it, and an environment in which
    markdown and the parser render the masked text as the code block it
    is. *)
Definition fenced_link_md : string :=
  "```
v = a[0](x)
https://example.com
```".

Definition fenced_link_masked : string :=
  "```
v = a[LINKPLACEHOLDER_0]
https://example.com
```".

Definition fenced_link_env : environment := {|
  LINK_HANDLER_AVAILABLE := true;
  MARKDOWN_LIBS_AVAILABLE := true;
  script_exists := false;
  tempfile_fails := false;
  run_npx := fun _ => Crashed;
  run_node := fun _ => Crashed;
  markdown_soup := fun s =>
    Ok (if String.eqb s fenced_link_masked then
          [Soup.Tag "pre" []
             [Soup.Tag "code" []
                [Soup.NavigableString
                   ("v = a[LINKPLACEHOLDER_0]"
                    ++ String PyStr.newline "https://example.com"
                    ++ String PyStr.newline EmptyString)]]]
        else [Soup.Tag "p" [] [Soup.NavigableString s]])
|}.

(** The tags below which bs4 builds strings of classes of their own
    ([Script], [Stylesheet], [TemplateString] and the two of ruby
    text), and an element with no such tag in it. *)
Definition string_containers : list string :=
  ["script"; "style"; "template"; "rt"; "rp"].

Definition plain_strings (n : Soup.node) : bool :=
  forallb (fun d => negb (Soup.named string_containers d))
          (n :: Soup.descendants n).

(** An environment in which [npx] fails, [node] answers every text with
    the empty list, and markdown and the parser raise on the text that
    they do not accept. *)
Definition empty_answer_env : environment := {|
  LINK_HANDLER_AVAILABLE := true;
  MARKDOWN_LIBS_AVAILABLE := true;
  script_exists := true;
  tempfile_fails := false;
  run_npx := fun _ => Crashed;
  run_node := fun _ => Exited 0 (Some (VList []));
  markdown_soup := fun s =>
    if String.eqb s rejected_text then Raise LibraryError
    else Ok [Soup.Tag "p" [] [Soup.NavigableString s]]
|}.

(** * Properties *)

Unset Implicit Arguments.

(** ** Round trip of link text *)

Lemma preprocess_markdown_link_example :
  preprocess_markdown_links "[Example](https://example.com)"
  = ("[LINKPLACEHOLDER_0]",
     [mkLink "LINKPLACEHOLDER_0" "Example" "https://example.com"]).
Proof. vm_compute. reflexivity. Qed.

Lemma preprocess_bare_url_example :
  preprocess_markdown_links "https://example.com"
  = ("URLLINKPLACEHOLDER_0",
     [mkLink "URLLINKPLACEHOLDER_0" "https://example.com"
             "https://example.com"]).
Proof. vm_compute. reflexivity. Qed.

Section RoundTrip.
Variable env : environment.
Hypothesis libs : MARKDOWN_LIBS_AVAILABLE env = true.

(** What markdown and the HTML parser make of the two masked texts:
    neither token is markup, so each is the text of one paragraph. *)
Hypothesis soup_link :
  markdown_soup env "[LINKPLACEHOLDER_0]"
  = Ok [Soup.Tag "p" [] [Soup.NavigableString "[LINKPLACEHOLDER_0]"]].
Hypothesis soup_url :
  markdown_soup env "URLLINKPLACEHOLDER_0"
  = Ok [Soup.Tag "p" [] [Soup.NavigableString "URLLINKPLACEHOLDER_0"]].

(** C1.  Through preprocessing, the built-in backend and postprocessing,
    the text [[Example](https://example.com)] comes out as one paragraph
    whose single run has content [Example] and link
    [https://example.com], and the bare URL [https://example.com] comes
    out as one paragraph whose single run has that URL as content and
    as link.  Five units of fuel are enough for the traversal. *)
Theorem link_text_round_trip :
  forall fuel, 5 <= fuel ->
    fix_markdown_links fuel "[Example](https://example.com)"
                       (builtin_backend env)
    = Ok (VList [rich_text_block "paragraph"
                   [link_run "Example" "https://example.com"]])
    /\
    fix_markdown_links fuel "https://example.com" (builtin_backend env)
    = Ok (VList [rich_text_block "paragraph"
                   [link_run "https://example.com"
                             "https://example.com"]]).
Proof.
  intros fuel Hfuel.
  do 5 (destruct fuel as [|fuel]; [lia|]).
  unfold fix_markdown_links.
  rewrite preprocess_markdown_link_example, preprocess_bare_url_example.
  unfold builtin_backend, convert, _convert_with_bs4.
  cbn [normalize bind truthy negb String.eqb Ascii.eqb Bool.eqb orb andb].
  rewrite libs, soup_link, soup_url.
  split; vm_compute; reflexivity.
Qed.
End RoundTrip.

Lemma link_text_round_trip_witness :
  MARKDOWN_LIBS_AVAILABLE plain_env = true
  /\ 5 <= 5
  /\ fix_markdown_links 5 "[Example](https://example.com)"
                        (builtin_backend plain_env)
     = Ok (VList [rich_text_block "paragraph"
                    [link_run "Example" "https://example.com"]])
  /\ fix_markdown_links 5 "https://example.com" (builtin_backend plain_env)
     = Ok (VList [rich_text_block "paragraph"
                    [link_run "https://example.com" "https://example.com"]]).
Proof.
  split; [reflexivity|]. split; [lia|].
  apply (@link_text_round_trip plain_env);
    [reflexivity | reflexivity | reflexivity | lia].
Defined.

(** ** The check for a preceding [](] *)

(** C6.  The check of [replace_bare_url] reads the two characters before
    offset [match.start()] of the text the function was called with,
    while that offset counts from the start of the line.  On the second
    line of the first text the URL follows [](] and is replaced and
    recorded all the same; the same line as the only line is left
    alone; and in the third text a URL that follows a blank is skipped,
    because the first line has [](] at the offset the URL has in the
    second. *)
Theorem bare_url_after_bracket_not_skipped :
  preprocess_markdown_links "ab
[](https://x.com)"
  = ("ab
[](URLLINKPLACEHOLDER_0)",
     [mkLink "URLLINKPLACEHOLDER_0" "https://x.com" "https://x.com"])
  /\
  preprocess_markdown_links "[](https://x.com)" = ("[](https://x.com)", [])
  /\
  preprocess_markdown_links "a](
to https://x.com"
  = ("a](
to https://x.com", []).
Proof. repeat split; vm_compute; reflexivity. Qed.

(** ** Input normalisation *)

(** C9.  [convert] lets an exception out in both cases: the call of
    [to_json] in [convert] itself is not guarded, and
    [_convert_with_bs4] hands an object it could not turn into a string
    on to [markdown.markdown].  The sibling code in [_convert_with_bs4]
    does return the empty list when [to_json] raises and nothing is left
    to try. *)
Theorem convert_raises_on_unconvertible_input :
  forall env use_martian,
    MARKDOWN_LIBS_AVAILABLE env = true ->
    convert env use_martian broken_list = Raise UserError
    /\ convert env use_martian opaque_object = Raise AttributeError
    /\ _convert_with_bs4 env broken_list = Ok (VList []).
Proof.
  intros env use_martian libs.
  split; [reflexivity|]. split; [|reflexivity].
  unfold convert, opaque_object.
  cbn [String.eqb Ascii.eqb Bool.eqb bind truthy negb].
  unfold _convert_with_bs4, _convert_with_martian.
  cbn [normalize try_except bind truthy negb orb].
  rewrite libs.
  destruct use_martian; cbn [negb orb];
    destruct (script_exists env); cbn [negb try_except bind];
      try destruct (tempfile_fails env); reflexivity.
Qed.

Lemma convert_raises_on_unconvertible_input_witness :
  MARKDOWN_LIBS_AVAILABLE plain_env = true
  /\ convert plain_env true broken_list = Raise UserError
  /\ convert plain_env true opaque_object = Raise AttributeError
  /\ _convert_with_bs4 plain_env broken_list = Ok (VList []).
Proof.
  split; [reflexivity|].
  apply (convert_raises_on_unconvertible_input plain_env true). reflexivity.
Defined.

(** ** Table shape *)








(** ** Content of text runs *)













Lemma Forall_firstn :
  forall (A : Type) (P : A -> Prop) n (l : list A),
    Forall P l -> Forall P (firstn n l).
Proof.
  intros A P n l H. revert n.
  induction H as [|x l Hx Hl IH]; intros [|n]; cbn [firstn]; constructor;
    [exact Hx | apply IH].
Qed.





(** ** Invariants of the substitution passes *)

Section ReSubInvariant.
Variables M St : Type.
Variable match_at : string -> option (M * nat).
Variable repl : nat -> M -> St -> string * St.
Variable P : St -> Prop.

Hypothesis repl_keeps :
  forall s m len pos st,
    match_at s = Some (m, len) -> P st -> P (snd (repl pos m st)).

(** A property of the state that every replacement keeps is kept by the
    whole scan. *)
Lemma sub_from_keeps :
  forall s pos skip st, P st -> P (snd (sub_from match_at repl pos skip s st)).
Proof.
  induction s as [|c s IH]; intros pos skip st Hst; cbn [sub_from].
  - exact Hst.
  - destruct skip as [|k]; [|apply IH, Hst].
    destruct (match_at (String c s)) as [[m len]|] eqn:Hm.
    + pose proof (repl_keeps _ _ _ pos _ Hm Hst) as Hr.
      destruct (repl pos m st) as [r st1]. cbn [snd] in Hr.
      pose proof (IH (S pos) (len - 1) st1 Hr) as Hrest.
      destruct (sub_from match_at repl (S pos) (len - 1) s st1) as [out st2].
      exact Hrest.
    + pose proof (IH (S pos) 0 st Hst) as Hrest.
      destruct (sub_from match_at repl (S pos) 0 s st) as [out st1].
      exact Hrest.
Qed.

Lemma re_sub_keeps :
  forall s st, P st -> P (snd (re_sub match_at repl s st)).
Proof. intros s st. apply sub_from_keeps. Qed.
End ReSubInvariant.

Section PreprocessInvariant.
Variable P : list link -> Prop.

Hypothesis link_keeps :
  forall s m len pos links,
    match_markdown_link s = Some (m, len) ->
    P links -> P (snd (replace_markdown_link pos m links)).

Hypothesis url_keeps :
  forall md s u len pos links,
    match_bare_url s = Some (u, len) ->
    P links -> P (snd (replace_bare_url md pos u links)).

Lemma bare_url_lines_keeps :
  forall md lines in_code_block links,
    P links -> P (snd (bare_url_lines md lines in_code_block links)).
Proof.
  intros md. induction lines as [|line rest IH]; intros b links Hl;
    cbn [bare_url_lines].
  - exact Hl.
  - destruct (PyStr.startswith (PyStr.strip line) fence).
    + pose proof (IH (negb b) links Hl) as H.
      destruct (bare_url_lines md rest (negb b) links). exact H.
    + destruct (negb b).
      * pose proof (re_sub_keeps _ _ match_bare_url (replace_bare_url md) P
                      (url_keeps md) line links Hl) as H1.
        destruct (re_sub match_bare_url (replace_bare_url md) line links)
          as [line' ls1]. cbn [snd] in H1.
        pose proof (IH b ls1 H1) as H2.
        destruct (bare_url_lines md rest b ls1). exact H2.
      * pose proof (IH b links Hl) as H.
        destruct (bare_url_lines md rest b links). exact H.
Qed.

(** A property that holds of the empty list and that both closures keep
    holds of the links that preprocessing returns. *)
Lemma preprocess_keeps :
  forall md, P [] -> P (snd (preprocess_markdown_links md)).
Proof.
  intros md H0. unfold preprocess_markdown_links.
  pose proof (re_sub_keeps _ _ match_markdown_link replace_markdown_link P
                link_keeps md [] H0) as H1.
  destruct (re_sub match_markdown_link replace_markdown_link md [])
    as [processed links1]. cbn [snd] in H1.
  pose proof (bare_url_lines_keeps md (PyStr.split_lines processed) false
                                   links1 H1) as H2.
  destruct (bare_url_lines md (PyStr.split_lines processed) false links1).
  exact H2.
Qed.
End PreprocessInvariant.




(** ** Dictionaries *)

Lemma get_set_same :
  forall k v d, Dict.get k (Dict.set k v d) = Some v.
Proof.
  intros k v d. induction d as [|[k' v'] d IH]; cbn [Dict.set Dict.get].
  - rewrite String.eqb_refl. reflexivity.
  - destruct (String.eqb k k') eqn:E; cbn [Dict.get]; rewrite E;
      [reflexivity | exact IH].
Qed.

Lemma get_set_other :
  forall k k' v d, k <> k' -> Dict.get k' (Dict.set k v d) = Dict.get k' d.
Proof.
  intros k k' v d Hne. apply String.eqb_neq in Hne.
  induction d as [|[k0 v0] d IH]; cbn [Dict.set Dict.get].
  - rewrite String.eqb_sym, Hne. reflexivity.
  - destruct (String.eqb k k0) eqn:E; cbn [Dict.get].
    + apply String.eqb_eq in E. subst k0.
      rewrite String.eqb_sym, Hne. reflexivity.
    + destruct (String.eqb k' k0); [reflexivity | exact IH].
Qed.

(** Writing back what is already there changes nothing. *)
Lemma set_get_id :
  forall k v d, Dict.get k d = Some v -> Dict.set k v d = d.
Proof.
  intros k v d. induction d as [|[k' v'] d IH]; cbn [Dict.set Dict.get];
    intros H; [discriminate|].
  destruct (String.eqb k k') eqn:E.
  - injection H as ->. reflexivity.
  - rewrite (IH H). reflexivity.
Qed.

Lemma resolve_content :
  forall text_dict link_data,
    Dict.get "content" (resolve text_dict link_data)
    = Some (VStr (text link_data)).
Proof.
  intros td ld. unfold resolve.
  rewrite get_set_other by discriminate. apply get_set_same.
Qed.

Lemma resolve_link :
  forall text_dict link_data,
    Dict.get "link" (resolve text_dict link_data)
    = Some (VDict [("url", VStr (url link_data))]).
Proof. intros td ld. unfold resolve. apply get_set_same. Qed.




(** ** Substrings *)

Lemma prefix_app :
  forall p s, String.prefix p s = true <-> exists r, s = p ++ r.
Proof.
  induction p as [|a p IH]; intros s.
  - split; [intros _; exists s; reflexivity|].
    intros _. destruct s; reflexivity.
  - destruct s as [|b s]; cbn [String.prefix].
    + split; [discriminate | intros [r Hr]; discriminate Hr].
    + destruct (ascii_dec a b) as [->|Hne].
      * rewrite IH. split; intros [r Hr]; exists r.
        -- cbn. rewrite Hr. reflexivity.
        -- cbn in Hr. injection Hr as ->. reflexivity.
      * split; [discriminate|]. intros [r Hr]. cbn in Hr.
        injection Hr as Hab _. congruence.
Qed.

Lemma append_assoc :
  forall a b c : string, (a ++ b) ++ c = a ++ (b ++ c).
Proof.
  induction a as [|x a IH]; intros b c; cbn; [reflexivity|].
  rewrite IH. reflexivity.
Qed.

(** [p in s] holds exactly when [s] is some text, then [p], then some
    text. *)
Lemma contains_app :
  forall s p,
    PyStr.contains s p = true <-> exists a b, s = a ++ p ++ b.
Proof.
  induction s as [|c s IH]; intros p; cbn [PyStr.contains].
  - rewrite orb_false_r, prefix_app. split.
    + intros [r Hr]. exists EmptyString, r. exact Hr.
    + intros [a [b H]]. destruct a as [|x a]; [|discriminate H].
      exists b. exact H.
  - rewrite orb_true_iff, prefix_app, IH. split.
    + intros [[r Hr] | [a [b H]]].
      * exists EmptyString, r. exact Hr.
      * exists (String c a), b. cbn. rewrite H. reflexivity.
    + intros [a [b H]]. destruct a as [|x a].
      * left. exists b. exact H.
      * right. cbn in H. injection H as _ H. exists a, b. exact H.
Qed.

Lemma contains_refl : forall s, PyStr.contains s s = true.
Proof.
  intros s. apply contains_app. exists EmptyString, EmptyString.
  cbn. induction s as [|c s IH]; cbn; [reflexivity|].
  rewrite <- IH. reflexivity.
Qed.

(** A text that holds the token in brackets holds the token. *)
Lemma contains_bracketed :
  forall s ph,
    PyStr.contains s (bracketed ph) = true -> PyStr.contains s ph = true.
Proof.
  intros s ph H. apply contains_app in H. destruct H as [a [b H]].
  apply contains_app. exists (a ++ "["), ("]" ++ b).
  rewrite H. unfold bracketed. rewrite !append_assoc. reflexivity.
Qed.

(** ** Resolution of one run *)

Lemma find_placeholder_none :
  forall form link_lookup content,
    (forall e, In e link_lookup ->
               PyStr.contains content (form (fst e)) = false) ->
    find_placeholder form link_lookup (VStr content) = Ok None.
Proof.
  intros form lookup c. induction lookup as [|[ph ld] rest IH]; intros H;
    cbn [find_placeholder py_in bind]; [reflexivity|].
  pose proof (H (ph, ld) (or_introl eq_refl)) as Hh. cbn [fst] in Hh.
  rewrite Hh. apply IH.
  intros e He. apply H. right. exact He.
Qed.

Lemma find_placeholder_first :
  forall form before ph link_data after content,
    (forall e, In e before ->
               PyStr.contains content (form (fst e)) = false) ->
    PyStr.contains content (form ph) = true ->
    find_placeholder form (before ++ (ph, link_data) :: after) (VStr content)
    = Ok (Some link_data).
Proof.
  intros form before ph ld after c. induction before as [|[k l] before IH];
    intros Hb Hhit; cbn [app find_placeholder py_in bind].
  - rewrite Hhit. reflexivity.
  - pose proof (Hb (k, l) (or_introl eq_refl)) as Hh. cbn [fst] in Hh.
    rewrite Hh. apply IH; [|exact Hhit].
    intros e He. apply Hb. right. exact He.
Qed.

(** Among entries of which one is hit, there is a first one. *)
Lemma first_hit_exists :
  forall link_lookup content,
    (exists ph link_data,
        In (ph, link_data) link_lookup /\ PyStr.contains content ph = true) ->
    exists ph link_data, first_hit link_lookup content ph link_data.
Proof.
  intros lookup c. induction lookup as [|[k l] rest IH]; intros [ph [ld [Hin Hc]]].
  - contradiction.
  - destruct (PyStr.contains c k) eqn:Hk.
    + exists k, l, [], rest. split; [reflexivity|]. split; [exact Hk|].
      intros e [].
    + destruct Hin as [Heq | Hin]; [injection Heq as -> ->; congruence|].
      destruct (IH (ex_intro _ ph (ex_intro _ ld (conj Hin Hc))))
        as [ph' [ld' [before [after [Heq [Hhit Hbefore]]]]]].
      exists ph', ld', ((k, l) :: before), after.
      split; [rewrite Heq; reflexivity|]. split; [exact Hhit|].
      intros e [<- | He]; [exact Hk | apply Hbefore, He].
Qed.

(** The visit of a run whose content holds a token: the run comes back
    resolved by the first entry that is hit, after one step. *)
Lemma process_block_run :
  forall fuel link_lookup run text_dict content ph link_data,
    is_table_block run = false ->
    Dict.get "text" run = Some (VDict text_dict) ->
    Dict.get "content" text_dict = Some (VStr content) ->
    first_hit link_lookup content ph link_data ->
    process_block (S fuel) link_lookup (VDict run)
    = Ok (resolved_run run text_dict link_data).
Proof.
  intros fuel lookup run td c ph ld Htab Htext Hcontent
         [before [after [-> [Hhit Hbefore]]]].
  cbn [process_block]. rewrite Htab. cbn [bind].
  unfold process_text. rewrite Htext, Hcontent.
  rewrite (find_placeholder_first (fun ph => ph) before ph ld after c
                                  Hbefore Hhit).
  reflexivity.
Qed.

Lemma resolved_run_content :
  forall run text_dict link_data,
    content_of (resolved_run run text_dict link_data)
    = Some (text link_data).
Proof.
  intros run td ld. unfold content_of, resolved_run.
  rewrite get_set_same, resolve_content. reflexivity.
Qed.

Lemma resolved_run_link :
  forall run text_dict link_data,
    link_of (resolved_run run text_dict link_data) = Some (url link_data).
Proof.
  intros run td ld. unfold link_of, resolved_run.
  rewrite get_set_same, resolve_link. reflexivity.
Qed.

(** One visit of a text run whose content holds the token of an entry
    of the lookup, bare or in brackets: among the entries whose token
    occurs in the content the first in iteration order is taken, the
    result is the run with [text] rewritten by that entry and nothing
    else changed, its content is the display text of the entry and its
    link the target of the entry.  The result does not depend on the
    fuel that is left: the visit ends there. *)
Lemma run_resolves_to_first_match :
  forall fuel link_lookup run text_dict content,
    is_table_block run = false ->
    Dict.get "text" run = Some (VDict text_dict) ->
    Dict.get "content" text_dict = Some (VStr content) ->
    (exists ph link_data,
        In (ph, link_data) link_lookup
        /\ (PyStr.contains content ph = true
            \/ PyStr.contains content (bracketed ph) = true)) ->
    exists ph link_data,
      first_hit link_lookup content ph link_data
      /\ process_block (S fuel) link_lookup (VDict run)
         = Ok (resolved_run run text_dict link_data)
      /\ content_of (resolved_run run text_dict link_data)
         = Some (text link_data)
      /\ link_of (resolved_run run text_dict link_data)
         = Some (url link_data).
Proof.
  intros fuel lookup run td c Htab Htext Hcontent [ph [ld [Hin Hc]]].
  assert (Hbare : PyStr.contains c ph = true)
    by (destruct Hc as [Hc | Hc]; [exact Hc | apply contains_bracketed, Hc]).
  destruct (first_hit_exists lookup c
              (ex_intro _ ph (ex_intro _ ld (conj Hin Hbare))))
    as [ph' [ld' Hfirst]].
  exists ph', ld'. split; [exact Hfirst|].
  split; [eapply process_block_run; eassumption|].
  split; [apply resolved_run_content | apply resolved_run_link].
Qed.

(** ** The lookup and the order of its entries *)

Lemma lookup_set_fresh :
  forall k l d,
    ~ In k (map fst d) -> lookup_set k l d = (d ++ [(k, l)])%list.
Proof.
  intros k l d. induction d as [|[k' l'] d IH]; intros Hfresh;
    cbn [lookup_set app]; [reflexivity|].
  cbn [map fst In] in Hfresh.
  destruct (String.eqb k k') eqn:E.
  - apply String.eqb_eq in E. subst k'. exfalso. apply Hfresh. left. reflexivity.
  - rewrite IH; [reflexivity|]. intros H. apply Hfresh. right. exact H.
Qed.

Lemma fold_lookup_distinct :
  forall links acc,
    NoDup (map fst acc ++ map placeholder links) ->
    fold_left (fun d l => lookup_set (placeholder l) l d) links acc
    = (acc ++ map entry links)%list.
Proof.
  induction links as [|l links IH]; intros acc Hnd; cbn [fold_left map].
  - rewrite app_nil_r. reflexivity.
  - cbn [map] in Hnd.
    assert (Hfresh : ~ In (placeholder l) (map fst acc)).
    { intros Hin. apply NoDup_remove_2 in Hnd. apply Hnd.
      apply in_or_app. left. exact Hin. }
    rewrite (lookup_set_fresh _ _ _ Hfresh).
    rewrite IH.
    + rewrite <- app_assoc. reflexivity.
    + rewrite map_app. cbn [map fst]. rewrite <- app_assoc. cbn [app].
      exact Hnd.
Qed.

(** With distinct tokens the lookup lists the links in creation order. *)
Lemma make_lookup_distinct :
  forall links,
    NoDup (map placeholder links) -> make_lookup links = map entry links.
Proof.
  intros links Hnd. unfold make_lookup.
  rewrite fold_lookup_distinct; [reflexivity | exact Hnd].
Qed.

Lemma first_hit_at_index :
  forall links content i li,
    nth_error links i = Some li ->
    PyStr.contains content (placeholder li) = true ->
    (forall k lk, k < i -> nth_error links k = Some lk ->
                  PyStr.contains content (placeholder lk) = false) ->
    first_hit (map entry links) content (placeholder li) li.
Proof.
  intros links c i li Hi Hhit Hbefore.
  destruct (nth_error_split links i Hi) as [l1 [l2 [-> Hlen]]].
  exists (map entry l1), (map entry l2).
  split; [rewrite map_app; reflexivity|]. split; [exact Hhit|].
  intros e He. apply in_map_iff in He. destruct He as [lk [<- Hlk]].
  destruct (In_nth_error l1 lk Hlk) as [k Hk].
  assert (Hklt : k < length l1).
  { apply nth_error_Some. rewrite Hk. discriminate. }
  cbn [entry fst]. apply (Hbefore k lk); [lia|].
  rewrite nth_error_app1 by exact Hklt. exact Hk.
Qed.

(** ** The tokens that preprocessing hands out *)

Lemma of_nat_inj : forall n n', PyStr.of_nat n = PyStr.of_nat n' -> n = n'.
Proof.
  intros n n' H. unfold PyStr.of_nat in H.
  apply Unsigned.to_uint_inj.
  assert (Hs : Some (Nat.to_uint n) = Some (Nat.to_uint n')).
  { rewrite <- (NilEmpty.usu (Nat.to_uint n)).
    rewrite <- (NilEmpty.usu (Nat.to_uint n')).
    rewrite H. reflexivity. }
  injection Hs as Hs. exact Hs.
Qed.

Lemma append_inj_l :
  forall p a b : string, p ++ a = p ++ b -> a = b.
Proof.
  induction p as [|c p IH]; intros a b H; cbn in H; [exact H|].
  injection H as H. apply IH, H.
Qed.

Lemma token_of_inj : forall m i j, token_of m i = token_of m j -> i = j.
Proof.
  intros m i j H. unfold token_of in H.
  destruct (Nat.ltb i m), (Nat.ltb j m);
    try (apply append_inj_l in H; apply of_nat_inj, H);
    cbn in H; discriminate H.
Qed.

Lemma named_by_index_distinct :
  forall m links, named_by_index m links -> NoDup (map placeholder links).
Proof.
  intros m links Hnamed. apply (proj2 (NoDup_nth_error _)).
  intros i j Hi Heq. rewrite length_map in Hi.
  rewrite !nth_error_map in Heq.
  destruct (nth_error links i) as [li|] eqn:Eli;
    [|apply nth_error_None in Eli; lia].
  destruct (nth_error links j) as [lj|] eqn:Elj; [|discriminate Heq].
  cbn [option_map] in Heq. injection Heq as Heq.
  rewrite (Hnamed i li Eli), (Hnamed j lj Elj) in Heq.
  eapply token_of_inj, Heq.
Qed.

Lemma named_by_index_snoc :
  forall m links l,
    named_by_index m links ->
    placeholder l = token_of m (length links) ->
    named_by_index m (links ++ [l]).
Proof.
  intros m links l Hnamed Hl i x Hi.
  destruct (Nat.lt_ge_cases i (length links)) as [Hlt | Hge].
  - rewrite nth_error_app1 in Hi by exact Hlt. apply Hnamed, Hi.
  - rewrite nth_error_app2 in Hi by exact Hge.
    destruct (i - length links) as [|k] eqn:Ek; cbn in Hi.
    + injection Hi as <-. replace i with (length links) by lia. exact Hl.
    + destruct k; discriminate Hi.
Qed.

(** After the pass over markdown links every entry is named
    [LINKPLACEHOLDER_i] by its index. *)
Lemma markdown_links_named :
  forall md,
    let links1 :=
      snd (re_sub match_markdown_link replace_markdown_link md []) in
    named_by_index (length links1) links1.
Proof.
  intros md.
  apply (re_sub_keeps _ _ match_markdown_link replace_markdown_link
           (fun links => named_by_index (length links) links)).
  - intros s [t u] len pos links _ Hnamed.
    cbn [replace_markdown_link snd]. rewrite length_app. cbn [length].
    apply named_by_index_snoc.
    + intros i l Hi. rewrite (Hnamed i l Hi). unfold token_of.
      assert (Hlt : i < length links).
      { apply nth_error_Some. rewrite Hi. discriminate. }
      destruct (Nat.ltb_spec i (length links)); [|lia].
      destruct (Nat.ltb_spec i (length links + 1)); [reflexivity | lia].
    + cbn [placeholder]. unfold token_of.
      destruct (Nat.ltb_spec (length links) (length links + 1));
        [reflexivity | lia].
  - intros i l Hi. destruct i; discriminate Hi.
Qed.

(** The links that preprocessing returns: those of markdown links first,
    those of bare URLs after them, each named by its index. *)
Lemma preprocess_links_named :
  forall md, exists m, named_by_index m (snd (preprocess_markdown_links md)).
Proof.
  intros md. unfold preprocess_markdown_links.
  pose proof (markdown_links_named md) as H1. cbv zeta in H1.
  destruct (re_sub match_markdown_link replace_markdown_link md [])
    as [processed links1]. cbn [snd] in H1.
  exists (length links1).
  assert (Hurl :
            forall md' s u len pos links,
              match_bare_url s = Some (u, len) ->
              length links1 <= length links
              /\ named_by_index (length links1) links ->
              length links1 <= length (snd (replace_bare_url md' pos u links))
              /\ named_by_index (length links1)
                                (snd (replace_bare_url md' pos u links))).
  { intros md' s u len pos links _ [Hle Hnamed].
    unfold replace_bare_url.
    destruct (PyStr.endswith (PyStr.slice_before md' pos) "](");
      cbn [snd]; [split; assumption|].
    split; [rewrite length_app; lia|].
    apply named_by_index_snoc; [exact Hnamed|].
    cbn [placeholder]. unfold token_of.
    destruct (Nat.ltb_spec (length links) (length links1));
      [lia | reflexivity]. }
  pose proof (bare_url_lines_keeps _ Hurl md (PyStr.split_lines processed)
                                   false links1 (conj (le_n _) H1)) as H2.
  destruct (bare_url_lines md (PyStr.split_lines processed) false links1)
    as [lines' links2].
  exact (proj2 H2).
Qed.

(** Once the loop over the bare tokens has found nothing in a string, the
    loop over the tokens in brackets finds nothing either. *)
Lemma bracketed_loop_finds_nothing_new :
  forall link_lookup content,
    find_placeholder (fun ph => ph) link_lookup (VStr content) = Ok None ->
    find_placeholder bracketed link_lookup (VStr content) = Ok None.
Proof.
  intros lookup c. induction lookup as [|[ph ld] rest IH];
    cbn [find_placeholder py_in bind]; [reflexivity|].
  destruct (PyStr.contains c ph) eqn:Hbare; [discriminate|].
  intros H.
  destruct (PyStr.contains c (bracketed ph)) eqn:Hwrapped.
  - apply contains_bracketed in Hwrapped. congruence.
  - apply IH, H.
Qed.

Lemma token_one_in_token_ten :
  forall m,
    PyStr.contains (token_of m 10) (token_of m 1) = true
    /\ PyStr.contains (token_of m 10) (token_of m 0) = false.
Proof.
  intros m. unfold token_of.
  destruct (Nat.ltb_spec 0 m), (Nat.ltb_spec 1 m), (Nat.ltb_spec 10 m);
    try lia; split; vm_compute; reflexivity.
Qed.

Lemma contains_trans :
  forall s t u,
    PyStr.contains s t = true -> PyStr.contains t u = true ->
    PyStr.contains s u = true.
Proof.
  intros s t u Hst Htu.
  apply contains_app in Hst. destruct Hst as [a [b ->]].
  apply contains_app in Htu. destruct Htu as [c [d ->]].
  apply contains_app. exists (a ++ c), (d ++ b).
  rewrite !append_assoc. reflexivity.
Qed.

(** The first entry that is hit, by its index in the list of links. *)
Lemma first_hit_index :
  forall links content ph link_data,
    first_hit (map entry links) content ph link_data ->
    exists k,
      nth_error links k = Some link_data
      /\ PyStr.contains content (placeholder link_data) = true
      /\ (forall k' lk', k' < k -> nth_error links k' = Some lk' ->
                         PyStr.contains content (placeholder lk') = false).
Proof.
  intros links c ph ld [before [after [Heq [Hhit Hbefore]]]].
  apply map_eq_app in Heq. destruct Heq as [l1 [l2 [-> [H1 H2]]]].
  destruct l2 as [|lk l2]; [discriminate H2|].
  cbn [map] in H2. unfold entry at 1 in H2.
  assert (placeholder lk = ph /\ lk = ld) as [Hph ->]
    by (split; congruence).
  subst ph before.
  exists (length l1). split; [|split; [exact Hhit|]].
  - rewrite nth_error_app2 by lia. rewrite Nat.sub_diag. reflexivity.
  - intros k' lk' Hk' Hlk'. rewrite nth_error_app1 in Hlk' by exact Hk'.
    apply (Hbefore (entry lk')), in_map, (nth_error_In _ _ Hlk').
Qed.

(** Twelve links: the run that holds the tokens of entries 10 and 11 is
    resolved by entry 1, with the display text [b], and not by entry
    10, whose display text is [k]. *)
Lemma later_tokens_resolved_by_entry_one :
  nth_error (snd (preprocess_markdown_links twelve_links)) 10
  = Some (mkLink "LINKPLACEHOLDER_10" "k" "u10")
  /\ nth_error (snd (preprocess_markdown_links twelve_links)) 11
     = Some (mkLink "LINKPLACEHOLDER_11" "l" "u11")
  /\ PyStr.contains "[LINKPLACEHOLDER_10] [LINKPLACEHOLDER_11]"
                    "LINKPLACEHOLDER_10" = true
  /\ PyStr.contains "[LINKPLACEHOLDER_10] [LINKPLACEHOLDER_11]"
                    "LINKPLACEHOLDER_11" = true
  /\ (forall fuel,
         process_block
           (S fuel)
           (make_lookup (snd (preprocess_markdown_links twelve_links)))
           (VDict (run_with "[LINKPLACEHOLDER_10] [LINKPLACEHOLDER_11]"))
         = Ok (VDict [("type", VStr "text");
                      ("text",
                       VDict [("content", VStr "b");
                              ("link", VDict [("url", VStr "u1")])])])).
Proof.
  repeat split; intros; vm_compute; reflexivity.
Qed.

(** C10, as amended.  On one visit of a run by [process_block], the
    entries of the lookup are tested in the order in which the links
    were created, by containment of the bare token, and the first entry
    whose token occurs in the content resolves the run.  When the
    content holds the tokens of the entries [i] and [j] with [i < j],
    the run is resolved by an entry [k] with [k <= i], the first whose
    token occurs; this is entry [i] when the token of no earlier entry
    occurs.  For the links of any text that preprocessing gives at least
    eleven links, a run whose content holds the token of entry 10 and
    not that of entry 0 is resolved by entry 1, whose token occurs in
    that of entry 10.  The tokens in brackets are tried after all bare
    tokens, and by then nothing is left for them to find. *)
Theorem placeholders_tested_in_creation_order :
  (forall fuel links run text_dict content i j li lj,
      NoDup (map placeholder links) ->
      is_table_block run = false ->
      Dict.get "text" run = Some (VDict text_dict) ->
      Dict.get "content" text_dict = Some (VStr content) ->
      nth_error links i = Some li ->
      nth_error links j = Some lj ->
      i < j ->
      PyStr.contains content (placeholder li) = true ->
      PyStr.contains content (placeholder lj) = true ->
      exists k lk,
        k <= i
        /\ nth_error links k = Some lk
        /\ PyStr.contains content (placeholder lk) = true
        /\ (forall k' lk', k' < k -> nth_error links k' = Some lk' ->
                           PyStr.contains content (placeholder lk') = false)
        /\ process_block (S fuel) (make_lookup links) (VDict run)
           = Ok (resolved_run run text_dict lk)
        /\ content_of (resolved_run run text_dict lk) = Some (text lk)
        /\ link_of (resolved_run run text_dict lk) = Some (url lk))
  /\
  (forall fuel links run text_dict content i li,
      NoDup (map placeholder links) ->
      is_table_block run = false ->
      Dict.get "text" run = Some (VDict text_dict) ->
      Dict.get "content" text_dict = Some (VStr content) ->
      nth_error links i = Some li ->
      PyStr.contains content (placeholder li) = true ->
      (forall k lk, k < i -> nth_error links k = Some lk ->
                    PyStr.contains content (placeholder lk) = false) ->
      process_block (S fuel) (make_lookup links) (VDict run)
      = Ok (resolved_run run text_dict li)
      /\ content_of (resolved_run run text_dict li) = Some (text li)
      /\ link_of (resolved_run run text_dict li) = Some (url li))
  /\
  (forall fuel md run text_dict content l0 l1 l10,
      nth_error (snd (preprocess_markdown_links md)) 0 = Some l0 ->
      nth_error (snd (preprocess_markdown_links md)) 1 = Some l1 ->
      nth_error (snd (preprocess_markdown_links md)) 10 = Some l10 ->
      is_table_block run = false ->
      Dict.get "text" run = Some (VDict text_dict) ->
      Dict.get "content" text_dict = Some (VStr content) ->
      PyStr.contains content (placeholder l10) = true ->
      PyStr.contains content (placeholder l0) = false ->
      PyStr.contains (placeholder l10) (placeholder l1) = true
      /\ process_block (S fuel)
                       (make_lookup (snd (preprocess_markdown_links md)))
                       (VDict run)
         = Ok (resolved_run run text_dict l1)
      /\ content_of (resolved_run run text_dict l1) = Some (text l1)
      /\ link_of (resolved_run run text_dict l1) = Some (url l1))
  /\
  (forall link_lookup content,
      find_placeholder (fun ph => ph) link_lookup (VStr content) = Ok None ->
      find_placeholder bracketed link_lookup (VStr content) = Ok None).
Proof.
  assert (Hfirst :
            forall fuel links run td c i li,
              NoDup (map placeholder links) ->
              is_table_block run = false ->
              Dict.get "text" run = Some (VDict td) ->
              Dict.get "content" td = Some (VStr c) ->
              nth_error links i = Some li ->
              PyStr.contains c (placeholder li) = true ->
              (forall k lk, k < i -> nth_error links k = Some lk ->
                            PyStr.contains c (placeholder lk) = false) ->
              process_block (S fuel) (make_lookup links) (VDict run)
              = Ok (resolved_run run td li)
              /\ content_of (resolved_run run td li) = Some (text li)
              /\ link_of (resolved_run run td li) = Some (url li)).
  { intros fuel links run td c i li Hnd Htab Htext Hcontent Hi Hci Hbefore.
    split; [|split; [apply resolved_run_content | apply resolved_run_link]].
    rewrite (make_lookup_distinct links Hnd).
    eapply process_block_run; try eassumption.
    eapply first_hit_at_index; eassumption. }
  split; [|split; [exact Hfirst|split;
                    [|exact bracketed_loop_finds_nothing_new]]].
  - intros fuel links run td c i j li lj Hnd Htab Htext Hcontent
           Hi Hj Hij Hci Hcj.
    destruct (first_hit_exists (map entry links) c) as [ph [ld Hhit]].
    { exists (placeholder li), li. split; [|exact Hci].
      apply (in_map entry), (nth_error_In _ _ Hi). }
    destruct (first_hit_index links c ph ld Hhit) as [k [Hk [Hck Hbefore]]].
    exists k, ld.
    assert (k <= i) as Hki.
    { destruct (Nat.le_gt_cases k i) as [H | H]; [exact H|].
      rewrite (Hbefore i li H Hi) in Hci. discriminate Hci. }
    split; [exact Hki|]. split; [exact Hk|]. split; [exact Hck|].
    split; [exact Hbefore|].
    apply (Hfirst fuel links run td c k ld); assumption.
  - intros fuel md run td c l0 l1 l10 H0 H1 H10 Htab Htext Hcontent
           Hc10 Hc0.
    destruct (preprocess_links_named md) as [m Hnamed].
    pose proof (named_by_index_distinct m _ Hnamed) as Hnd.
    destruct (token_one_in_token_ten m) as [Hin _].
    pose proof (Hnamed 1 l1 H1) as E1.
    pose proof (Hnamed 10 l10 H10) as E10.
    assert (Hhit : PyStr.contains (placeholder l10) (placeholder l1) = true)
      by (rewrite E1, E10; exact Hin).
    split; [exact Hhit|].
    apply (Hfirst fuel _ run td c 1 l1); try assumption.
    + apply (contains_trans _ _ _ Hc10 Hhit).
    + intros k lk Hk Hlk. assert (k = 0) by lia. subst k.
      rewrite H0 in Hlk. injection Hlk as <-. exact Hc0.
Qed.

Lemma placeholders_tested_in_creation_order_witness :
  (NoDup (map placeholder three_links)
   /\ 1 < 2
   /\ PyStr.contains "[LINKPLACEHOLDER_1] [LINKPLACEHOLDER_2]"
                     "LINKPLACEHOLDER_1" = true
   /\ PyStr.contains "[LINKPLACEHOLDER_1] [LINKPLACEHOLDER_2]"
                     "LINKPLACEHOLDER_2" = true
   /\ exists k lk,
       k <= 1
       /\ nth_error three_links k = Some lk
       /\ process_block
            1 (make_lookup three_links)
            (VDict (run_with "[LINKPLACEHOLDER_1] [LINKPLACEHOLDER_2]"))
          = Ok (resolved_run
                  (run_with "[LINKPLACEHOLDER_1] [LINKPLACEHOLDER_2]")
                  [("content",
                    VStr "[LINKPLACEHOLDER_1] [LINKPLACEHOLDER_2]")]
                  lk))
  /\
  (nth_error (snd (preprocess_markdown_links twelve_links)) 0
   = Some (mkLink "LINKPLACEHOLDER_0" "a" "u0")
   /\ nth_error (snd (preprocess_markdown_links twelve_links)) 1
      = Some (mkLink "LINKPLACEHOLDER_1" "b" "u1")
   /\ nth_error (snd (preprocess_markdown_links twelve_links)) 10
      = Some (mkLink "LINKPLACEHOLDER_10" "k" "u10")
   /\ PyStr.contains "[LINKPLACEHOLDER_10] [LINKPLACEHOLDER_11]"
                     "LINKPLACEHOLDER_10" = true
   /\ PyStr.contains "[LINKPLACEHOLDER_10] [LINKPLACEHOLDER_11]"
                     "LINKPLACEHOLDER_0" = false
   /\ process_block
        1 (make_lookup (snd (preprocess_markdown_links twelve_links)))
        (VDict (run_with "[LINKPLACEHOLDER_10] [LINKPLACEHOLDER_11]"))
      = Ok (resolved_run
              (run_with "[LINKPLACEHOLDER_10] [LINKPLACEHOLDER_11]")
              [("content", VStr "[LINKPLACEHOLDER_10] [LINKPLACEHOLDER_11]")]
              (mkLink "LINKPLACEHOLDER_1" "b" "u1"))).
Proof.
  assert (Hnd : NoDup (map placeholder three_links))
    by (repeat constructor; cbn; intuition discriminate).
  split.
  - split; [exact Hnd|]. split; [lia|].
    split; [reflexivity|]. split; [reflexivity|].
    destruct (proj1 placeholders_tested_in_creation_order
                    0 three_links
                    (run_with "[LINKPLACEHOLDER_1] [LINKPLACEHOLDER_2]")
                    [("content",
                      VStr "[LINKPLACEHOLDER_1] [LINKPLACEHOLDER_2]")]
                    "[LINKPLACEHOLDER_1] [LINKPLACEHOLDER_2]"
                    1 2
                    (mkLink "LINKPLACEHOLDER_1" "y" "https://y.example")
                    (mkLink "LINKPLACEHOLDER_2" "z" "https://z.example")
                    Hnd eq_refl eq_refl eq_refl eq_refl eq_refl
                    (le_n 2) eq_refl eq_refl)
      as [k [lk [Hk [Hlk [_ [_ [Hrun _]]]]]]].
    exists k, lk. split; [exact Hk|]. split; [exact Hlk | exact Hrun].
  - assert (H0 : nth_error (snd (preprocess_markdown_links twelve_links)) 0
                 = Some (mkLink "LINKPLACEHOLDER_0" "a" "u0"))
      by (vm_compute; reflexivity).
    assert (H1 : nth_error (snd (preprocess_markdown_links twelve_links)) 1
                 = Some (mkLink "LINKPLACEHOLDER_1" "b" "u1"))
      by (vm_compute; reflexivity).
    assert (H10 : nth_error (snd (preprocess_markdown_links twelve_links)) 10
                  = Some (mkLink "LINKPLACEHOLDER_10" "k" "u10"))
      by (vm_compute; reflexivity).
    split; [exact H0|]. split; [exact H1|]. split; [exact H10|].
    split; [reflexivity|]. split; [reflexivity|].
    refine (proj1 (proj2 (proj1 (proj2 (proj2
              placeholders_tested_in_creation_order))
              0 twelve_links
              (run_with "[LINKPLACEHOLDER_10] [LINKPLACEHOLDER_11]")
              [("content", VStr "[LINKPLACEHOLDER_10] [LINKPLACEHOLDER_11]")]
              "[LINKPLACEHOLDER_10] [LINKPLACEHOLDER_11]"
              _ _ _ H0 H1 H10 eq_refl eq_refl eq_refl eq_refl eq_refl))).
Defined.

(** ** Runs resolved by another placeholder *)

(** C5.  Two ways in which a run does not end with the display text and
    the target of the placeholder whose token it holds.

    The test [placeholder in content] is a substring test and the token
    of entry 1 is part of the token of entry 10.  Of the eleven links of
    [eleven_paragraphs] the last is entry 10, with display text [k]; its
    run holds the token of entry 10 and comes out with the display text
    and the target of entry 1.

    A run in a table cell is visited twice by [process_block]: by the
    branch for tables, and again by the recursion over the values of the
    table block.  In the table of [mirror_table_md] the second body cell
    holds the token of entry 1 alone; the first visit resolves it by
    entry 1, whose display text is [LINKPLACEHOLDER_0], and the second
    visit resolves that text by entry 0.  The same run in a paragraph is
    visited once and is resolved by entry 1.

    Five units of fuel are enough for the paragraphs and eleven for the
    table. *)
Theorem run_resolved_by_another_placeholder :
  nth_error (snd (preprocess_markdown_links eleven_paragraphs)) 10
  = Some (mkLink "LINKPLACEHOLDER_10" "k" "https://k.example")
  /\ (forall extra,
        fix_markdown_links (5 + extra) eleven_paragraphs
                           (builtin_backend paragraphs_env)
        = Ok (VList [link_paragraph "a" "https://a.example";
                     link_paragraph "b" "https://b.example";
                     link_paragraph "c" "https://c.example";
                     link_paragraph "d" "https://d.example";
                     link_paragraph "e" "https://e.example";
                     link_paragraph "f" "https://f.example";
                     link_paragraph "g" "https://g.example";
                     link_paragraph "h" "https://h.example";
                     link_paragraph "i" "https://i.example";
                     link_paragraph "j" "https://j.example";
                     link_paragraph "b" "https://b.example"]))
  /\ preprocess_markdown_links mirror_table_md
     = (mirror_table_masked, mirror_links)
  /\ (forall extra,
        fix_markdown_links (11 + extra) mirror_table_md
                           (builtin_backend mirror_env)
        = Ok (VList
                [VDict [("object", VStr "block"); ("type", VStr "table");
                        ("table",
                         VDict [("table_width", VNum 2);
                                ("has_column_header", VBool true);
                                ("has_row_header", VBool false);
                                ("children",
                                 VList
                                   [row_block [VList [text_run "Site"];
                                               VList [text_run "Mirror"]];
                                    row_block
                                      [VList [link_run "x" "https://u.example"];
                                       VList [link_run "x" "https://u.example"]]])])]]))
  /\ (forall extra,
        postprocess_notion_blocks
          (5 + extra)
          (VList [rich_text_block "paragraph"
                    [text_run "[LINKPLACEHOLDER_1]"]])
          mirror_links
        = Ok (VList [link_paragraph "LINKPLACEHOLDER_0" "https://v.example"])).
Proof. repeat split; intros; vm_compute; reflexivity. Qed.

(** ** Induction on block trees *)

Lemma value_ind' :
  forall P : value -> Prop,
    P VNone ->
    (forall b, P (VBool b)) ->
    (forall n, P (VNum n)) ->
    (forall s, P (VStr s)) ->
    (forall l, Forall P l -> P (VList l)) ->
    (forall d, Forall (fun kv => P (snd kv)) d -> P (VDict d)) ->
    forall v, P v.
Proof.
  intros P HNone HBool HNum HStr HList HDict.
  fix IH 1. intros [|b|n|s|l|d].
  - exact HNone.
  - apply HBool.
  - apply HNum.
  - apply HStr.
  - apply HList. induction l as [|x l IHl]; constructor; [apply IH | exact IHl].
  - apply HDict. induction d as [|[k x] d IHd]; constructor;
      [apply IH | exact IHd].
Qed.

(** ** The monad *)

Lemma bind_ok :
  forall (A B : Type) (c : result A) (k : A -> result B) (r : B),
    bind c k = Ok r -> exists a, c = Ok a /\ k a = Ok r.
Proof.
  intros A B [a|e|] k r H; cbn in H; try discriminate H.
  exists a. split; [reflexivity | exact H].
Qed.

Lemma for_each_keeps :
  forall (f : value -> result value) l,
    (forall x, In x l -> forall r, f x = Ok r -> r = x) ->
    forall l', for_each f l = Ok l' -> l' = l.
Proof.
  intros f. induction l as [|x l IH]; intros Hf l' H; cbn [for_each] in H.
  - injection H as <-. reflexivity.
  - apply bind_ok in H. destruct H as [y [Hy H]].
    apply bind_ok in H. destruct H as [ys [Hys H]].
    injection H as <-.
    rewrite (Hf x (or_introl eq_refl) y Hy).
    rewrite (IH (fun z Hz => Hf z (or_intror Hz)) ys Hys). reflexivity.
Qed.

Lemma for_each_works :
  forall (f : value -> result value) l,
    (forall x, In x l -> f x = Ok x) -> for_each f l = Ok l.
Proof.
  intros f. induction l as [|x l IH]; intros Hf; cbn [for_each];
    [reflexivity|].
  rewrite (Hf x (or_introl eq_refl)). cbn [bind].
  rewrite (IH (fun z Hz => Hf z (or_intror Hz))). reflexivity.
Qed.

Lemma for_items_keeps :
  forall (f : value -> result value) d,
    (forall k x, In (k, x) d -> forall r, f x = Ok r -> r = x) ->
    forall d', Dict.for_items f d = Ok d' -> d' = d.
Proof.
  intros f. induction d as [|[k x] d IH]; intros Hf d' H;
    cbn [Dict.for_items] in H.
  - injection H as <-. reflexivity.
  - apply bind_ok in H. destruct H as [y [Hy H]].
    apply bind_ok in H. destruct H as [ys [Hys H]].
    injection H as <-.
    rewrite (Hf k x (or_introl eq_refl) y Hy).
    rewrite (IH (fun k' z Hz => Hf k' z (or_intror Hz)) ys Hys). reflexivity.
Qed.

Lemma for_items_works :
  forall (f : value -> result value) d,
    (forall k x, In (k, x) d -> f x = Ok x) -> Dict.for_items f d = Ok d.
Proof.
  intros f. induction d as [|[k x] d IH]; intros Hf; cbn [Dict.for_items];
    [reflexivity|].
  rewrite (Hf k x (or_introl eq_refl)). cbn [bind].
  rewrite (IH (fun k' z Hz => Hf k' z (or_intror Hz))). reflexivity.
Qed.

(** ** Trees without tokens *)

Lemma get_In :
  forall k d x, Dict.get k d = Some x -> In (k, x) d.
Proof.
  intros k d x. induction d as [|[k' v] d IH]; cbn [Dict.get]; intros H;
    [discriminate|].
  destruct (String.eqb k k') eqn:E.
  - apply String.eqb_eq in E. injection H as <-. subst k'. left. reflexivity.
  - right. apply IH, H.
Qed.

Lemma mentions_list :
  forall tokens l x,
    mentions tokens (VList l) = false -> In x l -> mentions tokens x = false.
Proof.
  intros tokens. induction l as [|y l IH]; intros x H Hin; [contradiction|].
  cbn [mentions] in H. apply orb_false_iff in H. destruct H as [Hy Hl].
  destruct Hin as [<- | Hin]; [exact Hy | apply IH; assumption].
Qed.

Lemma mentions_dict :
  forall tokens d k x,
    mentions tokens (VDict d) = false -> In (k, x) d ->
    has_token tokens k = false /\ mentions tokens x = false.
Proof.
  intros tokens. induction d as [|[k' y] d IH]; intros k x H Hin;
    [contradiction|].
  cbn [mentions] in H. apply orb_false_iff in H. destruct H as [H Hd].
  apply orb_false_iff in H. destruct H as [Hk Hy].
  destruct Hin as [Heq | Hin].
  - injection Heq as <- <-. split; assumption.
  - apply (IH k x Hd Hin).
Qed.

Lemma mentions_get :
  forall tokens d k x,
    mentions tokens (VDict d) = false -> Dict.get k d = Some x ->
    mentions tokens x = false.
Proof.
  intros tokens d k x H Hget.
  apply (proj2 (mentions_dict tokens d k x H (get_In k d x Hget))).
Qed.

Lemma has_token_false :
  forall tokens s ph,
    has_token tokens s = false -> In ph tokens -> PyStr.contains s ph = false.
Proof.
  intros tokens s ph H Hin. unfold has_token in H.
  destruct (PyStr.contains s ph) eqn:E; [|reflexivity].
  rewrite <- H. symmetry. apply existsb_exists. exists ph. split; assumption.
Qed.

(** [form ph in content] is false, or raises, when no token occurs in
    the content and the written form of a token holds the token. *)
Lemma py_in_unmentioned :
  forall tokens ph form_ph content b,
    In ph tokens ->
    PyStr.contains form_ph ph = true ->
    mentions tokens content = false ->
    py_in form_ph content = Ok b -> b = false.
Proof.
  intros tokens ph fp content b Hin Hfp Hm H.
  destruct b; [exfalso | reflexivity].
  apply contains_app in Hfp. destruct Hfp as [pre [post Hfp]].
  destruct content as [| | |c|l|d]; cbn [py_in] in H; try discriminate H;
    injection H as H.
  - cbn [mentions] in Hm.
    pose proof (has_token_false tokens c ph Hm Hin) as Hc.
    apply contains_app in H. destruct H as [a [b H]].
    assert (Hyes : PyStr.contains c ph = true).
    { apply contains_app. exists (a ++ pre), (post ++ b).
      rewrite H, Hfp, !append_assoc. reflexivity. }
    congruence.
  - apply existsb_exists in H. destruct H as [e [He Heq]].
    pose proof (mentions_list tokens l e Hm He) as Hme.
    destruct e as [| | |t| |]; try discriminate Heq. cbn [eq_str] in Heq.
    apply String.eqb_eq in Heq. subst t. cbn [mentions] in Hme.
    pose proof (has_token_false tokens fp ph Hme Hin) as Hc.
    assert (Hyes : PyStr.contains fp ph = true)
      by (apply contains_app; exists pre, post; exact Hfp).
    congruence.
  - unfold Dict.mem in H. destruct (Dict.get fp d) as [x|] eqn:Hget;
      [|discriminate H].
    destruct (mentions_dict tokens d fp x Hm (get_In fp d x Hget)) as [Hk _].
    pose proof (has_token_false tokens fp ph Hk Hin) as Hc.
    assert (Hyes : PyStr.contains fp ph = true)
      by (apply contains_app; exists pre, post; exact Hfp).
    congruence.
Qed.

Lemma contains_in_bracketed :
  forall ph, PyStr.contains (bracketed ph) ph = true.
Proof.
  intros ph. apply contains_app. exists "[", "]". reflexivity.
Qed.

Section Unmentioned.
Variable tokens : list string.
Variable link_lookup : list (string * link).
Hypothesis keys_are_tokens :
  forall e, In e link_lookup -> In (fst e) tokens.

Lemma find_placeholder_unmentioned :
  forall form content r,
    (forall ph, PyStr.contains (form ph) ph = true) ->
    mentions tokens content = false ->
    find_placeholder form link_lookup content = Ok r -> r = None.
Proof.
  intros form content r Hform Hm. revert keys_are_tokens.
  induction link_lookup as [|[ph ld] rest IH]; intros Hkeys H;
    cbn [find_placeholder] in H.
  - injection H as <-. reflexivity.
  - apply bind_ok in H. destruct H as [b [Hb H]].
    pose proof (py_in_unmentioned tokens ph (form ph) content b
                  (Hkeys (ph, ld) (or_introl eq_refl)) (Hform ph) Hm Hb) as ->.
    apply IH; [|exact H]. intros e He. apply Hkeys. right. exact He.
Qed.

Lemma process_text_unmentioned :
  forall block r,
    mentions tokens (VDict block) = false ->
    process_text link_lookup block = Ok r -> r = None.
Proof.
  intros block r Hm H. unfold process_text in H.
  destruct (Dict.get "text" block) as [[| | | | |text_dict]|] eqn:Htext;
    try (injection H as <-; reflexivity).
  destruct (Dict.get "content" text_dict) as [content|] eqn:Hcontent;
    [|injection H as <-; reflexivity].
  pose proof (mentions_get tokens block "text" _ Hm Htext) as Hmt.
  pose proof (mentions_get tokens text_dict "content" _ Hmt Hcontent) as Hmc.
  apply bind_ok in H. destruct H as [bare [Hbare H]].
  pose proof (find_placeholder_unmentioned (fun ph => ph) content bare
                contains_refl Hmc Hbare) as ->.
  apply bind_ok in H. destruct H as [wrapped [Hwrapped H]].
  pose proof (find_placeholder_unmentioned bracketed content wrapped
                contains_in_bracketed Hmc Hwrapped) as ->.
  injection H as <-. reflexivity.
Qed.
End Unmentioned.

Lemma setitem_getitem_id :
  forall v k x, getitem v k = Ok x -> LinkHandler.setitem v k x = v.
Proof.
  intros v k x H. destruct v as [| | | | |d]; try discriminate H.
  cbn [getitem] in H. cbn [LinkHandler.setitem].
  destruct (Dict.get k d) as [y|] eqn:Hget; [|discriminate H].
  injection H as ->. rewrite (set_get_id k x d Hget). reflexivity.
Qed.

Lemma getitem_In :
  forall v k x, getitem v k = Ok x -> exists d, v = VDict d /\ In (k, x) d.
Proof.
  intros v k x H. destruct v as [| | | | |d]; try discriminate H.
  cbn [getitem] in H. destruct (Dict.get k d) as [y|] eqn:Hget;
    [|discriminate H].
  injection H as ->. exists d. split; [reflexivity | apply get_In, Hget].
Qed.

Section TablePassKeeps.
Variable tokens : list string.
Variable rec : value -> result value.
Hypothesis rec_keeps :
  forall x r, mentions tokens x = false -> rec x = Ok r -> r = x.

Lemma process_cell_keeps :
  forall cell r,
    mentions tokens cell = false -> process_cell rec cell = Ok r -> r = cell.
Proof.
  intros cell r Hm H. destruct cell as [| | | |items|]; cbn [process_cell] in H;
    try (injection H as <-; reflexivity).
  apply bind_ok in H. destruct H as [items' [Hitems H]]. injection H as <-.
  rewrite (for_each_keeps rec items
             (fun x Hx r => rec_keeps x r (mentions_list tokens items x Hm Hx))
             items' Hitems).
  reflexivity.
Qed.

Lemma process_row_keeps :
  forall row r,
    mentions tokens row = false -> process_row rec row = Ok r -> r = row.
Proof.
  intros row r Hm H. destruct row as [| | | | |row_dict];
    cbn [process_row] in H; try (injection H as <-; reflexivity).
  destruct (Dict.get "table_row" row_dict) as [table_row|] eqn:Hrow;
    [|injection H as <-; reflexivity].
  apply bind_ok in H. destruct H as [has_cells [_ H]].
  destruct has_cells; [|injection H as <-; reflexivity].
  apply bind_ok in H. destruct H as [cells [Hcells H]].
  destruct cells as [| | | |cs|]; try (injection H as <-; reflexivity).
  apply bind_ok in H. destruct H as [cs' [Hcs H]]. injection H as <-.
  pose proof (mentions_get tokens row_dict "table_row" _ Hm Hrow) as Hmr.
  destruct (getitem_In _ _ _ Hcells) as [d [-> Hin]].
  pose proof (proj2 (mentions_dict tokens d "cells" _ Hmr Hin)) as Hmc.
  rewrite (for_each_keeps (process_cell rec) cs
             (fun x Hx r => process_cell_keeps x r
                              (mentions_list tokens cs x Hmc Hx))
             cs' Hcs).
  rewrite (setitem_getitem_id _ _ _ Hcells).
  rewrite (set_get_id _ _ _ Hrow). reflexivity.
Qed.

Lemma process_table_keeps :
  forall block r,
    mentions tokens (VDict block) = false ->
    process_table rec block = Ok r -> r = block.
Proof.
  intros block r Hm H. unfold process_table in H.
  destruct (Dict.get "table" block) as [table|] eqn:Htable;
    [|injection H as <-; reflexivity].
  apply bind_ok in H. destruct H as [has_children [_ H]].
  destruct has_children; [|injection H as <-; reflexivity].
  apply bind_ok in H. destruct H as [children [Hchildren H]].
  destruct children as [| | | |rows|]; try (injection H as <-; reflexivity).
  apply bind_ok in H. destruct H as [rows' [Hrows H]]. injection H as <-.
  pose proof (mentions_get tokens block "table" _ Hm Htable) as Hmt.
  destruct (getitem_In _ _ _ Hchildren) as [d [-> Hin]].
  pose proof (proj2 (mentions_dict tokens d "children" _ Hmt Hin)) as Hmc.
  rewrite (for_each_keeps (process_row rec) rows
             (fun x Hx r => process_row_keeps x r
                              (mentions_list tokens rows x Hmc Hx))
             rows' Hrows).
  rewrite (setitem_getitem_id _ _ _ Hchildren).
  rewrite (set_get_id _ _ _ Htable). reflexivity.
Qed.
End TablePassKeeps.

(** Whatever the fuel, a tree in which no token occurs comes back as it
    was whenever the traversal returns. *)
Lemma process_block_keeps :
  forall tokens link_lookup,
    (forall e, In e link_lookup -> In (fst e) tokens) ->
    forall fuel block r,
      mentions tokens block = false ->
      process_block fuel link_lookup block = Ok r -> r = block.
Proof.
  intros tokens lookup Hkeys.
  induction fuel as [|fuel IH]; intros block r Hm H; [discriminate H|].
  cbn [process_block] in H.
  destruct block as [| | | |l|d]; try (injection H as <-; reflexivity).
  - apply bind_ok in H. destruct H as [l' [Hl H]]. injection H as <-.
    rewrite (for_each_keeps _ l
               (fun x Hx r => IH x r (mentions_list tokens l x Hm Hx)) l' Hl).
    reflexivity.
  - apply bind_ok in H. destruct H as [d1 [Hd1 H]].
    assert (E1 : d1 = d).
    { destruct (is_table_block d).
      - apply (process_table_keeps tokens _ IH d d1 Hm Hd1).
      - injection Hd1 as <-. reflexivity. }
    subst d1.
    apply bind_ok in H. destruct H as [resolved [Hres H]].
    pose proof (process_text_unmentioned tokens lookup Hkeys d resolved Hm Hres)
      as ->.
    apply bind_ok in H. destruct H as [d2 [Hd2 H]]. injection H as <-.
    assert (Hvalues :
              forall k x, In (k, x) d ->
                forall r,
                  (if is_dict x || is_list x
                   then process_block fuel lookup x else Ok x) = Ok r ->
                  r = x).
    { intros k x Hx r Hr. destruct (is_dict x || is_list x).
      - apply (IH x r (proj2 (mentions_dict tokens d k x Hm Hx)) Hr).
      - injection Hr as <-. reflexivity. }
    rewrite (for_items_keeps _ d Hvalues d2 Hd2). reflexivity.
Qed.

(** ** Trees of the expected shape *)

Lemma height_list :
  forall l x, In x l -> height x < height (VList l).
Proof.
  induction l as [|y l IH]; intros x Hin; [contradiction|].
  cbn [height]. destruct Hin as [<- | Hin].
  - lia.
  - specialize (IH x Hin). cbn [height] in IH. lia.
Qed.

Lemma height_dict :
  forall d k x, In (k, x) d -> height x < height (VDict d).
Proof.
  induction d as [|[k' y] d IH]; intros k x Hin; [contradiction|].
  cbn [height]. destruct Hin as [Heq | Hin].
  - injection Heq as <- <-. lia.
  - specialize (IH k x Hin). cbn [height] in IH. lia.
Qed.

Lemma well_shaped_list :
  forall l x, well_shaped (VList l) = true -> In x l -> well_shaped x = true.
Proof.
  induction l as [|y l IH]; intros x H Hin; [contradiction|].
  cbn [well_shaped] in H. apply andb_true_iff in H. destruct H as [Hy Hl].
  destruct Hin as [<- | Hin]; [exact Hy | apply IH; assumption].
Qed.

Lemma well_shaped_dict :
  forall d k x,
    well_shaped (VDict d) = true -> In (k, x) d ->
    entry_shaped k x = true /\ well_shaped x = true.
Proof.
  induction d as [|[k' y] d IH]; intros k x H Hin; [contradiction|].
  cbn [well_shaped] in H. apply andb_true_iff in H. destruct H as [H Hd].
  apply andb_true_iff in H. destruct H as [Hk Hy].
  destruct Hin as [Heq | Hin].
  - injection Heq as <- <-. split; assumption.
  - apply (IH k x Hd Hin).
Qed.

Lemma py_in_dict :
  forall k d, py_in k (VDict d) = Ok (Dict.mem k d).
Proof. reflexivity. Qed.

Lemma find_placeholder_str :
  forall form link_lookup c,
    exists r, find_placeholder form link_lookup (VStr c) = Ok r.
Proof.
  intros form lookup c. induction lookup as [|[ph ld] rest IH];
    cbn [find_placeholder py_in bind].
  - exists None. reflexivity.
  - destruct (PyStr.contains c (form ph)); [eexists; reflexivity | exact IH].
Qed.

Section TablePassWorks.
Variable tokens : list string.
Variable rec : value -> result value.
Variable n : nat.

Hypothesis rec_works : forall x, settled tokens n x -> rec x = Ok x.

Lemma settled_list :
  forall b l x, settled tokens b (VList l) -> In x l -> settled tokens b x.
Proof.
  intros b l x [Hm [Hw Hh]] Hin. split; [|split].
  - apply (mentions_list tokens l x Hm Hin).
  - apply (well_shaped_list l x Hw Hin).
  - pose proof (height_list l x Hin). lia.
Qed.

Lemma settled_dict :
  forall b d k x,
    settled tokens b (VDict d) -> In (k, x) d ->
    settled tokens b x /\ entry_shaped k x = true.
Proof.
  intros b d k x [Hm [Hw Hh]] Hin.
  destruct (well_shaped_dict d k x Hw Hin) as [He Hwx].
  split; [split; [|split]|exact He].
  - apply (proj2 (mentions_dict tokens d k x Hm Hin)).
  - exact Hwx.
  - pose proof (height_dict d k x Hin). lia.
Qed.

Lemma process_cell_works :
  forall cell, settled tokens n cell -> process_cell rec cell = Ok cell.
Proof.
  intros cell Hs. destruct cell as [| | | |items|]; cbn [process_cell];
    try reflexivity.
  rewrite (for_each_works rec items
             (fun x Hx => rec_works x (settled_list n items x Hs Hx))).
  reflexivity.
Qed.

Lemma process_row_works :
  forall row, settled tokens n row -> process_row rec row = Ok row.
Proof.
  intros row Hs. destruct row as [| | | | |row_dict]; cbn [process_row];
    try reflexivity.
  destruct (Dict.get "table_row" row_dict) as [table_row|] eqn:Hrow;
    [|reflexivity].
  destruct (settled_dict n row_dict "table_row" table_row Hs
                         (get_In _ _ _ Hrow)) as [Hst Hshape].
  destruct table_row as [| | | | |tr]; try discriminate Hshape.
  rewrite py_in_dict. cbn [bind]. unfold Dict.mem. cbn [getitem].
  destruct (Dict.get "cells" tr) as [cells|] eqn:Hcells; [|reflexivity].
  cbn [bind].
  destruct (settled_dict n tr "cells" cells Hst (get_In _ _ _ Hcells))
    as [Hsc _].
  destruct cells as [| | | |cs|]; try reflexivity.
  rewrite (for_each_works (process_cell rec) cs
             (fun x Hx => process_cell_works x (settled_list n cs x Hsc Hx))).
  cbn [bind LinkHandler.setitem].
  rewrite (set_get_id _ _ _ Hcells), (set_get_id _ _ _ Hrow). reflexivity.
Qed.

Lemma process_table_works :
  forall block,
    settled tokens (S n) (VDict block) -> process_table rec block = Ok block.
Proof.
  intros block Hs. unfold process_table.
  destruct (Dict.get "table" block) as [table|] eqn:Htable; [|reflexivity].
  destruct (settled_dict (S n) block "table" table Hs (get_In _ _ _ Htable))
    as [Hst Hshape].
  destruct table as [| | | | |t]; try discriminate Hshape.
  rewrite py_in_dict. cbn [bind]. unfold Dict.mem. cbn [getitem].
  destruct (Dict.get "children" t) as [children|] eqn:Hchildren;
    [|reflexivity].
  cbn [bind].
  destruct (settled_dict (S n) t "children" children Hst
                         (get_In _ _ _ Hchildren)) as [Hsc _].
  destruct children as [| | | |rows|]; try reflexivity.
  assert (Hrows : forall x, In x rows -> settled tokens n x).
  { intros x Hx. destruct Hsc as [Hm [Hw Hh]]. split; [|split].
    - apply (mentions_list tokens rows x Hm Hx).
    - apply (well_shaped_list rows x Hw Hx).
    - pose proof (height_list rows x Hx).
      destruct Hst as [_ [_ Hht]].
      pose proof (height_dict t "children" (VList rows)
                              (get_In _ _ _ Hchildren)).
      pose proof (height_dict block "table" (VDict t) (get_In _ _ _ Htable)).
      destruct Hs as [_ [_ Hhb]]. lia. }
  rewrite (for_each_works (process_row rec) rows
             (fun x Hx => process_row_works x (Hrows x Hx))).
  cbn [bind LinkHandler.setitem].
  rewrite (set_get_id _ _ _ Hchildren), (set_get_id _ _ _ Htable).
  reflexivity.
Qed.
End TablePassWorks.

(** With fuel above its height, a tree of the expected shape in which no
    token occurs is returned as it is. *)
Lemma process_block_works :
  forall tokens link_lookup,
    (forall e, In e link_lookup -> In (fst e) tokens) ->
    forall fuel block,
      settled tokens fuel block ->
      process_block fuel link_lookup block = Ok block.
Proof.
  intros tokens lookup Hkeys.
  induction fuel as [|fuel IH]; intros block Hs.
  - destruct Hs as [_ [_ Hh]]. lia.
  - cbn [process_block].
    destruct block as [| | | |l|d]; try reflexivity.
    + rewrite (for_each_works _ l).
      * reflexivity.
      * intros x Hx. apply IH. destruct Hs as [Hm [Hw Hh]].
        split; [|split].
        -- apply (mentions_list tokens l x Hm Hx).
        -- apply (well_shaped_list l x Hw Hx).
        -- pose proof (height_list l x Hx). lia.
    + assert (Htab : (if is_table_block d
                      then process_table (process_block fuel lookup) d
                      else Ok d) = Ok d).
      { destruct (is_table_block d); [|reflexivity].
        apply (process_table_works tokens _ fuel IH d Hs). }
      rewrite Htab. cbn [bind].
      assert (Htext : process_text lookup d = Ok None).
      { destruct Hs as [Hm [Hw _]].
        destruct (process_text lookup d) as [r|e|] eqn:Hp.
        - rewrite (process_text_unmentioned tokens lookup Hkeys d r Hm Hp).
          reflexivity.
        - exfalso. unfold process_text in Hp.
          destruct (Dict.get "text" d) as [[| | | | |td]|] eqn:Ht;
            try discriminate Hp.
          destruct (Dict.get "content" td) as [content|] eqn:Hc;
            [|discriminate Hp].
          destruct (well_shaped_dict d "text" _ Hw (get_In _ _ _ Ht))
            as [_ Hwt].
          destruct (well_shaped_dict td "content" _ Hwt (get_In _ _ _ Hc))
            as [Hshape _].
          destruct content as [| | |c| |]; try discriminate Hshape.
          destruct (find_placeholder_str (fun ph => ph) lookup c) as [r1 E1].
          destruct (find_placeholder_str bracketed lookup c) as [r2 E2].
          rewrite E1 in Hp. cbn [bind] in Hp.
          destruct r1; [discriminate Hp|].
          rewrite E2 in Hp. cbn [bind] in Hp.
          destruct r2; discriminate Hp.
        - exfalso. unfold process_text in Hp.
          destruct (Dict.get "text" d) as [[| | | | |td]|] eqn:Ht;
            try discriminate Hp.
          destruct (Dict.get "content" td) as [content|] eqn:Hc;
            [|discriminate Hp].
          destruct (well_shaped_dict d "text" _ Hw (get_In _ _ _ Ht))
            as [_ Hwt].
          destruct (well_shaped_dict td "content" _ Hwt (get_In _ _ _ Hc))
            as [Hshape _].
          destruct content as [| | |c| |]; try discriminate Hshape.
          destruct (find_placeholder_str (fun ph => ph) lookup c) as [r1 E1].
          destruct (find_placeholder_str bracketed lookup c) as [r2 E2].
          rewrite E1 in Hp. cbn [bind] in Hp.
          destruct r1; [discriminate Hp|].
          rewrite E2 in Hp. cbn [bind] in Hp.
          destruct r2; discriminate Hp. }
      rewrite Htext. cbn [bind].
      rewrite (for_items_works _ d); [reflexivity|].
      intros k x Hx. destruct (is_dict x || is_list x); [|reflexivity].
      apply IH. destruct Hs as [Hm [Hw Hh]]. split; [|split].
      * apply (proj2 (mentions_dict tokens d k x Hm Hx)).
      * apply (proj2 (well_shaped_dict d k x Hw Hx)).
      * pose proof (height_dict d k x Hx). lia.
Qed.

(** ** Zero links, and blocks without tokens *)

Lemma lookup_set_keys :
  forall k l d e,
    In e (lookup_set k l d) -> fst e = k \/ In (fst e) (map fst d).
Proof.
  intros k l d. induction d as [|[k' l'] d IH]; intros e He;
    cbn [lookup_set] in He.
  - destruct He as [<- | []]. left. reflexivity.
  - destruct (String.eqb k k') eqn:E.
    + destruct He as [<- | He].
      * right. left. reflexivity.
      * right. right. apply in_map. exact He.
    + destruct He as [<- | He].
      * right. left. reflexivity.
      * destruct (IH e He) as [H | H]; [left; exact H | right; right; exact H].
Qed.

Lemma fold_lookup_keys :
  forall links acc e,
    In e (fold_left (fun d l => lookup_set (placeholder l) l d) links acc) ->
    In (fst e) (map fst acc) \/ In (fst e) (tokens_of links).
Proof.
  induction links as [|l links IH]; intros acc e He; cbn [fold_left] in He.
  - left. apply in_map. exact He.
  - destruct (IH _ e He) as [H | H].
    + apply in_map_iff in H. destruct H as [e' [Heq He']].
      destruct (lookup_set_keys _ _ _ _ He') as [Hk | Hk].
      * right. left. rewrite <- Heq, Hk. reflexivity.
      * left. rewrite <- Heq. exact Hk.
    + right. right. exact H.
Qed.

Lemma make_lookup_keys :
  forall links e, In e (make_lookup links) -> In (fst e) (tokens_of links).
Proof.
  intros links e He. destruct (fold_lookup_keys links [] e He) as [[] | H].
  exact H.
Qed.

Lemma for_each_Forall2 :
  forall (f : value -> result value) l l',
    for_each f l = Ok l' -> Forall2 (fun x y => f x = Ok y) l l'.
Proof.
  intros f. induction l as [|x l IH]; intros l' H; cbn [for_each] in H.
  - injection H as <-. constructor.
  - apply bind_ok in H. destruct H as [y [Hy H]].
    apply bind_ok in H. destruct H as [ys [Hys H]]. injection H as <-.
    constructor; [exact Hy | apply IH, Hys].
Qed.

Lemma fix_markdown_links_no_links :
  forall fuel md converter_func,
    snd (preprocess_markdown_links md) = [] ->
    fix_markdown_links fuel md converter_func
    = converter_func (fst (preprocess_markdown_links md)).
Proof.
  intros fuel md converter_func Hnone. unfold fix_markdown_links.
  destruct (preprocess_markdown_links md) as [processed links].
  cbn [fst snd] in *. subst links.
  destruct (converter_func processed); reflexivity.
Qed.

(** ** Fenced code blocks *)

(** The loop over the lines, line by line: a fence marker and a line
    inside a fence come out as they went in, and the links recorded are
    those of the lines outside the fences. *)
Lemma bare_url_lines_fenced :
  forall md lines b links,
    length (fst (bare_url_lines md lines b links)) = length lines
    /\ (forall i line,
           nth_error lines i = Some line ->
           is_fence line || fence_state lines b i = true ->
           nth_error (fst (bare_url_lines md lines b links)) i = Some line)
    /\ snd (bare_url_lines md lines b links)
       = record_lines md (outside_fences lines b) links.
Proof.
  intros md. induction lines as [|line rest IH]; intros b links.
  - cbn. split; [reflexivity|]. split; [|reflexivity].
    intros i line H. destruct i; discriminate H.
  - cbn [bare_url_lines outside_fences]. fold (is_fence line).
    destruct (is_fence line) eqn:Hf.
    + destruct (IH (negb b) links) as [Hlen [Hkeep Hrec]].
      destruct (bare_url_lines md rest (negb b) links) as [out ls].
      cbn [fst snd length] in *. split; [rewrite Hlen; reflexivity|].
      split; [|exact Hrec].
      intros [|i] l Hl Hin; cbn [nth_error fence_state] in *.
      * exact Hl.
      * rewrite Hf in Hin. apply (Hkeep i l Hl Hin).
    + destruct b; cbn [negb].
      * destruct (IH true links) as [Hlen [Hkeep Hrec]].
        destruct (bare_url_lines md rest true links) as [out ls].
        cbn [fst snd length] in *. split; [rewrite Hlen; reflexivity|].
        split; [|exact Hrec].
        intros [|i] l Hl Hin; cbn [nth_error fence_state] in *.
        -- exact Hl.
        -- rewrite Hf in Hin. apply (Hkeep i l Hl Hin).
      * destruct (re_sub match_bare_url (replace_bare_url md) line links)
          as [line' ls1] eqn:Hsub.
        destruct (IH false ls1) as [Hlen [Hkeep Hrec]].
        destruct (bare_url_lines md rest false ls1) as [out ls2].
        cbn [fst snd length] in *. split; [rewrite Hlen; reflexivity|].
        split.
        -- intros [|i] l Hl Hin; cbn [nth_error fence_state] in *.
           ++ injection Hl as <-. rewrite Hf in Hin. discriminate Hin.
           ++ rewrite Hf in Hin. apply (Hkeep i l Hl Hin).
        -- unfold record_lines. cbn [fold_left]. rewrite Hsub. cbn [snd].
           exact Hrec.
Qed.

(** ** Texts without links *)

Lemma string_drop_app :
  forall a b, string_drop (String.length a) (a ++ b) = b.
Proof. induction a as [|c a IH]; intros b; cbn; [destruct b|]; auto. Qed.

Section ReSubIdentity.
Variable M : Type.
Variable match_at : string -> option (M * nat).
Variable repl : nat -> M -> list link -> string * list link.

Hypothesis repl_grows :
  forall pos m st, length st <= length (snd (repl pos m st)).

Hypothesis repl_same :
  forall s m len pos st,
    match_at s = Some (m, len) ->
    length (snd (repl pos m st)) = length st ->
    exists rest,
      s = fst (repl pos m st) ++ rest
      /\ String.length (fst (repl pos m st)) = len
      /\ 0 < len.

Lemma sub_from_grows :
  forall s pos skip st,
    length st <= length (snd (sub_from match_at repl pos skip s st)).
Proof.
  induction s as [|c s IH]; intros pos skip st; cbn [sub_from].
  - cbn. lia.
  - destruct skip as [|k]; [|apply IH].
    destruct (match_at (String c s)) as [[m len]|].
    + pose proof (repl_grows pos m st) as H1.
      destruct (repl pos m st) as [r st1]. cbn [snd] in H1.
      pose proof (IH (S pos) (len - 1) st1) as H2.
      destruct (sub_from match_at repl (S pos) (len - 1) s st1) as [out st2].
      cbn [snd] in *. lia.
    + pose proof (IH (S pos) 0 st) as H2.
      destruct (sub_from match_at repl (S pos) 0 s st) as [out st1].
      exact H2.
Qed.

(** A scan that records nothing leaves the text as it is. *)
Lemma sub_from_same :
  forall s pos skip st,
    length (snd (sub_from match_at repl pos skip s st)) = length st ->
    fst (sub_from match_at repl pos skip s st) = string_drop skip s.
Proof.
  induction s as [|c s IH]; intros pos skip st; cbn [sub_from].
  - intros _. destruct skip; reflexivity.
  - destruct skip as [|k]; [|apply IH].
    destruct (match_at (String c s)) as [[m len]|] eqn:Hm.
    + pose proof (repl_grows pos m st) as H1.
      pose proof (repl_same (String c s) m len pos st Hm) as Hsame.
      destruct (repl pos m st) as [r st1]. cbn [fst snd] in *.
      pose proof (sub_from_grows s (S pos) (len - 1) st1) as H2.
      pose proof (IH (S pos) (len - 1) st1) as H3.
      destruct (sub_from match_at repl (S pos) (len - 1) s st1) as [out st2].
      cbn [fst snd] in *. intros Heq.
      destruct (Hsame ltac:(lia)) as [rest [Hs [Hlen Hpos]]].
      rewrite (H3 ltac:(lia)).
      destruct r as [|c' r']; [cbn in Hlen; lia|].
      cbn in Hs. injection Hs as <- ->. cbn in Hlen.
      replace (len - 1) with (String.length r') by lia.
      rewrite string_drop_app. reflexivity.
    + pose proof (IH (S pos) 0 st) as H3.
      destruct (sub_from match_at repl (S pos) 0 s st) as [out st1].
      cbn [fst snd] in *. intros Heq. rewrite (H3 Heq).
      destruct s; reflexivity.
Qed.
End ReSubIdentity.

Lemma span_app :
  forall p s, fst (PyStr.span p s) ++ snd (PyStr.span p s) = s.
Proof.
  intros p. induction s as [|c s IH]; cbn [PyStr.span]; [reflexivity|].
  destruct (p c); [|reflexivity].
  destruct (PyStr.span p s) as [a b]. cbn [fst snd] in *.
  cbn. rewrite IH. reflexivity.
Qed.

Lemma substring_all :
  forall s, String.substring 0 (String.length s) s = s.
Proof. induction s as [|c s IH]; cbn; [|rewrite IH]; reflexivity. Qed.

Lemma drop_app :
  forall a b, drop (String.length a) (a ++ b) = b.
Proof.
  unfold drop. induction a as [|c a IH]; intros b.
  - cbn. rewrite Nat.sub_0_r. apply substring_all.
  - cbn [append String.length String.substring]. apply IH.
Qed.

Lemma append_length :
  forall a b, String.length (a ++ b) = String.length a + String.length b.
Proof. induction a as [|c a IH]; intros b; cbn; [|rewrite IH]; reflexivity. Qed.

(** The match of the URL pattern is the head of the text. *)
Lemma match_bare_url_head :
  forall s u len,
    match_bare_url s = Some (u, len) ->
    exists rest, s = u ++ rest /\ String.length u = len /\ 0 < len.
Proof.
  intros s u len H. unfold match_bare_url in H.
  assert (Hscheme :
            forall sch,
              String.prefix sch s = true ->
              match PyStr.span url_char (drop (String.length sch) s) with
              | (String c body, _) =>
                  Some (sch ++ String c body,
                        String.length (sch ++ String c body))
              | (EmptyString, _) => None
              end = Some (u, len) ->
              exists rest, s = u ++ rest /\ String.length u = len /\ 0 < len).
  { intros sch Hp Hs. apply prefix_app in Hp. destruct Hp as [r ->].
    rewrite drop_app in Hs.
    pose proof (span_app url_char r) as Hr.
    destruct (PyStr.span url_char r) as [[|c body] rest]; [discriminate Hs|].
    cbn [fst snd] in Hr. injection Hs as <- <-.
    exists rest. split; [rewrite append_assoc, Hr; reflexivity|].
    split; [reflexivity|].
    rewrite append_length. cbn [String.length]. lia. }
  destruct (String.prefix "https://" s) eqn:E1.
  - apply (Hscheme "https://" E1 H).
  - destruct (String.prefix "http://" s) eqn:E2; [|discriminate H].
    apply (Hscheme "http://" E2 H).
Qed.

Lemma replace_markdown_link_grows :
  forall pos m st,
    length (snd (replace_markdown_link pos m st)) = S (length st).
Proof.
  intros pos [t u] st. cbn [replace_markdown_link snd].
  rewrite length_app. cbn [length]. lia.
Qed.

Lemma replace_bare_url_cases :
  forall md pos u st,
    replace_bare_url md pos u st = (u, st)
    \/ length (snd (replace_bare_url md pos u st)) = S (length st).
Proof.
  intros md pos u st. unfold replace_bare_url.
  destruct (PyStr.endswith (PyStr.slice_before md pos) "](");
    [left; reflexivity | right].
  cbn [snd]. rewrite length_app. cbn [length]. lia.
Qed.

Lemma markdown_pass_same :
  forall md,
    snd (re_sub match_markdown_link replace_markdown_link md []) = [] ->
    fst (re_sub match_markdown_link replace_markdown_link md []) = md.
Proof.
  intros md H. unfold re_sub in *.
  rewrite (sub_from_same _ match_markdown_link replace_markdown_link).
  - destruct md; reflexivity.
  - intros pos m st. rewrite replace_markdown_link_grows. lia.
  - intros s m len pos st _ Hlen.
    rewrite replace_markdown_link_grows in Hlen. lia.
  - rewrite H. reflexivity.
Qed.

Lemma bare_url_pass_grows :
  forall md line st,
    length st <= length (snd (re_sub match_bare_url (replace_bare_url md)
                                     line st)).
Proof.
  intros md line st. unfold re_sub. apply sub_from_grows.
  intros pos m st'.
  destruct (replace_bare_url_cases md pos m st') as [-> | ->]; cbn; lia.
Qed.

Lemma bare_url_pass_same :
  forall md line st,
    length (snd (re_sub match_bare_url (replace_bare_url md) line st))
    = length st ->
    fst (re_sub match_bare_url (replace_bare_url md) line st) = line.
Proof.
  intros md line st H. unfold re_sub in *.
  rewrite (sub_from_same _ match_bare_url (replace_bare_url md)).
  - destruct line; reflexivity.
  - intros pos m st'.
    destruct (replace_bare_url_cases md pos m st') as [-> | ->]; cbn; lia.
  - intros s m len pos st' Hm Hlen.
    destruct (replace_bare_url_cases md pos m st') as [E | E].
    + rewrite E. cbn [fst]. apply (match_bare_url_head s m len Hm).
    + rewrite E in Hlen. lia.
  - exact H.
Qed.

Lemma bare_url_lines_grows :
  forall md lines b st,
    length st <= length (snd (bare_url_lines md lines b st)).
Proof.
  intros md. induction lines as [|line rest IH]; intros b st;
    cbn [bare_url_lines]; [cbn; lia|].
  destruct (PyStr.startswith (PyStr.strip line) fence).
  - pose proof (IH (negb b) st) as H.
    destruct (bare_url_lines md rest (negb b) st). exact H.
  - destruct (negb b).
    + pose proof (bare_url_pass_grows md line st) as H1.
      destruct (re_sub match_bare_url (replace_bare_url md) line st)
        as [line' st1]. cbn [snd] in H1.
      pose proof (IH b st1) as H2.
      destruct (bare_url_lines md rest b st1). cbn [snd] in *. lia.
    + pose proof (IH b st) as H.
      destruct (bare_url_lines md rest b st). exact H.
Qed.

Lemma bare_url_lines_same :
  forall md lines b st,
    length (snd (bare_url_lines md lines b st)) = length st ->
    fst (bare_url_lines md lines b st) = lines.
Proof.
  intros md. induction lines as [|line rest IH]; intros b st;
    cbn [bare_url_lines]; [reflexivity|].
  destruct (PyStr.startswith (PyStr.strip line) fence).
  - pose proof (IH (negb b) st) as H.
    destruct (bare_url_lines md rest (negb b) st). cbn [fst snd] in *.
    intros Heq. rewrite (H Heq). reflexivity.
  - destruct (negb b).
    + pose proof (bare_url_pass_grows md line st) as H1.
      pose proof (bare_url_pass_same md line st) as H1'.
      destruct (re_sub match_bare_url (replace_bare_url md) line st)
        as [line' st1]. cbn [fst snd] in *.
      pose proof (bare_url_lines_grows md rest b st1) as H2.
      pose proof (IH b st1) as H2'.
      destruct (bare_url_lines md rest b st1). cbn [fst snd] in *.
      intros Heq. rewrite (H1' ltac:(lia)), (H2' ltac:(lia)). reflexivity.
    + pose proof (IH b st) as H.
      destruct (bare_url_lines md rest b st). cbn [fst snd] in *.
      intros Heq. rewrite (H Heq). reflexivity.
Qed.

Lemma split_lines_nonempty : forall s, PyStr.split_lines s <> [].
Proof.
  induction s as [|c s IH]; cbn [PyStr.split_lines]; [discriminate|].
  destruct (Ascii.eqb c PyStr.newline); [discriminate|].
  destruct (PyStr.split_lines s); [contradiction | discriminate].
Qed.

Lemma join_lines_cons :
  forall x y r,
    PyStr.join_lines (x :: y :: r)
    = x ++ String PyStr.newline (PyStr.join_lines (y :: r)).
Proof. reflexivity. Qed.

Lemma join_lines_head :
  forall c l ls,
    PyStr.join_lines (String c l :: ls) = String c (PyStr.join_lines (l :: ls)).
Proof. intros c l [|y r]; reflexivity. Qed.

Lemma join_split_lines : forall s, PyStr.join_lines (PyStr.split_lines s) = s.
Proof.
  induction s as [|c s IH]; cbn [PyStr.split_lines]; [reflexivity|].
  pose proof (split_lines_nonempty s) as Hne.
  destruct (Ascii.eqb c PyStr.newline) eqn:E.
  - apply Ascii.eqb_eq in E. subst c.
    destruct (PyStr.split_lines s) as [|l ls]; [contradiction|].
    rewrite join_lines_cons, IH. reflexivity.
  - destruct (PyStr.split_lines s) as [|l ls]; [contradiction|].
    rewrite join_lines_head, IH. reflexivity.
Qed.

(** A text in which preprocessing finds no link is its own masked
    text. *)
Lemma preprocess_no_links :
  forall md,
    snd (preprocess_markdown_links md) = [] ->
    fst (preprocess_markdown_links md) = md.
Proof.
  intros md H. unfold preprocess_markdown_links in *.
  pose proof (markdown_pass_same md) as H1.
  destruct (re_sub match_markdown_link replace_markdown_link md [])
    as [processed links1]. cbn [fst snd] in H1.
  pose proof (bare_url_lines_grows md (PyStr.split_lines processed) false
                                   links1) as H2.
  pose proof (bare_url_lines_same md (PyStr.split_lines processed) false
                                  links1) as H3.
  destruct (bare_url_lines md (PyStr.split_lines processed) false links1)
    as [lines' links2]. cbn [fst snd] in *. subst links2.
  assert (links1 = []) by (destruct links1; [reflexivity | cbn in H2; lia]).
  subst links1. rewrite (H3 eq_refl), join_split_lines. apply H1. reflexivity.
Qed.

(** ** The facade and the link preservation protocol *)

(** For the bare URL [https://example.com], without the bridge and with
    markdown rendering the text as one paragraph, the facade returns the
    paragraph with the URL as plain text, while masking, converting and
    resolving gives the paragraph with the URL as a link: the two differ
    whatever the fuel. *)
Lemma facade_does_not_mask_links :
  markdown_to_notion_blocks plain_env (PStr "https://example.com") true true
  = Ok (VList [rich_text_block "paragraph" [text_run "https://example.com"]])
  /\ wrapped plain_env 5 "https://example.com" true true
     = Ok (VList [rich_text_block "paragraph"
                    [link_run "https://example.com" "https://example.com"]])
  /\ ~ (exists fuel,
          markdown_to_notion_blocks plain_env (PStr "https://example.com")
                                    true true
          = wrapped plain_env fuel "https://example.com" true true).
Proof.
  split; [vm_compute; reflexivity|]. split; [vm_compute; reflexivity|].
  intros [fuel H].
  do 5 (destruct fuel as [|fuel]; [vm_compute in H; discriminate H|]).
  vm_compute in H. discriminate H.
Qed.

(** ** The traversal returns *)

Lemma potential_list_eq :
  forall l, potential (VList l) = S (list_potential l).
Proof. reflexivity. Qed.

Lemma potential_dict_eq :
  forall d,
    potential (VDict d)
    = S (Nat.max (if Dict.mem "content" d then 1 else 0) (dict_potential d)).
Proof. reflexivity. Qed.

Lemma list_potential_In :
  forall l x, In x l -> potential x <= list_potential l.
Proof.
  induction l as [|y l IH]; intros x Hin; [contradiction|].
  cbn [list_potential]. destruct Hin as [<- | Hin]; [lia|].
  specialize (IH x Hin). lia.
Qed.

Lemma dict_potential_In :
  forall d k x, In (k, x) d -> potential x <= dict_potential d.
Proof.
  induction d as [|[k' y] d IH]; intros k x Hin; [contradiction|].
  cbn [dict_potential]. destruct Hin as [Heq | Hin].
  - injection Heq as <- <-. lia.
  - specialize (IH k x Hin). lia.
Qed.

Lemma potential_list :
  forall l x, In x l -> potential x < potential (VList l).
Proof.
  intros l x Hin. rewrite potential_list_eq.
  pose proof (list_potential_In l x Hin). lia.
Qed.

Lemma potential_dict :
  forall d k x, In (k, x) d -> potential x < potential (VDict d).
Proof.
  intros d k x Hin. rewrite potential_dict_eq.
  pose proof (dict_potential_In d k x Hin). lia.
Qed.

Lemma same_kind_refl : forall v, same_kind v v.
Proof. intros v. repeat split. Qed.

Lemma tamed_refl : forall v, well_shaped v = true -> tamed v v.
Proof. intros v H. split; [apply same_kind_refl|]. split; [exact H | lia]. Qed.

Lemma tamed_trans :
  forall a b c, tamed a b -> tamed b c -> tamed a c.
Proof.
  intros a b c [[K1 [K2 K3]] [_ P1]] [[L1 [L2 L3]] [W P2]].
  split; [|split; [exact W | lia]].
  repeat split; congruence.
Qed.

Lemma entry_shaped_same_kind :
  forall k v r, same_kind v r -> entry_shaped k v = true ->
                entry_shaped k r = true.
Proof.
  intros k v r [K1 [_ K3]] H. unfold entry_shaped in *.
  rewrite K1, K3. exact H.
Qed.

Lemma well_shaped_list_intro :
  forall l, (forall x, In x l -> well_shaped x = true) ->
            well_shaped (VList l) = true.
Proof.
  induction l as [|x l IH]; intros H; [reflexivity|].
  cbn [well_shaped]. apply andb_true_iff. split.
  - apply H. left. reflexivity.
  - apply IH. intros y Hy. apply H. right. exact Hy.
Qed.

Lemma well_shaped_dict_intro :
  forall d,
    (forall k x, In (k, x) d ->
                 entry_shaped k x = true /\ well_shaped x = true) ->
    well_shaped (VDict d) = true.
Proof.
  induction d as [|[k x] d IH]; intros H; [reflexivity|].
  cbn [well_shaped]. destruct (H k x (or_introl eq_refl)) as [He Hw].
  rewrite He, Hw. cbn [andb].
  apply IH. intros k' y Hy. apply H. right. exact Hy.
Qed.

(** Lists and dictionaries whose parts are tamed are tamed. *)
Lemma tamed_list :
  forall l l', Forall2 tamed l l' -> tamed (VList l) (VList l').
Proof.
  intros l l' H. split; [repeat split|]. split.
  - apply well_shaped_list_intro. intros y Hy.
    induction H as [|a b l l' Hab _ IH]; [contradiction|].
    destruct Hy as [<- | Hy]; [apply Hab | apply IH, Hy].
  - rewrite !potential_list_eq. apply le_n_S.
    induction H as [|a b l l' Hab _ IH]; cbn [list_potential]; [lia|].
    destruct Hab as [_ [_ Hp]]. lia.
Qed.

Lemma tamed_dict_mem :
  forall d d' k, tamed_dict d d' -> Dict.mem k d' = Dict.mem k d.
Proof.
  intros d d' k H. unfold Dict.mem.
  induction H as [|[k1 x] [k2 y] d d' [Hk _] _ IH]; [reflexivity|].
  cbn [fst] in Hk. subst k2. cbn [Dict.get].
  destruct (String.eqb k k1); [reflexivity | exact IH].
Qed.

Lemma tamed_dict_intro :
  forall d d',
    well_shaped (VDict d) = true ->
    tamed_dict d d' -> tamed (VDict d) (VDict d').
Proof.
  intros d d' Hw H. split; [repeat split|]. split.
  - apply well_shaped_dict_intro. intros k y Hy.
    revert Hw. induction H as [|[k1 a] [k2 b] d d' [Hk Hab] _ IH];
      intros Hw; [contradiction|].
    cbn [fst snd] in *. subst k2.
    destruct (well_shaped_dict _ k1 a Hw (or_introl eq_refl)) as [He _].
    destruct Hy as [Heq | Hy].
    + injection Heq as <- <-. split; [|apply Hab].
      apply (entry_shaped_same_kind k1 a b (proj1 Hab) He).
    + apply IH; [exact Hy|].
      cbn [well_shaped] in Hw. apply andb_true_iff in Hw. apply Hw.
  - rewrite !potential_dict_eq, (tamed_dict_mem d d' "content" H).
    apply le_n_S.
    assert (Hp : dict_potential d' <= dict_potential d).
    { clear Hw. induction H as [|[k1 a] [k2 b] d d' [_ Hab] _ IH];
        cbn [dict_potential]; [lia|].
      destruct Hab as [_ [_ Hp]]. cbn [snd] in Hp. lia. }
    lia.
Qed.

Lemma tamed_dict_refl :
  forall d, well_shaped (VDict d) = true -> tamed_dict d d.
Proof.
  induction d as [|[k x] d IH]; intros Hw; constructor.
  - split; [reflexivity|]. apply tamed_refl.
    apply (proj2 (well_shaped_dict _ k x Hw (or_introl eq_refl))).
  - apply IH. cbn [well_shaped] in Hw. apply andb_true_iff in Hw. apply Hw.
Qed.

(** Replacing the value under a key by a tamed one. *)
Lemma tamed_dict_set :
  forall d k x y,
    well_shaped (VDict d) = true ->
    Dict.get k d = Some x -> tamed x y ->
    tamed_dict d (Dict.set k y d).
Proof.
  induction d as [|[k' v] d IH]; intros k x y Hw Hget Hxy;
    cbn [Dict.get] in Hget; [discriminate|].
  cbn [Dict.set]. destruct (String.eqb k k') eqn:E.
  - injection Hget as ->. constructor.
    + split; [reflexivity | exact Hxy].
    + apply tamed_dict_refl.
      cbn [well_shaped] in Hw. apply andb_true_iff in Hw. apply Hw.
  - constructor.
    + split; [reflexivity|]. apply tamed_refl.
      apply (proj2 (well_shaped_dict _ k' v Hw (or_introl eq_refl))).
    + apply (IH k x y); [|exact Hget | exact Hxy].
      cbn [well_shaped] in Hw. apply andb_true_iff in Hw. apply Hw.
Qed.

Lemma tamed_set :
  forall d k x y,
    well_shaped (VDict d) = true ->
    Dict.get k d = Some x -> tamed x y ->
    tamed (VDict d) (VDict (Dict.set k y d)).
Proof.
  intros d k x y Hw Hget Hxy.
  apply (tamed_dict_intro d _ Hw (tamed_dict_set d k x y Hw Hget Hxy)).
Qed.

Lemma well_shaped_set :
  forall d k y,
    well_shaped (VDict d) = true ->
    entry_shaped k y = true -> well_shaped y = true ->
    well_shaped (VDict (Dict.set k y d)) = true.
Proof.
  induction d as [|[k' v] d IH]; intros k y Hw He Hy; cbn [Dict.set].
  - cbn [well_shaped]. rewrite He, Hy. reflexivity.
  - cbn [well_shaped] in Hw. apply andb_true_iff in Hw. destruct Hw as [Hv Hd].
    destruct (String.eqb k k') eqn:E.
    + apply String.eqb_eq in E. subst k'. cbn [well_shaped].
      rewrite He, Hy. exact Hd.
    + cbn [well_shaped]. rewrite Hv. cbn [andb]. apply (IH k y Hd He Hy).
Qed.

Lemma dict_potential_set :
  forall d k y,
    dict_potential (Dict.set k y d) <= Nat.max (dict_potential d) (potential y).
Proof.
  induction d as [|[k' v] d IH]; intros k y; cbn [Dict.set dict_potential].
  - lia.
  - destruct (String.eqb k k'); cbn [dict_potential].
    + lia.
    + specialize (IH k y). lia.
Qed.

Lemma mem_set_other :
  forall k k' v d, k <> k' -> Dict.mem k' (Dict.set k v d) = Dict.mem k' d.
Proof.
  intros k k' v d Hne. unfold Dict.mem. rewrite get_set_other by exact Hne.
  reflexivity.
Qed.

(** Writing the link of a resolved run. *)
Lemma set_link_tamed :
  forall d u,
    well_shaped (VDict d) = true ->
    Dict.mem "content" d = true ->
    tamed (VDict d) (VDict (Dict.set "link" (VDict [("url", VStr u)]) d)).
Proof.
  intros d u Hw Hmem. split; [repeat split|]. split.
  - apply well_shaped_set; [exact Hw | reflexivity | reflexivity].
  - rewrite !potential_dict_eq, mem_set_other by discriminate.
    rewrite Hmem.
    pose proof (dict_potential_set d "link" (VDict [("url", VStr u)])) as H.
    change (potential (VDict [("url", VStr u)])) with 1 in H. lia.
Qed.

Lemma resolve_tamed :
  forall text_dict s link_data,
    well_shaped (VDict text_dict) = true ->
    Dict.get "content" text_dict = Some (VStr s) ->
    tamed (VDict text_dict) (VDict (resolve text_dict link_data)).
Proof.
  intros td s ld Hw Hget. unfold resolve.
  assert (H1 : tamed (VDict td)
                     (VDict (Dict.set "content" (VStr (text ld)) td))).
  { apply (tamed_set td "content" (VStr s) _ Hw Hget).
    split; [repeat split|]. split; [reflexivity | cbn; lia]. }
  eapply tamed_trans; [exact H1|].
  apply set_link_tamed; [apply H1|].
  unfold Dict.mem. rewrite get_set_same. reflexivity.
Qed.

Lemma for_each_total :
  forall (f : value -> result value) l,
    (forall x, In x l -> exists r, f x = Ok r /\ tamed x r) ->
    exists l', for_each f l = Ok l' /\ Forall2 tamed l l'.
Proof.
  intros f. induction l as [|x l IH]; intros Hf; cbn [for_each].
  - exists []. split; [reflexivity | constructor].
  - destruct (Hf x (or_introl eq_refl)) as [y [Hy Hxy]].
    destruct (IH (fun z Hz => Hf z (or_intror Hz))) as [ys [Hys Hall]].
    rewrite Hy. cbn [bind]. rewrite Hys. cbn [bind].
    exists (y :: ys). split; [reflexivity | constructor; assumption].
Qed.

Lemma for_items_total :
  forall (f : value -> result value) d,
    (forall k x, In (k, x) d -> exists r, f x = Ok r /\ tamed x r) ->
    exists d', Dict.for_items f d = Ok d' /\ tamed_dict d d'.
Proof.
  intros f. induction d as [|[k x] d IH]; intros Hf; cbn [Dict.for_items].
  - exists []. split; [reflexivity | constructor].
  - destruct (Hf k x (or_introl eq_refl)) as [y [Hy Hxy]].
    destruct (IH (fun k' z Hz => Hf k' z (or_intror Hz))) as [ys [Hys Hall]].
    rewrite Hy. cbn [bind]. rewrite Hys. cbn [bind].
    exists ((k, y) :: ys). split; [reflexivity|].
    constructor; [split; [reflexivity | exact Hxy] | exact Hall].
Qed.

Section TablePassTotal.
Variable rec : value -> result value.
Variable n : nat.

Hypothesis rec_total :
  forall x, well_shaped x = true -> potential x < n ->
            exists r, rec x = Ok r /\ tamed x r.

Lemma process_cell_total :
  forall cell,
    well_shaped cell = true -> potential cell <= n ->
    exists r, process_cell rec cell = Ok r /\ tamed cell r.
Proof.
  intros cell Hw Hp. destruct cell as [| | | |items|]; cbn [process_cell];
    try (eexists; split; [reflexivity | apply tamed_refl; exact Hw]).
  destruct (for_each_total rec items) as [items' [Hitems Hall]].
  { intros x Hx. apply rec_total.
    - apply (well_shaped_list items x Hw Hx).
    - pose proof (potential_list items x Hx). lia. }
  rewrite Hitems. cbn [bind]. eexists. split; [reflexivity|].
  apply tamed_list, Hall.
Qed.

Lemma process_row_total :
  forall row,
    well_shaped row = true -> potential row <= n ->
    exists r, process_row rec row = Ok r /\ tamed row r.
Proof.
  intros row Hw Hp. destruct row as [| | | | |row_dict]; cbn [process_row];
    try (eexists; split; [reflexivity | apply tamed_refl; exact Hw]).
  destruct (Dict.get "table_row" row_dict) as [table_row|] eqn:Hrow;
    [|eexists; split; [reflexivity | apply tamed_refl; exact Hw]].
  destruct (well_shaped_dict row_dict _ _ Hw (get_In _ _ _ Hrow))
    as [Hshape Hwt].
  pose proof (potential_dict row_dict _ _ (get_In _ _ _ Hrow)) as Hpt.
  destruct table_row as [| | | | |tr]; try discriminate Hshape.
  rewrite py_in_dict. cbn [bind]. unfold Dict.mem. cbn [getitem].
  destruct (Dict.get "cells" tr) as [cells|] eqn:Hcells;
    [|eexists; split; [reflexivity | apply tamed_refl; exact Hw]].
  cbn [bind].
  destruct (well_shaped_dict tr _ _ Hwt (get_In _ _ _ Hcells)) as [_ Hwc].
  pose proof (potential_dict tr _ _ (get_In _ _ _ Hcells)) as Hpc.
  destruct cells as [| | | |cs|];
    try (eexists; split; [reflexivity | apply tamed_refl; exact Hw]).
  destruct (for_each_total (process_cell rec) cs) as [cs' [Hcs Hall]].
  { intros x Hx. apply process_cell_total.
    - apply (well_shaped_list cs x Hwc Hx).
    - pose proof (potential_list cs x Hx). lia. }
  rewrite Hcs. cbn [bind LinkHandler.setitem].
  eexists. split; [reflexivity|].
  apply (tamed_set row_dict "table_row" (VDict tr) _ Hw Hrow).
  apply (tamed_set tr "cells" (VList cs) _ Hwt Hcells).
  apply tamed_list, Hall.
Qed.

Lemma process_table_total :
  forall block,
    well_shaped (VDict block) = true -> potential (VDict block) <= n ->
    exists r, process_table rec block = Ok r /\ tamed (VDict block) (VDict r).
Proof.
  intros block Hw Hp. unfold process_table.
  destruct (Dict.get "table" block) as [table|] eqn:Htable;
    [|eexists; split; [reflexivity | apply tamed_refl; exact Hw]].
  destruct (well_shaped_dict block _ _ Hw (get_In _ _ _ Htable))
    as [Hshape Hwt].
  pose proof (potential_dict block _ _ (get_In _ _ _ Htable)) as Hpt.
  destruct table as [| | | | |t]; try discriminate Hshape.
  rewrite py_in_dict. cbn [bind]. unfold Dict.mem. cbn [getitem].
  destruct (Dict.get "children" t) as [children|] eqn:Hchildren;
    [|eexists; split; [reflexivity | apply tamed_refl; exact Hw]].
  cbn [bind].
  destruct (well_shaped_dict t _ _ Hwt (get_In _ _ _ Hchildren)) as [_ Hwc].
  pose proof (potential_dict t _ _ (get_In _ _ _ Hchildren)) as Hpc.
  destruct children as [| | | |rows|];
    try (eexists; split; [reflexivity | apply tamed_refl; exact Hw]).
  destruct (for_each_total (process_row rec) rows) as [rows' [Hrows Hall]].
  { intros x Hx. apply process_row_total.
    - apply (well_shaped_list rows x Hwc Hx).
    - pose proof (potential_list rows x Hx). lia. }
  rewrite Hrows. cbn [bind LinkHandler.setitem].
  eexists. split; [reflexivity|].
  apply (tamed_set block "table" (VDict t) _ Hw Htable).
  apply (tamed_set t "children" (VList rows) _ Hwt Hchildren).
  apply tamed_list, Hall.
Qed.
End TablePassTotal.

Lemma process_text_total :
  forall link_lookup block,
    well_shaped (VDict block) = true ->
    exists r,
      process_text link_lookup block = Ok r
      /\ forall block', r = Some block' ->
                        tamed (VDict block) (VDict block').
Proof.
  intros lookup block Hw. unfold process_text.
  destruct (Dict.get "text" block) as [[| | | | |td]|] eqn:Htext;
    try (exists None; split; [reflexivity | intros ? H; discriminate H]).
  destruct (Dict.get "content" td) as [content|] eqn:Hcontent;
    [|exists None; split; [reflexivity | intros ? H; discriminate H]].
  destruct (well_shaped_dict block _ _ Hw (get_In _ _ _ Htext)) as [_ Hwt].
  destruct (well_shaped_dict td _ _ Hwt (get_In _ _ _ Hcontent))
    as [Hshape _].
  destruct content as [| | |c| |]; try discriminate Hshape.
  assert (Hres : forall ld,
             tamed (VDict block)
                   (VDict (Dict.set "text" (VDict (resolve td ld)) block))).
  { intros ld. apply (tamed_set block "text" (VDict td) _ Hw Htext).
    apply (resolve_tamed td c ld Hwt Hcontent). }
  destruct (find_placeholder_str (fun ph => ph) lookup c) as [r1 E1].
  destruct (find_placeholder_str bracketed lookup c) as [r2 E2].
  rewrite E1. cbn [bind]. destruct r1 as [ld|].
  - eexists. split; [reflexivity|]. intros b' H. injection H as <-. apply Hres.
  - rewrite E2. cbn [bind]. destruct r2 as [ld|].
    + eexists. split; [reflexivity|]. intros b' H. injection H as <-.
      apply Hres.
    + exists None. split; [reflexivity | intros ? H; discriminate H].
Qed.

(** With fuel above its [potential], the traversal of a tree of the
    expected shape returns, and returns a tamed tree. *)
Lemma process_block_total :
  forall link_lookup fuel block,
    well_shaped block = true ->
    potential block < fuel ->
    exists r, process_block fuel link_lookup block = Ok r /\ tamed block r.
Proof.
  intros lookup. induction fuel as [|fuel IH]; intros block Hw Hp; [lia|].
  cbn [process_block].
  destruct block as [| | | |l|d];
    try (eexists; split; [reflexivity | apply tamed_refl; exact Hw]).
  - destruct (for_each_total (process_block fuel lookup) l) as [l' [Hl Hall]].
    { intros x Hx. apply IH.
      - apply (well_shaped_list l x Hw Hx).
      - pose proof (potential_list l x Hx). lia. }
    rewrite Hl. cbn [bind]. eexists. split; [reflexivity|].
    apply tamed_list, Hall.
  - assert (Htab : exists d1,
               (if is_table_block d
                then process_table (process_block fuel lookup) d
                else Ok d) = Ok d1
               /\ tamed (VDict d) (VDict d1)).
    { destruct (is_table_block d).
      - apply (process_table_total _ fuel IH d Hw). lia.
      - exists d. split; [reflexivity | apply tamed_refl; exact Hw]. }
    destruct Htab as [d1 [Hd1 Ht1]]. rewrite Hd1. cbn [bind].
    destruct Ht1 as [K1 [Hw1 Hp1]].
    destruct (process_text_total lookup d1 Hw1) as [res [Hres Htres]].
    rewrite Hres. cbn [bind]. destruct res as [d2|].
    + eexists. split; [reflexivity|].
      apply (tamed_trans _ (VDict d1)); [repeat split; assumption|].
      apply Htres. reflexivity.
    + destruct (for_items_total
                  (fun v => if is_dict v || is_list v
                            then process_block fuel lookup v else Ok v) d1)
        as [d2 [Hd2 Ht2]].
      { intros k x Hx.
        destruct (well_shaped_dict d1 k x Hw1 Hx) as [_ Hwx].
        destruct (is_dict x || is_list x).
        - apply IH; [exact Hwx|].
          pose proof (potential_dict d1 k x Hx). lia.
        - exists x. split; [reflexivity | apply tamed_refl; exact Hwx]. }
      rewrite Hd2. cbn [bind]. eexists. split; [reflexivity|].
      apply (tamed_trans _ (VDict d1)); [repeat split; assumption|].
      apply (tamed_dict_intro d1 d2 Hw1 Ht2).
Qed.

(** ** Zero links and blocks without tokens: the statement *)

(** C8.  With no link extracted, [postprocess_notion_blocks] returns the
    blocks it was given, and [fix_markdown_links] returns what the
    backend returned.  With links, a block tree of the expected shape in
    which no token occurs is returned unchanged, once the fuel is above
    its height.  A sequence of blocks of the expected shape is returned
    as a sequence in which every block without a token is as it was,
    once the fuel is above the [potential] of the sequence; and whatever
    the shape, whenever the traversal of a sequence returns, every block
    without a token is as it was. *)
Theorem zero_link_identity :
  (forall fuel blocks, postprocess_notion_blocks fuel blocks [] = Ok blocks)
  /\ (forall fuel md converter_func,
         snd (preprocess_markdown_links md) = [] ->
         fix_markdown_links fuel md converter_func
         = converter_func (fst (preprocess_markdown_links md)))
  /\ (forall fuel links blocks,
         mentions (tokens_of links) blocks = false ->
         well_shaped blocks = true ->
         height blocks < fuel ->
         postprocess_notion_blocks fuel blocks links = Ok blocks)
  /\ (forall fuel links bs,
         well_shaped (VList bs) = true ->
         potential (VList bs) < fuel ->
         exists bs',
           postprocess_notion_blocks fuel (VList bs) links = Ok (VList bs')
           /\ Forall2 (fun b b' => mentions (tokens_of links) b = false ->
                                   b' = b) bs bs')
  /\ (forall fuel links bs r,
         postprocess_notion_blocks fuel (VList bs) links = Ok r ->
         exists bs',
           r = VList bs'
           /\ Forall2 (fun b b' => mentions (tokens_of links) b = false ->
                                   b' = b) bs bs').
Proof.
  assert (Heach :
            forall fuel links bs r,
              postprocess_notion_blocks fuel (VList bs) links = Ok r ->
              exists bs',
                r = VList bs'
                /\ Forall2 (fun b b' => mentions (tokens_of links) b = false ->
                                        b' = b) bs bs').
  { intros fuel links bs r H. unfold postprocess_notion_blocks in H.
    destruct links as [|l links].
    - injection H as <-. exists bs. split; [reflexivity|].
      induction bs; constructor; [intros _; reflexivity | assumption].
    - destruct fuel as [|fuel]; [discriminate H|].
      cbn [process_block] in H.
      apply bind_ok in H. destruct H as [bs' [Hbs H]]. injection H as <-.
      exists bs'. split; [reflexivity|].
      apply for_each_Forall2 in Hbs.
      induction Hbs as [|b b' bs bs' Hb _ IH]; constructor; [|exact IH].
      intros Hm.
      apply (process_block_keeps (tokens_of (l :: links)) _
                                 (make_lookup_keys (l :: links))
                                 fuel b b' Hm Hb). }
  split; [reflexivity|]. split; [|split; [|split]].
  - exact fix_markdown_links_no_links.
  - intros fuel links blocks Hm Hw Hh. unfold postprocess_notion_blocks.
    destruct links as [|l links]; [reflexivity|].
    apply (process_block_works (tokens_of (l :: links)) _
                               (make_lookup_keys (l :: links))).
    split; [exact Hm | split; [exact Hw | exact Hh]].
  - intros fuel links bs Hw Hp.
    assert (Hret : exists r,
               postprocess_notion_blocks fuel (VList bs) links = Ok r).
    { unfold postprocess_notion_blocks. destruct links as [|l links].
      - eexists. reflexivity.
      - destruct (process_block_total (make_lookup (l :: links)) fuel
                                      (VList bs) Hw Hp) as [r [Hr _]].
        exists r. exact Hr. }
    destruct Hret as [r Hr].
    destruct (Heach fuel links bs r Hr) as [bs' [-> Hall]].
    exists bs'. split; [exact Hr | exact Hall].
  - exact Heach.
Qed.

Lemma zero_link_identity_witness :
  (snd (preprocess_markdown_links "plain text") = []
   /\ fix_markdown_links 0 "plain text" (builtin_backend plain_env)
      = builtin_backend plain_env "plain text")
  /\ (mentions (tokens_of one_link)
               (VList [rich_text_block "paragraph" [text_run "plain text"]])
      = false
      /\ height (VList [rich_text_block "paragraph" [text_run "plain text"]])
         < 7
      /\ postprocess_notion_blocks
           7 (VList [rich_text_block "paragraph" [text_run "plain text"]])
           one_link
         = Ok (VList [rich_text_block "paragraph" [text_run "plain text"]]))
  /\ (well_shaped (VList two_paragraphs) = true
      /\ potential (VList two_paragraphs) < 8
      /\ exists bs',
          postprocess_notion_blocks 8 (VList two_paragraphs) one_link
          = Ok (VList bs')
          /\ Forall2 (fun b b' => mentions (tokens_of one_link) b = false ->
                                  b' = b) two_paragraphs bs')
  /\ postprocess_notion_blocks 7 (VList two_paragraphs) one_link
     = Ok (VList [rich_text_block "paragraph" [text_run "plain text"];
                  rich_text_block "paragraph"
                    [link_run "Example" "https://example.com"]]).
Proof.
  destruct zero_link_identity as [_ [Hfix [Hwhole [Htotal _]]]].
  split; [|split; [|split]].
  - assert (Hnone : snd (preprocess_markdown_links "plain text") = [])
      by (vm_compute; reflexivity).
    split; [exact Hnone|].
    rewrite (Hfix 0 "plain text" (builtin_backend plain_env) Hnone).
    reflexivity.
  - split; [vm_compute; reflexivity|].
    split; [apply Nat.ltb_lt; vm_compute; reflexivity|].
    apply Hwhole; [vm_compute; reflexivity | vm_compute; reflexivity
                  | apply Nat.ltb_lt; vm_compute; reflexivity].
  - assert (Hw : well_shaped (VList two_paragraphs) = true)
      by (vm_compute; reflexivity).
    assert (Hp : potential (VList two_paragraphs) < 8)
      by (apply Nat.ltb_lt; vm_compute; reflexivity).
    split; [exact Hw|]. split; [exact Hp|].
    apply (Htotal 8 one_link two_paragraphs Hw Hp).
  - vm_compute. reflexivity.
Defined.

(** * Further properties of the link handler *)

(** ** The recorded links *)

(** X1.  The entries of [extracted_links] are named by their index: a
    number [m] of entries from markdown links come first, entry [i]
    among them named [LINKPLACEHOLDER_i], and every later entry [i] is
    named [URLLINKPLACEHOLDER_i].  The placeholders are therefore
    pairwise distinct, and [link_lookup] holds one item per entry, in
    the order of creation. *)
Theorem placeholders_are_unique :
  forall md,
    (exists m, named_by_index m (snd (preprocess_markdown_links md)))
    /\ NoDup (map placeholder (snd (preprocess_markdown_links md)))
    /\ make_lookup (snd (preprocess_markdown_links md))
       = map entry (snd (preprocess_markdown_links md)).
Proof.
  intros md. destruct (preprocess_links_named md) as [m Hm].
  pose proof (named_by_index_distinct _ _ Hm) as Hd.
  split; [exists m; exact Hm|]. split; [exact Hd|].
  apply make_lookup_distinct, Hd.
Qed.

Lemma all_chars_span :
  forall p s, all_chars p (fst (PyStr.span p s)) = true.
Proof.
  intros p. induction s as [|c s IH]; cbn [PyStr.span]; [reflexivity|].
  destruct (p c) eqn:Hc; [|reflexivity].
  destruct (PyStr.span p s) as [a b]. cbn [fst all_chars] in *.
  rewrite Hc, IH. reflexivity.
Qed.

Lemma all_chars_app :
  forall p a b, all_chars p (a ++ b) = all_chars p a && all_chars p b.
Proof.
  intros p. induction a as [|c a IH]; intros b; cbn [append all_chars];
    [reflexivity|].
  rewrite IH, andb_assoc. reflexivity.
Qed.

Lemma prefix_of_app :
  forall p r, String.prefix p (p ++ r) = true.
Proof. intros p r. apply prefix_app. exists r. reflexivity. Qed.

Lemma match_markdown_link_classes :
  forall s link_text link_url len,
    match_markdown_link s = Some ((link_text, link_url), len) ->
    all_chars (not_char "]") link_text = true
    /\ all_chars (not_char ")") link_url = true.
Proof.
  intros s t u len H. unfold match_markdown_link in H.
  destruct s as [|c r]; [discriminate|].
  destruct (Ascii.eqb c "[") eqn:Ec;
    [apply Ascii.eqb_eq in Ec; subst c
    |destruct c as [[] [] [] [] [] [] [] []]; try discriminate H;
     discriminate Ec].
  pose proof (all_chars_span (not_char "]") r) as Ht.
  destruct (PyStr.span (not_char "]") r) as [t' r1]. cbn [fst] in Ht.
  destruct t' as [|c1 t']; [discriminate|].
  destruct r1 as [|a r1]; [discriminate|].
  destruct (Ascii.eqb a "]") eqn:Ea;
    [apply Ascii.eqb_eq in Ea; subst a
    |destruct a as [[] [] [] [] [] [] [] []]; try discriminate H;
     discriminate Ea].
  destruct r1 as [|b r2]; [discriminate|].
  destruct (Ascii.eqb b "(") eqn:Eb;
    [apply Ascii.eqb_eq in Eb; subst b
    |destruct b as [[] [] [] [] [] [] [] []]; try discriminate H;
     discriminate Eb].
  pose proof (all_chars_span (not_char ")") r2) as Hu.
  destruct (PyStr.span (not_char ")") r2) as [u' r3]. cbn [fst] in Hu.
  destruct u' as [|c2 u']; [discriminate|].
  destruct r3 as [|d r3]; [discriminate|].
  destruct (Ascii.eqb d ")") eqn:Ed;
    [apply Ascii.eqb_eq in Ed; subst d
    |destruct d as [[] [] [] [] [] [] [] []]; try discriminate H;
     discriminate Ed].
  injection H as <- <- _. split; assumption.
Qed.

Lemma match_bare_url_classes :
  forall s u len,
    match_bare_url s = Some (u, len) ->
    (String.prefix "http://" u = true \/ String.prefix "https://" u = true)
    /\ all_chars url_char u = true.
Proof.
  intros s u len H. unfold match_bare_url in H.
  destruct (String.prefix "https://" s).
  - pose proof (all_chars_span url_char
                  (drop (String.length "https://") s)) as Hb.
    destruct (PyStr.span url_char (drop (String.length "https://") s))
      as [[|c body] rest]; [discriminate|].
    injection H as <- _. cbn [fst] in Hb. split.
    + right. exact (prefix_of_app "https://" (String c body)).
    + change (all_chars url_char ("https://" ++ String c body) = true).
      rewrite all_chars_app, Hb. reflexivity.
  - destruct (String.prefix "http://" s); [|discriminate].
    pose proof (all_chars_span url_char
                  (drop (String.length "http://") s)) as Hb.
    destruct (PyStr.span url_char (drop (String.length "http://") s))
      as [[|c body] rest]; [discriminate|].
    injection H as <- _. cbn [fst] in Hb. split.
    + left. exact (prefix_of_app "http://" (String c body)).
    + change (all_chars url_char ("http://" ++ String c body) = true).
      rewrite all_chars_app, Hb. reflexivity.
Qed.

(** X2.  Every recorded entry is of one of two shapes.  An entry for a
    markdown link has a display text without a closing bracket and a
    target without a closing parenthesis: the target of
    [[t](https://h/a_(b))] is cut before the first closing parenthesis.
    An entry for a bare URL has the URL as its display text; the URL
    starts with [http://] or [https://] and holds no white space, closing
    parenthesis, quote, closing bracket or closing brace. *)
Theorem recorded_entries_have_two_shapes :
  forall md,
    Forall (fun l => markdown_entry l \/ bare_url_entry l)
           (snd (preprocess_markdown_links md)).
Proof.
  intros md. apply preprocess_keeps.
  - intros s [t u] len pos links Hm Hl.
    apply match_markdown_link_classes in Hm.
    cbn [replace_markdown_link snd].
    apply Forall_app. split; [exact Hl|].
    constructor; [|constructor]. left.
    split; [apply prefix_of_app | exact Hm].
  - intros md' s u len pos links Hm Hl.
    apply match_bare_url_classes in Hm. unfold replace_bare_url.
    destruct (PyStr.endswith (PyStr.slice_before md' pos) "](");
      cbn [snd]; [exact Hl|].
    apply Forall_app. split; [exact Hl|].
    constructor; [|constructor]. right.
    split; [apply prefix_of_app|]. split; [reflexivity | exact Hm].
  - constructor.
Qed.

(** ** Texts that a pass leaves alone *)

Section Inert.
Variables M St : Type.
Variable match_at : string -> option (M * nat).
Variable repl : nat -> M -> St -> string * St.

Section Everywhere.
Variable Q : string -> Prop.
Hypothesis Q_tail : forall c s, Q (String c s) -> Q s.
Hypothesis Q_none : forall s, Q s -> match_at s = None.

(** Where the pattern matches at no position, the scan returns the text
    and the state as they were. *)
Lemma sub_from_inert :
  forall s pos st, Q s -> sub_from match_at repl pos 0 s st = (s, st).
Proof.
  induction s as [|c s IH]; intros pos st H; cbn [sub_from]; [reflexivity|].
  rewrite (Q_none _ H), (IH (S pos) st (Q_tail _ _ H)). reflexivity.
Qed.
End Everywhere.

Section Head.
Variable p : ascii -> bool.
Hypothesis head_none :
  forall c s, p c = true -> match_at (String c s) = None.

(** A prefix on which no match can start is copied, and the scan goes on
    behind it. *)
Lemma sub_from_inert_prefix :
  forall a b pos st,
    all_chars p a = true ->
    sub_from match_at repl pos 0 (a ++ b) st
    = (a ++ fst (sub_from match_at repl (pos + String.length a) 0 b st),
       snd (sub_from match_at repl (pos + String.length a) 0 b st)).
Proof.
  induction a as [|c a IH]; intros b pos st H.
  - cbn [append String.length]. rewrite Nat.add_0_r.
    destruct (sub_from match_at repl pos 0 b st). reflexivity.
  - cbn [all_chars] in H. apply andb_true_iff in H. destruct H as [Hc Ha].
    cbn [append sub_from String.length]. rewrite (head_none _ _ Hc).
    rewrite (IH b (S pos) st Ha).
    replace (S pos + String.length a) with (pos + S (String.length a))
      by lia.
    reflexivity.
Qed.
End Head.

(** The characters that a match covers are skipped. *)
Lemma sub_from_skip :
  forall a b pos st,
    sub_from match_at repl pos (String.length a) (a ++ b) st
    = sub_from match_at repl (pos + String.length a) 0 b st.
Proof.
  induction a as [|c a IH]; intros b pos st.
  - cbn [append String.length]. rewrite Nat.add_0_r. reflexivity.
  - cbn [append sub_from String.length]. rewrite IH.
    replace (S pos + String.length a) with (pos + S (String.length a))
      by lia.
    reflexivity.
Qed.
End Inert.

Lemma all_chars_tail :
  forall p c s, all_chars p (String c s) = true -> all_chars p s = true.
Proof.
  intros p c s H. cbn [all_chars] in H. apply andb_true_iff in H. apply H.
Qed.

Lemma contains_tail :
  forall k c s,
    PyStr.contains (String c s) k = false -> PyStr.contains s k = false.
Proof.
  intros k c s H. cbn [PyStr.contains] in H.
  apply orb_false_iff in H. apply H.
Qed.

Lemma span_stop :
  forall p a c b,
    all_chars p a = true -> p c = false ->
    PyStr.span p (a ++ String c b) = (a, String c b).
Proof.
  intros p. induction a as [|x a IH]; intros c b Ha Hc;
    cbn [append PyStr.span].
  - rewrite Hc. reflexivity.
  - cbn [all_chars] in Ha. apply andb_true_iff in Ha. destruct Ha as [Hx Ha].
    rewrite Hx, (IH c b Ha Hc). reflexivity.
Qed.

Lemma span_all :
  forall p a,
    all_chars p a = true -> PyStr.span p a = (a, EmptyString).
Proof.
  intros p. induction a as [|x a IH]; intros Ha; cbn [PyStr.span];
    [reflexivity|].
  cbn [all_chars] in Ha. apply andb_true_iff in Ha. destruct Ha as [Hx Ha].
  rewrite Hx, (IH Ha). reflexivity.
Qed.

(** What the link pattern matches: an opening bracket, the display
    text, a closing bracket and an opening parenthesis, the target, and a
    closing parenthesis. *)
Lemma match_markdown_link_shape :
  forall s link_text link_url len,
    match_markdown_link s = Some ((link_text, link_url), len) ->
    exists rest,
      s = "[" ++ link_text ++ "](" ++ link_url ++ ")" ++ rest
      /\ len = String.length link_text + String.length link_url + 4.
Proof.
  intros s t u len H. unfold match_markdown_link in H.
  destruct s as [|c r]; [discriminate|].
  destruct (Ascii.eqb c "[") eqn:Ec;
    [apply Ascii.eqb_eq in Ec; subst c
    |destruct c as [[] [] [] [] [] [] [] []]; try discriminate H;
     discriminate Ec].
  pose proof (span_app (not_char "]") r) as Hr.
  destruct (PyStr.span (not_char "]") r) as [t' r1]. cbn [fst snd] in Hr.
  destruct t' as [|c1 t']; [discriminate|].
  destruct r1 as [|a r1]; [discriminate|].
  destruct (Ascii.eqb a "]") eqn:Ea;
    [apply Ascii.eqb_eq in Ea; subst a
    |destruct a as [[] [] [] [] [] [] [] []]; try discriminate H;
     discriminate Ea].
  destruct r1 as [|b r2]; [discriminate|].
  destruct (Ascii.eqb b "(") eqn:Eb;
    [apply Ascii.eqb_eq in Eb; subst b
    |destruct b as [[] [] [] [] [] [] [] []]; try discriminate H;
     discriminate Eb].
  pose proof (span_app (not_char ")") r2) as Hr2.
  destruct (PyStr.span (not_char ")") r2) as [u' r3]. cbn [fst snd] in Hr2.
  destruct u' as [|c2 u']; [discriminate|].
  destruct r3 as [|d r3]; [discriminate|].
  destruct (Ascii.eqb d ")") eqn:Ed;
    [apply Ascii.eqb_eq in Ed; subst d
    |destruct d as [[] [] [] [] [] [] [] []]; try discriminate H;
     discriminate Ed].
  injection H as <- <- <-. exists r3. split; [|reflexivity].
  rewrite <- Hr, <- Hr2. reflexivity.
Qed.

Lemma match_markdown_link_exact :
  forall t u rest,
    t <> EmptyString -> u <> EmptyString ->
    all_chars (not_char "]") t = true ->
    all_chars (not_char ")") u = true ->
    match_markdown_link
      (String "[" (t ++ String "]" (String "(" (u ++ String ")" rest))))
    = Some ((t, u), String.length t + String.length u + 4).
Proof.
  intros t u rest Ht Hu Hct Hcu. unfold match_markdown_link.
  rewrite (span_stop (not_char "]") t "]" _ Hct eq_refl).
  destruct t as [|c t]; [contradiction|].
  rewrite (span_stop (not_char ")") u ")" _ Hcu eq_refl).
  destruct u as [|d u]; [contradiction|]. reflexivity.
Qed.

Lemma markdown_link_needs_bracket :
  forall c s, not_char "[" c = true -> match_markdown_link (String c s) = None.
Proof.
  intros c s H. unfold not_char in H. apply negb_true_iff in H.
  unfold match_markdown_link.
  destruct c as [[] [] [] [] [] [] [] []]; try reflexivity; discriminate H.
Qed.

Lemma markdown_link_needs_joint :
  forall s, PyStr.contains s "](" = false -> match_markdown_link s = None.
Proof.
  intros s H. destruct (match_markdown_link s) as [[[t u] len]|] eqn:Hm;
    [|reflexivity].
  apply match_markdown_link_shape in Hm. destruct Hm as [rest [Hs _]].
  assert (PyStr.contains s "](" = true) as Hc.
  { apply contains_app. exists ("[" ++ t), (u ++ ")" ++ rest).
    rewrite Hs, !append_assoc. reflexivity. }
  rewrite Hc in H. discriminate H.
Qed.

Lemma bare_url_needs_colon :
  forall s, all_chars (not_char ":") s = true -> match_bare_url s = None.
Proof.
  intros s H. unfold match_bare_url.
  destruct (String.prefix "https://" s) eqn:E1.
  - apply prefix_app in E1. destruct E1 as [r ->]. discriminate H.
  - destruct (String.prefix "http://" s) eqn:E2; [|reflexivity].
    apply prefix_app in E2. destruct E2 as [r ->]. discriminate H.
Qed.

Lemma bare_url_needs_scheme :
  forall s, PyStr.contains s "://" = false -> match_bare_url s = None.
Proof.
  intros s H. destruct (match_bare_url s) as [[u len]|] eqn:Hm;
    [|reflexivity].
  destruct (match_bare_url_head _ _ _ Hm) as [rest [Hs _]].
  apply match_bare_url_classes in Hm. destruct Hm as [Hp _].
  assert (PyStr.contains s "://" = true) as Hc.
  { apply contains_app. destruct Hp as [Hp|Hp];
      apply prefix_app in Hp; destruct Hp as [r Hr].
    - exists "http", (r ++ rest). rewrite Hs, Hr, !append_assoc. reflexivity.
    - exists "https", (r ++ rest). rewrite Hs, Hr, !append_assoc.
      reflexivity. }
  rewrite Hc in H. discriminate H.
Qed.

Section InertLines.
Variable Q : string -> Prop.
Hypothesis Q_tail : forall c s, Q (String c s) -> Q s.
Hypothesis Q_none : forall s, Q s -> match_bare_url s = None.

(** Lines on which the URL pattern matches nowhere come back as they
    were, inside a fence or outside. *)
Lemma bare_url_lines_inert :
  forall md lines b links,
    Forall Q lines -> bare_url_lines md lines b links = (lines, links).
Proof.
  intros md. induction lines as [|line rest IH]; intros b links H;
    cbn [bare_url_lines]; [reflexivity|].
  inversion H as [|? ? Hl Hrest]; subst.
  destruct (PyStr.startswith (PyStr.strip line) fence).
  - rewrite (IH _ _ Hrest). reflexivity.
  - destruct (negb b).
    + unfold re_sub.
      rewrite (sub_from_inert _ _ match_bare_url (replace_bare_url md) Q
                              Q_tail Q_none line 0 links Hl).
      rewrite (IH _ _ Hrest). reflexivity.
    + rewrite (IH _ _ Hrest). reflexivity.
Qed.
End InertLines.

Lemma all_chars_split_lines :
  forall p s,
    all_chars p s = true ->
    Forall (fun l => all_chars p l = true) (PyStr.split_lines s).
Proof.
  intros p. induction s as [|c s IH]; intros H; cbn [PyStr.split_lines].
  - constructor; [reflexivity | constructor].
  - cbn [all_chars] in H. apply andb_true_iff in H. destruct H as [Hc Hs].
    specialize (IH Hs).
    destruct (Ascii.eqb c PyStr.newline).
    + constructor; [reflexivity | exact IH].
    + destruct (PyStr.split_lines s) as [|l ls].
      * constructor; [cbn [all_chars]; rewrite Hc; reflexivity|constructor].
      * inversion IH as [|? ? Hl Hls]; subst.
        constructor; [cbn [all_chars]; rewrite Hc, Hl; reflexivity|exact Hls].
Qed.

Lemma split_lines_head :
  forall s l ls, PyStr.split_lines s = l :: ls -> exists b, s = l ++ b.
Proof.
  induction s as [|c s IH]; intros l ls H; cbn [PyStr.split_lines] in H.
  - injection H as <- _. exists EmptyString. reflexivity.
  - destruct (Ascii.eqb c PyStr.newline).
    + injection H as <- _. exists (String c s). reflexivity.
    + destruct (PyStr.split_lines s) as [|l' ls'] eqn:E.
      * injection H as <- _. exists s. reflexivity.
      * injection H as <- _. destruct (IH l' ls' eq_refl) as [b ->].
        exists b. reflexivity.
Qed.

(** Every line is a piece of the text. *)
Lemma split_lines_pieces :
  forall s line,
    In line (PyStr.split_lines s) -> exists a b, s = a ++ line ++ b.
Proof.
  induction s as [|c s IH]; intros line H; cbn [PyStr.split_lines] in H.
  - destruct H as [<-|[]]. exists EmptyString, EmptyString. reflexivity.
  - destruct (Ascii.eqb c PyStr.newline).
    + destruct H as [<-|H].
      * exists EmptyString, (String c s). reflexivity.
      * destruct (IH line H) as [a [b ->]]. exists (String c a), b.
        reflexivity.
    + destruct (PyStr.split_lines s) as [|l ls] eqn:E.
      * destruct H as [<-|[]]. exists EmptyString, s. reflexivity.
      * destruct H as [<-|H].
        -- destruct (split_lines_head s l ls E) as [b ->].
           exists EmptyString, b. reflexivity.
        -- destruct (IH line (or_intror H)) as [a [b ->]].
           exists (String c a), b. reflexivity.
Qed.

Lemma contains_piece :
  forall a x b k,
    PyStr.contains (a ++ x ++ b) k = false -> PyStr.contains x k = false.
Proof.
  intros a x b k H. destruct (PyStr.contains x k) eqn:E; [|reflexivity].
  apply contains_app in E. destruct E as [y [z ->]].
  assert (PyStr.contains (a ++ (y ++ k ++ z) ++ b) k = true) as Hc.
  { apply contains_app. exists (a ++ y), (z ++ b).
    rewrite !append_assoc. reflexivity. }
  rewrite Hc in H. discriminate H.
Qed.

Lemma contains_split_lines :
  forall k s,
    PyStr.contains s k = false ->
    Forall (fun l => PyStr.contains l k = false) (PyStr.split_lines s).
Proof.
  intros k s H. apply Forall_forall. intros line Hin.
  destruct (split_lines_pieces s line Hin) as [a [b Hs]].
  rewrite Hs in H. exact (contains_piece _ _ _ _ H).
Qed.

(** X3.  A text in which no closing bracket is followed by an opening
    parenthesis and in which [://] does not occur is its own masked text
    and records no link, so that [fix_markdown_links] gives it to the
    converter and returns what the converter returns. *)
Theorem plain_text_is_untouched :
  forall md,
    PyStr.contains md "](" = false ->
    PyStr.contains md "://" = false ->
    preprocess_markdown_links md = (md, [])
    /\ forall fuel converter_func,
         fix_markdown_links fuel md converter_func = converter_func md.
Proof.
  intros md H1 H2.
  assert (preprocess_markdown_links md = (md, [])) as Hp.
  { unfold preprocess_markdown_links, re_sub.
    rewrite (sub_from_inert _ _ match_markdown_link replace_markdown_link
               (fun s => PyStr.contains s "](" = false)
               (contains_tail "](") markdown_link_needs_joint md 0 [] H1).
    rewrite (bare_url_lines_inert
               (fun s => PyStr.contains s "://" = false)
               (contains_tail "://") bare_url_needs_scheme
               md (PyStr.split_lines md) false []
               (contains_split_lines _ _ H2)).
    rewrite join_split_lines. reflexivity. }
  split; [exact Hp|].
  intros fuel converter_func. unfold fix_markdown_links. rewrite Hp.
  destruct (converter_func md); reflexivity.
Qed.

Lemma plain_text_is_untouched_witness :
  PyStr.contains "See [1] (page 2): done." "](" = false
  /\ PyStr.contains "See [1] (page 2): done." "://" = false
  /\ preprocess_markdown_links "See [1] (page 2): done."
     = ("See [1] (page 2): done.", []).
Proof.
  split; [reflexivity|]. split; [reflexivity|].
  apply (plain_text_is_untouched "See [1] (page 2): done.");
    reflexivity.
Defined.

(** ** One link amid text *)

Lemma append_nil_r : forall s : string, s ++ EmptyString = s.
Proof. induction s as [|c s IH]; cbn; [|rewrite IH]; reflexivity. Qed.

(** The first pass on a text with one link between two pieces without an
    opening bracket. *)
Lemma markdown_pass_one_link :
  forall pre t u post,
    all_chars (not_char "[") pre = true ->
    all_chars (not_char "[") post = true ->
    t <> EmptyString -> u <> EmptyString ->
    all_chars (not_char "]") t = true ->
    all_chars (not_char ")") u = true ->
    re_sub match_markdown_link replace_markdown_link
           (pre ++ "[" ++ t ++ "](" ++ u ++ ")" ++ post) []
    = (pre ++ "[LINKPLACEHOLDER_0]" ++ post,
       [mkLink "LINKPLACEHOLDER_0" t u]).
Proof.
  intros pre t u post Hpre Hpost Ht Hu Hct Hcu. unfold re_sub.
  rewrite (sub_from_inert_prefix _ _ match_markdown_link
             replace_markdown_link (not_char "[")
             markdown_link_needs_bracket pre _ 0 [] Hpre).
  change ("[" ++ t ++ "](" ++ u ++ ")" ++ post)
    with (String "[" (t ++ String "]" (String "(" (u ++ String ")" post)))).
  cbn [sub_from].
  rewrite (match_markdown_link_exact t u post Ht Hu Hct Hcu).
  cbn [replace_markdown_link length].
  replace (t ++ String "]" (String "(" (u ++ String ")" post)))
    with ((t ++ "](" ++ u ++ ")") ++ post)
    by (rewrite !append_assoc; reflexivity).
  replace (String.length t + String.length u + 4 - 1)
    with (String.length (t ++ "](" ++ u ++ ")"))
    by (rewrite !append_length; cbn [String.length]; lia).
  rewrite sub_from_skip.
  rewrite (sub_from_inert _ _ match_markdown_link replace_markdown_link
             (fun s => all_chars (not_char "[") s = true)
             (all_chars_tail (not_char "["))).
  - reflexivity.
  - intros [|c s] H; [reflexivity|].
    apply markdown_link_needs_bracket.
    cbn [all_chars] in H. apply andb_true_iff in H. apply H.
  - exact Hpost.
Qed.

(** Preprocessing of such a text when, in addition, the two pieces hold
    no colon. *)
Lemma preprocess_one_link :
  forall pre t u post,
    all_chars (not_char "[") pre = true ->
    all_chars (not_char ":") pre = true ->
    all_chars (not_char "[") post = true ->
    all_chars (not_char ":") post = true ->
    t <> EmptyString -> u <> EmptyString ->
    all_chars (not_char "]") t = true ->
    all_chars (not_char ")") u = true ->
    preprocess_markdown_links (pre ++ "[" ++ t ++ "](" ++ u ++ ")" ++ post)
    = (pre ++ "[LINKPLACEHOLDER_0]" ++ post,
       [mkLink "LINKPLACEHOLDER_0" t u]).
Proof.
  intros pre t u post Hpre Hpre' Hpost Hpost' Ht Hu Hct Hcu.
  unfold preprocess_markdown_links.
  rewrite (markdown_pass_one_link pre t u post Hpre Hpost Ht Hu Hct Hcu).
  rewrite (bare_url_lines_inert
             (fun s => all_chars (not_char ":") s = true)
             (all_chars_tail (not_char ":")) bare_url_needs_colon).
  - rewrite join_split_lines. reflexivity.
  - apply all_chars_split_lines.
    rewrite !all_chars_app, Hpre', Hpost'. reflexivity.
Qed.

(** Postprocessing of a block of one of the seven rich text types goes
    through its runs. *)
Lemma process_block_rich_text :
  forall fuel link_lookup ty runs runs',
    In ty rich_text_types ->
    for_each (process_block (S fuel) link_lookup) runs = Ok runs' ->
    process_block (4 + fuel) link_lookup (rich_text_block ty runs)
    = Ok (rich_text_block ty runs').
Proof.
  intros fuel lk ty runs runs' Hty Hruns.
  assert (process_block (2 + fuel) lk (VList runs) = Ok (VList runs')) as Hl.
  { change (process_block (2 + fuel) lk (VList runs))
      with (bind (for_each (process_block (S fuel) lk) runs)
                 (fun l' => Ok (VList l'))).
    rewrite Hruns. reflexivity. }
  assert (process_block (3 + fuel) lk (VDict [("rich_text", VList runs)])
          = Ok (VDict [("rich_text", VList runs')])) as Hd.
  { change (process_block (3 + fuel) lk (VDict [("rich_text", VList runs)]))
      with (bind (bind (process_block (2 + fuel) lk (VList runs))
                       (fun v' => Ok [("rich_text", v')]))
                 (fun d2 => Ok (VDict d2))).
    rewrite Hl. reflexivity. }
  unfold rich_text_block.
  cbn in Hty.
  repeat (destruct Hty as [<-|Hty];
          [change (process_block (4 + fuel) lk ?b)
             with (process_block (S (3 + fuel)) lk b);
           cbn [process_block is_table_block Dict.get Dict.mem String.eqb
                Ascii.eqb Bool.eqb eq_str andb process_text bind
                Dict.for_items is_dict is_list orb];
           rewrite Hd; reflexivity|]).
  contradiction.
Qed.

Lemma text_run_resolves :
  forall fuel l content,
    PyStr.contains content (placeholder l) = true ->
    process_block (S fuel) [entry l] (text_run content)
    = Ok (link_run (text l) (url l)).
Proof.
  intros fuel l content Hc. unfold text_run.
  rewrite (process_block_run fuel [entry l] _ [("content", VStr content)]
                             content (placeholder l) l);
    [reflexivity | reflexivity | reflexivity | reflexivity |].
  exists [], []. split; [reflexivity|]. split; [exact Hc|].
  intros e [].
Qed.

(** X4.  A text with one markdown link [[t](u)] between two pieces that
    hold neither an opening bracket nor a colon is masked to the two
    pieces around [[LINKPLACEHOLDER_0]], with one entry that keeps [t]
    and [u] as they were written.  When the converter renders the masked
    text as a paragraph of one run, postprocessing turns that run into
    the link: its content is [t], its target is [u], and the two pieces
    around the link are no longer in the result. *)
Theorem link_amid_text_round_trip :
  forall pre t u post converter_func fuel,
    all_chars (not_char "[") pre = true ->
    all_chars (not_char ":") pre = true ->
    all_chars (not_char "[") post = true ->
    all_chars (not_char ":") post = true ->
    t <> EmptyString -> u <> EmptyString ->
    all_chars (not_char "]") t = true ->
    all_chars (not_char ")") u = true ->
    preprocess_markdown_links (pre ++ "[" ++ t ++ "](" ++ u ++ ")" ++ post)
    = (pre ++ "[LINKPLACEHOLDER_0]" ++ post,
       [mkLink "LINKPLACEHOLDER_0" t u])
    /\ (converter_func (pre ++ "[LINKPLACEHOLDER_0]" ++ post)
        = Ok (VList [rich_text_block "paragraph"
                       [text_run (pre ++ "[LINKPLACEHOLDER_0]" ++ post)]]) ->
        fix_markdown_links (5 + fuel)
                           (pre ++ "[" ++ t ++ "](" ++ u ++ ")" ++ post)
                           converter_func
        = Ok (VList [rich_text_block "paragraph" [link_run t u]])).
Proof.
  intros pre t u post converter_func fuel Hpre Hpre' Hpost Hpost' Ht Hu
         Hct Hcu.
  pose proof (preprocess_one_link pre t u post Hpre Hpre' Hpost Hpost'
                                  Ht Hu Hct Hcu) as Hp.
  split; [exact Hp|]. intros Hconv.
  unfold fix_markdown_links. rewrite Hp, Hconv. cbn [bind].
  unfold postprocess_notion_blocks.
  change (make_lookup [mkLink "LINKPLACEHOLDER_0" t u])
    with [entry (mkLink "LINKPLACEHOLDER_0" t u)].
  change (process_block (5 + fuel) ?lk (VList ?l))
    with (bind (for_each (process_block (4 + fuel) lk) l)
               (fun l' => Ok (VList l'))).
  cbn [for_each].
  rewrite (process_block_rich_text
             fuel _ "paragraph" _
             [link_run t u]).
  - reflexivity.
  - cbn. tauto.
  - cbn [for_each].
    rewrite (text_run_resolves fuel (mkLink "LINKPLACEHOLDER_0" t u)).
    + reflexivity.
    + apply contains_app. exists (pre ++ "["), ("]" ++ post).
      cbn [placeholder]. rewrite !append_assoc. reflexivity.
Qed.

Lemma link_amid_text_round_trip_witness :
  all_chars (not_char "[") "See " = true
  /\ all_chars (not_char ":") "See " = true
  /\ all_chars (not_char "[") " for details." = true
  /\ all_chars (not_char ":") " for details." = true
  /\ "docs" <> EmptyString /\ "https://d.example" <> EmptyString
  /\ all_chars (not_char "]") "docs" = true
  /\ all_chars (not_char ")") "https://d.example" = true
  /\ builtin_backend plain_env "See [LINKPLACEHOLDER_0] for details."
     = Ok (VList [rich_text_block "paragraph"
                    [text_run "See [LINKPLACEHOLDER_0] for details."]])
  /\ fix_markdown_links 5 "See [docs](https://d.example) for details."
                        (builtin_backend plain_env)
     = Ok (VList [rich_text_block "paragraph"
                    [link_run "docs" "https://d.example"]]).
Proof.
  repeat (split; [first [reflexivity | discriminate]|]).
  apply (link_amid_text_round_trip
           "See " "docs" "https://d.example" " for details."
           (builtin_backend plain_env) 0);
    first [reflexivity | discriminate].
Defined.

(** ** A text that is one URL *)

Lemma all_chars_weaken :
  forall (p q : ascii -> bool) s,
    (forall c, p c = true -> q c = true) ->
    all_chars p s = true -> all_chars q s = true.
Proof.
  intros p q s Hpq. induction s as [|c s IH]; intros H; [reflexivity|].
  cbn [all_chars] in *. apply andb_true_iff in H. destruct H as [Hc Hs].
  rewrite (Hpq c Hc), (IH Hs). reflexivity.
Qed.

Lemma url_char_parts :
  forall c,
    url_char c = true ->
    PyStr.isspace c = false /\ not_char "]" c = true.
Proof.
  intros c H. unfold url_char in H. apply negb_true_iff in H.
  do 5 (apply orb_false_iff in H; destruct H as [H ?]).
  split; [exact H|]. unfold not_char. apply negb_true_iff. assumption.
Qed.

Lemma split_lines_single :
  forall s,
    all_chars (fun c => negb (PyStr.isspace c)) s = true ->
    PyStr.split_lines s = [s].
Proof.
  induction s as [|c s IH]; intros H; cbn [PyStr.split_lines];
    [reflexivity|].
  cbn [all_chars] in H. apply andb_true_iff in H. destruct H as [Hc Hs].
  rewrite (IH Hs).
  destruct (Ascii.eqb c PyStr.newline) eqn:E; [|reflexivity].
  apply Ascii.eqb_eq in E. subst c. discriminate Hc.
Qed.

Lemma lstrip_solid :
  forall c s, PyStr.isspace c = false ->
              PyStr.lstrip (String c s) = String c s.
Proof. intros c s H. cbn [PyStr.lstrip]. rewrite H. reflexivity. Qed.

Lemma rstrip_solid :
  forall s,
    all_chars (fun c => negb (PyStr.isspace c)) s = true ->
    PyStr.rstrip s = s.
Proof.
  induction s as [|c s IH]; intros H; cbn [PyStr.rstrip]; [reflexivity|].
  cbn [all_chars] in H. apply andb_true_iff in H. destruct H as [Hc Hs].
  rewrite (IH Hs). apply negb_true_iff in Hc.
  destruct s; [rewrite Hc|]; reflexivity.
Qed.

Lemma strip_solid :
  forall s,
    all_chars (fun c => negb (PyStr.isspace c)) s = true ->
    PyStr.strip s = s.
Proof.
  intros s H. unfold PyStr.strip.
  destruct s as [|c s]; [reflexivity|].
  pose proof H as H'. cbn [all_chars] in H'.
  apply andb_true_iff in H'. destruct H' as [Hc _].
  apply negb_true_iff in Hc.
  rewrite (lstrip_solid c s Hc). apply rstrip_solid, H.
Qed.

Lemma sub_from_past_end :
  forall (M St : Type) (match_at : string -> option (M * nat))
         (repl : nat -> M -> St -> string * St) s pos st,
    sub_from match_at repl pos (String.length s) s st = (EmptyString, st).
Proof.
  intros M St match_at repl.
  induction s as [|c s IH]; intros pos st; cbn [sub_from String.length];
    [reflexivity | apply IH].
Qed.

Lemma match_bare_url_exact :
  forall sch body,
    is_scheme sch -> body <> EmptyString ->
    all_chars url_char body = true ->
    match_bare_url (sch ++ body)
    = Some (sch ++ body, String.length (sch ++ body)).
Proof.
  intros sch body Hs Hb Hc. unfold match_bare_url.
  destruct Hs as [-> | ->].
  - change (String.prefix "https://" ("http://" ++ body)) with false.
    rewrite (prefix_of_app "http://" body).
    rewrite (drop_app "http://" body), (span_all _ _ Hc).
    destruct body; [contradiction | reflexivity].
  - rewrite (prefix_of_app "https://" body).
    rewrite (drop_app "https://" body), (span_all _ _ Hc).
    destruct body; [contradiction | reflexivity].
Qed.

Lemma preprocess_one_url :
  forall sch body,
    is_scheme sch -> body <> EmptyString ->
    all_chars url_char body = true ->
    preprocess_markdown_links (sch ++ body)
    = ("URLLINKPLACEHOLDER_0",
       [mkLink "URLLINKPLACEHOLDER_0" (sch ++ body) (sch ++ body)]).
Proof.
  intros sch body Hs Hb Hc.
  assert (all_chars url_char (sch ++ body) = true) as Hu.
  { rewrite all_chars_app, Hc. destruct Hs as [-> | ->]; reflexivity. }
  assert (all_chars (fun c => negb (PyStr.isspace c)) (sch ++ body) = true)
    as Hsolid.
  { apply (all_chars_weaken url_char); [|exact Hu].
    intros c H. apply url_char_parts in H. destruct H as [H _].
    rewrite H. reflexivity. }
  unfold preprocess_markdown_links, re_sub.
  rewrite (sub_from_inert _ _ match_markdown_link replace_markdown_link
             (fun s => PyStr.contains s "](" = false)
             (contains_tail "](") markdown_link_needs_joint).
  2:{ destruct (PyStr.contains (sch ++ body) "](") eqn:E; [|reflexivity].
      apply contains_app in E. destruct E as [a [b E]].
      rewrite E, !all_chars_app in Hu.
      apply andb_true_iff in Hu. destruct Hu as [_ Hu].
      discriminate Hu. }
  rewrite (split_lines_single _ Hsolid).
  cbn [bare_url_lines].
  rewrite (strip_solid _ Hsolid).
  assert (PyStr.startswith (sch ++ body) fence = false) as Hf
    by (destruct Hs as [-> | ->]; reflexivity).
  rewrite Hf. cbn [negb]. unfold re_sub.
  pose proof (match_bare_url_exact sch body Hs Hb Hc) as Hm.
  destruct (sch ++ body) as [|c0 tl] eqn:Eu.
  { destruct Hs as [-> | ->]; discriminate Eu. }
  cbn [sub_from]. rewrite Hm.
  unfold replace_bare_url.
  change (PyStr.endswith (PyStr.slice_before (String c0 tl) 0) "](")
    with false.
  cbn [length String.length Nat.sub].
  rewrite Nat.sub_0_r, sub_from_past_end.
  reflexivity.
Qed.

(** The pipeline on a text that is one URL, around a converter that
    renders the token as a paragraph of one run. *)
Lemma one_url_pipeline :
  forall sch body converter_func fuel,
    is_scheme sch -> body <> EmptyString ->
    all_chars url_char body = true ->
    converter_func "URLLINKPLACEHOLDER_0"
    = Ok (VList [rich_text_block "paragraph"
                   [text_run "URLLINKPLACEHOLDER_0"]]) ->
    fix_markdown_links (5 + fuel) (sch ++ body) converter_func
    = Ok (VList [rich_text_block "paragraph"
                   [link_run (sch ++ body) (sch ++ body)]]).
Proof.
  intros sch body converter_func fuel Hs Hb Hc Hconv.
  unfold fix_markdown_links.
  rewrite (preprocess_one_url sch body Hs Hb Hc), Hconv. cbn [bind].
  unfold postprocess_notion_blocks.
  change (make_lookup [?l]) with [entry l].
  change (process_block (5 + fuel) ?lk (VList ?l))
    with (bind (for_each (process_block (4 + fuel) lk) l)
               (fun l' => Ok (VList l'))).
  cbn [for_each].
  rewrite (process_block_rich_text
             fuel _ "paragraph" _
             [link_run (sch ++ body) (sch ++ body)]).
  - reflexivity.
  - cbn. tauto.
  - cbn [for_each].
    rewrite (text_run_resolves
               fuel (mkLink "URLLINKPLACEHOLDER_0" (sch ++ body)
                            (sch ++ body)));
      reflexivity.
Qed.

(** X5.  A text that is one URL, [http://] or [https://] followed by one
    or more characters of the URL pattern, is masked to
    [URLLINKPLACEHOLDER_0] with one entry whose display text and target
    are the URL.  When the converter renders the masked text as a
    paragraph of one run, the result is that paragraph with the URL as
    content and as target. *)
Theorem bare_url_round_trip :
  forall sch body converter_func fuel,
    is_scheme sch -> body <> EmptyString ->
    all_chars url_char body = true ->
    preprocess_markdown_links (sch ++ body)
    = ("URLLINKPLACEHOLDER_0",
       [mkLink "URLLINKPLACEHOLDER_0" (sch ++ body) (sch ++ body)])
    /\ (converter_func "URLLINKPLACEHOLDER_0"
        = Ok (VList [rich_text_block "paragraph"
                       [text_run "URLLINKPLACEHOLDER_0"]]) ->
        fix_markdown_links (5 + fuel) (sch ++ body) converter_func
        = Ok (VList [rich_text_block "paragraph"
                       [link_run (sch ++ body) (sch ++ body)]])).
Proof.
  intros sch body converter_func fuel Hs Hb Hc.
  split; [apply (preprocess_one_url sch body Hs Hb Hc)|].
  apply (one_url_pipeline sch body converter_func fuel Hs Hb Hc).
Qed.

Lemma bare_url_round_trip_witness :
  is_scheme "http://"
  /\ "host.example/a?b=1#c" <> EmptyString
  /\ all_chars url_char "host.example/a?b=1#c" = true
  /\ builtin_backend plain_env "URLLINKPLACEHOLDER_0"
     = Ok (VList [rich_text_block "paragraph"
                    [text_run "URLLINKPLACEHOLDER_0"]])
  /\ fix_markdown_links 5 "http://host.example/a?b=1#c"
                        (builtin_backend plain_env)
     = Ok (VList [rich_text_block "paragraph"
                    [link_run "http://host.example/a?b=1#c"
                              "http://host.example/a?b=1#c"]]).
Proof.
  split; [left; reflexivity|]. split; [discriminate|].
  split; [reflexivity|]. split; [reflexivity|].
  apply (bare_url_round_trip "http://" "host.example/a?b=1#c"
                             (builtin_backend plain_env) 0);
    first [reflexivity | discriminate | left; reflexivity].
Defined.

(** ** What postprocessing keeps *)

Lemma item_kept_refl : forall kv, item_kept kv kv.
Proof.
  intros kv. split; [reflexivity|]. split; [apply same_kind_refl|].
  intros _. reflexivity.
Qed.

Lemma fields_kept_refl : forall d, fields_kept d d.
Proof.
  induction d as [|kv d IH]; constructor; [apply item_kept_refl | exact IH].
Qed.

Lemma same_kind_scalar :
  forall v r, same_kind v r -> scalar r = scalar v.
Proof.
  intros v r [Hd [Hl _]]. unfold scalar. rewrite Hd, Hl. reflexivity.
Qed.

Lemma same_kind_trans :
  forall a b c, same_kind a b -> same_kind b c -> same_kind a c.
Proof.
  intros a b c [H1 [H2 H3]] [H4 [H5 H6]]. unfold same_kind.
  rewrite H4, H5, H6, H1, H2, H3. auto.
Qed.

Lemma fields_kept_trans :
  forall a b c, fields_kept a b -> fields_kept b c -> fields_kept a c.
Proof.
  intros a b c Hab. revert c.
  induction Hab as [|x y a b Hxy Hab IH]; intros c Hbc;
    inversion Hbc as [|? z ? c' Hyz Hbc']; subst; constructor.
  - destruct Hxy as [K1 [S1 V1]]. destruct Hyz as [K2 [S2 V2]].
    split; [congruence|]. split; [exact (same_kind_trans _ _ _ S1 S2)|].
    intros Hs. rewrite V2, V1; auto.
    rewrite (same_kind_scalar _ _ S1). exact Hs.
  - apply IH, Hbc'.
Qed.

(** Writing a dictionary over a dictionary under a key that is there. *)
Lemma fields_kept_set :
  forall k x y d,
    Dict.get k d = Some (VDict x) ->
    fields_kept d (Dict.set k (VDict y) d).
Proof.
  intros k x y. induction d as [|[k' v] d IH]; intros H; [discriminate H|].
  cbn [Dict.get Dict.set] in *.
  destruct (String.eqb k k').
  - injection H as ->. constructor; [|apply fields_kept_refl].
    split; [reflexivity|]. split; [repeat split|]. intros Hs.
    discriminate Hs.
  - constructor; [apply item_kept_refl | apply IH, H].
Qed.

Lemma for_items_kept :
  forall (f : value -> result value) d d',
    (forall v r, f v = Ok r ->
                 same_kind v r /\ (scalar v = true -> r = v)) ->
    Dict.for_items f d = Ok d' -> fields_kept d d'.
Proof.
  intros f. induction d as [|[k v] d IH]; intros d' Hf H;
    cbn [Dict.for_items] in H.
  - injection H as <-. constructor.
  - apply bind_ok in H. destruct H as [v' [Hv H]].
    apply bind_ok in H. destruct H as [d'' [Hd H]].
    injection H as <-. constructor; [|apply IH; assumption].
    destruct (Hf v v' Hv) as [Hk Hs]. split; [reflexivity|].
    split; assumption.
Qed.

(** The traversal returns a dictionary for a dictionary, a list for a
    list, and any other value as it is. *)
Lemma process_block_kind :
  forall fuel link_lookup v r,
    process_block fuel link_lookup v = Ok r ->
    same_kind v r /\ (scalar v = true -> r = v).
Proof.
  intros [|fuel] lk v r H; [discriminate H|].
  cbn [process_block] in H.
  destruct v as [|b|n|s|l|d];
    try (injection H as <-; split; [apply same_kind_refl | reflexivity]).
  - apply bind_ok in H. destruct H as [l' [_ H]]. injection H as <-.
    split; [repeat split | intros Hs; discriminate Hs].
  - apply bind_ok in H. destruct H as [d1 [_ H]].
    apply bind_ok in H. destruct H as [resolved [_ H]].
    destruct resolved as [d2|].
    + injection H as <-.
      split; [repeat split | intros Hs; discriminate Hs].
    + apply bind_ok in H. destruct H as [d2 [_ H]]. injection H as <-.
      split; [repeat split | intros Hs; discriminate Hs].
Qed.

Lemma process_table_kept :
  forall (rec : value -> result value) d d1,
    process_table rec d = Ok d1 -> fields_kept d d1.
Proof.
  intros rec d d1 H. unfold process_table in H.
  destruct (Dict.get "table" d) as [table|] eqn:Ht;
    [|injection H as <-; apply fields_kept_refl].
  apply bind_ok in H. destruct H as [has [_ H]].
  destruct has; [|injection H as <-; apply fields_kept_refl].
  apply bind_ok in H. destruct H as [children [Hc H]].
  destruct children as [| | | |rows|];
    try (injection H as <-; apply fields_kept_refl).
  apply bind_ok in H. destruct H as [rows' [_ H]]. injection H as <-.
  destruct (getitem_In _ _ _ Hc) as [t [-> _]].
  cbn [setitem]. apply (fields_kept_set "table" t _ d Ht).
Qed.

Lemma process_text_kept :
  forall link_lookup d1 d2,
    process_text link_lookup d1 = Ok (Some d2) -> fields_kept d1 d2.
Proof.
  intros lk d1 d2 H. unfold process_text in H.
  destruct (Dict.get "text" d1) as [[| | | | |text_dict]|] eqn:Ht;
    try discriminate H.
  destruct (Dict.get "content" text_dict) as [content|];
    [|discriminate H].
  apply bind_ok in H. destruct H as [bare [_ H]].
  destruct bare as [link_data|].
  - injection H as <-. apply (fields_kept_set "text" text_dict _ d1 Ht).
  - apply bind_ok in H. destruct H as [wrapped [_ H]].
    destruct wrapped as [link_data|]; [|discriminate H].
    injection H as <-. apply (fields_kept_set "text" text_dict _ d1 Ht).
Qed.

Lemma process_block_fields :
  forall fuel link_lookup d r,
    process_block fuel link_lookup (VDict d) = Ok r ->
    exists d', r = VDict d' /\ fields_kept d d'.
Proof.
  intros [|fuel] lk d r H; [discriminate H|].
  cbn [process_block] in H.
  apply bind_ok in H. destruct H as [d1 [H1 H]].
  assert (fields_kept d d1) as K1.
  { destruct (is_table_block d);
      [exact (process_table_kept _ _ _ H1)
      |injection H1 as <-; apply fields_kept_refl]. }
  apply bind_ok in H. destruct H as [resolved [H2 H]].
  destruct resolved as [d2|].
  - injection H as <-. exists d2. split; [reflexivity|].
    exact (fields_kept_trans _ _ _ K1 (process_text_kept _ _ _ H2)).
  - apply bind_ok in H. destruct H as [d2 [H3 H]]. injection H as <-.
    exists d2. split; [reflexivity|].
    apply (fields_kept_trans _ _ _ K1).
    refine (for_items_kept _ _ _ _ H3). intros v r Hv. cbn beta in Hv.
    destruct (is_dict v || is_list v) eqn:E.
    + exact (process_block_kind _ _ _ _ Hv).
    + injection Hv as <-. split; [apply same_kind_refl | reflexivity].
Qed.

Lemma fields_kept_get :
  forall d d' k,
    fields_kept d d' ->
    match Dict.get k d with
    | Some v => exists v', Dict.get k d' = Some v'
                           /\ same_kind v v'
                           /\ (scalar v = true -> v' = v)
    | None => Dict.get k d' = None
    end.
Proof.
  intros d d' k H. induction H as [|[k1 v1] [k2 v2] d d' Hkv H IH];
    [reflexivity|].
  destruct Hkv as [Hk [Hs Hv]]. cbn [fst snd] in *. subst k2.
  cbn [Dict.get]. destruct (String.eqb k k1); [|exact IH].
  exists v2. split; [reflexivity|]. split; assumption.
Qed.

Lemma fields_kept_type :
  forall d d', fields_kept d d' -> block_type (VDict d') = block_type (VDict d).
Proof.
  intros d d' H. pose proof (fields_kept_get d d' "type" H) as Hg.
  unfold block_type. destruct (Dict.get "type" d) as [v|].
  - destruct Hg as [v' [-> [Hs Hv]]].
    destruct v as [|b|n|s|l|x];
      try (rewrite (Hv eq_refl); reflexivity);
      destruct Hs as [_ [_ Hs]]; destruct v'; try reflexivity;
      discriminate Hs.
  - rewrite Hg. reflexivity.
Qed.

(** Postprocessing returns as many blocks as it was given, each of the
    kind and with the [type] it had. *)
Lemma postprocess_keeps_blocks :
  forall fuel links bs r,
    postprocess_notion_blocks fuel (VList bs) links = Ok r ->
    exists bs',
      r = VList bs'
      /\ length bs' = length bs
      /\ Forall2 (fun b b' => same_kind b b'
                              /\ block_type b' = block_type b) bs bs'.
Proof.
  intros fuel links bs r H. unfold postprocess_notion_blocks in H.
  destruct links as [|l links].
  { injection H as <-. exists bs. split; [reflexivity|].
    split; [reflexivity|].
    induction bs as [|b bs IH]; constructor;
      [split; [apply same_kind_refl | reflexivity] | exact IH]. }
  destruct fuel as [|fuel]; [discriminate H|].
  cbn [process_block] in H.
  apply bind_ok in H. destruct H as [bs' [Hbs H]]. injection H as <-.
  exists bs'. split; [reflexivity|].
  apply for_each_Forall2 in Hbs.
  split; [symmetry; exact (Forall2_length Hbs)|].
  induction Hbs as [|b b' bs bs' Hb Hbs IH]; constructor; [|exact IH].
  destruct (process_block_kind _ _ _ _ Hb) as [Hk Hs].
  split; [exact Hk|].
  destruct b as [|x|n|s|l0|d];
    try (rewrite (Hs eq_refl); reflexivity).
  - destruct Hk as [Hk _]. destruct b'; try reflexivity.
    discriminate Hk.
  - destruct (process_block_fields _ _ _ _ Hb) as [d' [-> Hf]].
    apply fields_kept_type, Hf.
Qed.

(** X6.  Postprocessing keeps the structure of what it is given.  The
    list of blocks comes back with the same number of blocks, each of
    the kind and with the [type] it had.  A dictionary that the
    traversal is applied to comes back with the same keys in the same
    order, every value of the kind it had, and every value that is
    neither a dictionary nor a list unchanged. *)
Theorem postprocess_keeps_structure :
  (forall fuel links bs r,
      postprocess_notion_blocks fuel (VList bs) links = Ok r ->
      exists bs',
        r = VList bs'
        /\ length bs' = length bs
        /\ Forall2 (fun b b' => same_kind b b'
                                /\ block_type b' = block_type b) bs bs')
  /\ (forall fuel link_lookup d r,
         process_block fuel link_lookup (VDict d) = Ok r ->
         exists d', r = VDict d' /\ map fst d' = map fst d
                    /\ fields_kept d d').
Proof.
  split; [exact postprocess_keeps_blocks|].
  intros fuel lk d r H.
  destruct (process_block_fields _ _ _ _ H) as [d' [-> Hf]].
  exists d'. split; [reflexivity|]. split; [|exact Hf].
  clear H. induction Hf as [|kv kv' d d' [Hk _] Hf IH]; [reflexivity|].
  cbn [map]. rewrite Hk, IH. reflexivity.
Qed.

Lemma postprocess_keeps_structure_witness :
  postprocess_notion_blocks 6 (VList two_paragraphs) one_link
  = Ok (VList [rich_text_block "paragraph" [text_run "plain text"];
               rich_text_block "paragraph"
                 [link_run "Example" "https://example.com"]])
  /\ exists bs',
      VList [rich_text_block "paragraph" [text_run "plain text"];
             rich_text_block "paragraph"
               [link_run "Example" "https://example.com"]] = VList bs'
      /\ length bs' = length two_paragraphs
      /\ Forall2 (fun b b' => same_kind b b'
                              /\ block_type b' = block_type b)
                 two_paragraphs bs'.
Proof.
  split; [vm_compute; reflexivity|].
  apply (proj1 postprocess_keeps_structure 6 one_link two_paragraphs).
  vm_compute. reflexivity.
Defined.

(** ** The lookup of placeholders *)

Lemma lookup_get_set :
  forall k k' l d,
    lookup_get k (lookup_set k' l d)
    = if String.eqb k k' then Some l else lookup_get k d.
Proof.
  intros k k' l. induction d as [|[k1 l1] d IH]; cbn [lookup_set lookup_get].
  - reflexivity.
  - destruct (String.eqb k' k1) eqn:E1; cbn [lookup_get].
    + apply String.eqb_eq in E1. subst k1.
      destruct (String.eqb k k'); reflexivity.
    + rewrite IH. destruct (String.eqb k k1) eqn:E2; [|reflexivity].
      apply String.eqb_eq in E2. subst k1.
      rewrite String.eqb_sym, E1. reflexivity.
Qed.

Lemma lookup_set_key_list :
  forall k l d,
    map fst (lookup_set k l d)
    = if existsb (String.eqb k) (map fst d) then map fst d
      else (map fst d ++ [k])%list.
Proof.
  intros k l. induction d as [|[k1 l1] d IH]; cbn [lookup_set map fst existsb];
    [reflexivity|].
  destruct (String.eqb k k1); cbn [orb map fst]; [reflexivity|].
  rewrite IH. destruct (existsb (String.eqb k) (map fst d)); reflexivity.
Qed.

Lemma existsb_eqb_In :
  forall k ks, existsb (String.eqb k) ks = true <-> In k ks.
Proof.
  intros k ks. rewrite existsb_exists. split.
  - intros [x [Hx E]]. apply String.eqb_eq in E. subst x. exact Hx.
  - intros H. exists k. split; [exact H | apply String.eqb_refl].
Qed.

Lemma make_lookup_snoc :
  forall links l,
    make_lookup (links ++ [l])
    = lookup_set (placeholder l) l (make_lookup links).
Proof.
  intros links l. unfold make_lookup. rewrite fold_left_app. reflexivity.
Qed.

(** X7.  [link_lookup] is keyed by placeholder for any list of entries,
    also one in which two entries share a placeholder: its keys are
    pairwise distinct, they are the placeholders that occur in the list,
    and each key holds the last entry of the list that has it. *)
Theorem lookup_holds_last_entry :
  forall links,
    NoDup (map fst (make_lookup links))
    /\ (forall k, In k (map fst (make_lookup links))
                  <-> In k (map placeholder links))
    /\ (forall k, lookup_get k (make_lookup links) = last_with k links).
Proof.
  induction links as [|l links IH] using rev_ind.
  - split; [constructor|]. split; [intros k; reflexivity|].
    intros k. reflexivity.
  - destruct IH as [Hnd [Hin Hget]]. rewrite make_lookup_snoc.
    pose proof (lookup_set_key_list (placeholder l) l (make_lookup links))
      as Hk.
    destruct (existsb (String.eqb (placeholder l))
                      (map fst (make_lookup links))) eqn:E.
    + apply existsb_eqb_In in E. rewrite Hk. split; [exact Hnd|]. split.
      * intros k. rewrite map_app, in_app_iff, Hin. cbn [map In].
        split; [tauto|]. intros [H|[<-|[]]]; [exact H|].
        apply Hin, E.
      * intros k. rewrite lookup_get_set, Hget. unfold last_with.
        rewrite rev_app_distr. cbn [rev app List.find]. reflexivity.
    + rewrite Hk. split; [|split].
      * apply NoDup_app; [exact Hnd | repeat constructor; intros [] |].
        intros k Hk1 [<-|[]].
        apply existsb_eqb_In in Hk1. rewrite Hk1 in E. discriminate E.
      * intros k. rewrite !map_app, !in_app_iff, Hin. reflexivity.
      * intros k. rewrite lookup_get_set, Hget. unfold last_with.
        rewrite rev_app_distr. cbn [rev app List.find]. reflexivity.
Qed.

(** * Further properties of the converter *)

(** ** Conversion of a string *)

Lemma convert_builtin :
  forall env s, convert env false (PStr s) = builtin_blocks env s.
Proof.
  intros env s. unfold convert, _convert_with_bs4, builtin_blocks, nonempty.
  cbn [bind normalize truthy].
  destruct (String.eqb s EmptyString); cbn [negb andb orb]; [reflexivity|].
  destruct (MARKDOWN_LIBS_AVAILABLE env); reflexivity.
Qed.

Lemma martian_on_string :
  forall env s,
    s <> EmptyString ->
    try_except
      (blocks <- _convert_with_martian env (PStr s) ;;
       Ok (if truthy_value blocks then Some blocks else None))
      (fun _ => Ok None)
    = Ok (match bridge_answer env s with
          | Some answer => if truthy_value answer then Some answer else None
          | None => None
          end).
Proof.
  intros env s Hs. unfold _convert_with_martian, bridge_answer.
  cbn [bind normalize truthy].
  apply String.eqb_neq in Hs. rewrite Hs. cbn [negb].
  destruct (script_exists env); cbn [negb andb]; [|reflexivity].
  destruct (tempfile_fails env); cbn [negb]; [reflexivity|].
  destruct (attempt (run_npx env s)) as [answer|]; cbn [bind try_except].
  - destruct (truthy_value answer); reflexivity.
  - destruct (attempt (run_node env s)) as [answer|]; cbn [bind try_except];
      [destruct (truthy_value answer)|]; reflexivity.
Qed.

(** With the bridge enabled, the answer of the bridge is returned when
    the text is not empty and the answer is a true value, and otherwise
    what the built-in parser gives. *)
Lemma convert_with_bridge :
  forall env s,
    convert env true (PStr s)
    = match bridge_answer env s with
      | Some answer =>
          if nonempty s && truthy_value answer then Ok answer
          else builtin_blocks env s
      | None => builtin_blocks env s
      end.
Proof.
  intros env s.
  destruct (String.eqb s EmptyString) eqn:Es.
  - apply String.eqb_eq in Es. subst s.
    unfold builtin_blocks, nonempty. cbn.
    destruct (bridge_answer env ""); reflexivity.
  - pose proof (convert_builtin env s) as Hb.
    apply String.eqb_neq in Es.
    pose proof (martian_on_string env s Es) as Hm.
    unfold convert in *. cbn [bind truthy] in *.
    unfold nonempty. apply String.eqb_neq in Es. rewrite Es in *.
    cbn [negb andb] in *. rewrite Hm. cbn [bind].
    destruct (bridge_answer env s) as [answer|]; [|exact Hb].
    destruct (truthy_value answer); [reflexivity | exact Hb].
Qed.

(** The built-in parser raises what the library raises, and returns
    when the library does. *)
Lemma builtin_blocks_raises :
  forall env s e,
    builtin_blocks env s = Raise e ->
    nonempty s && MARKDOWN_LIBS_AVAILABLE env = true
    /\ markdown_soup env s = Raise e.
Proof.
  intros env s e. unfold builtin_blocks.
  destruct (nonempty s && MARKDOWN_LIBS_AVAILABLE env); [|discriminate].
  destruct (markdown_soup env s) as [soup|e'|]; cbn [bind];
    [discriminate | | discriminate].
  intros H. injection H as ->. split; reflexivity.
Qed.

Lemma builtin_blocks_returns :
  forall env s soup,
    markdown_soup env s = Ok soup ->
    builtin_blocks env s
    = Ok (VList (if nonempty s && MARKDOWN_LIBS_AVAILABLE env
                 then classify soup else [])).
Proof.
  intros env s soup H. unfold builtin_blocks. rewrite H.
  destruct (nonempty s && MARKDOWN_LIBS_AVAILABLE env); reflexivity.
Qed.

Lemma convert_raises :
  forall env use_martian s e,
    convert env use_martian (PStr s) = Raise e ->
    builtin_blocks env s = Raise e.
Proof.
  intros env [|] s e; [rewrite convert_with_bridge | rewrite convert_builtin];
    [|exact (fun H => H)].
  destruct (bridge_answer env s) as [answer|]; [|exact (fun H => H)].
  destruct (nonempty s && truthy_value answer);
    [discriminate | exact (fun H => H)].
Qed.

Lemma convert_returns :
  forall env use_martian s soup,
    markdown_soup env s = Ok soup ->
    exists blocks, convert env use_martian (PStr s) = Ok blocks.
Proof.
  intros env [|] s soup H;
    [rewrite convert_with_bridge | rewrite convert_builtin];
    rewrite (builtin_blocks_returns env s soup H).
  - destruct (bridge_answer env s) as [answer|]; [|eexists; reflexivity].
    destruct (nonempty s && truthy_value answer); eexists; reflexivity.
  - eexists. reflexivity.
Qed.

(** X8.  On a string [convert] raises only what [markdown.markdown] and
    [BeautifulSoup] raise on that string, and returns when they do.
    Without the bridge the result is that of the built-in parser: the
    empty list for the empty string and when the markdown libraries are
    missing, and otherwise the blocks of the document, or the exception
    of the library.  With the bridge enabled the result is the answer of
    the bridge when the text is not empty and the answer is a true
    value, and the result without the bridge otherwise: a missing
    script, a temporary file that cannot be written, two failed runs and
    an empty answer all end in the built-in parser. *)
Theorem convert_on_a_string :
  forall env s,
    convert env false (PStr s) = builtin_blocks env s
    /\ convert env true (PStr s)
       = match bridge_answer env s with
         | Some answer =>
             if nonempty s && truthy_value answer then Ok answer
             else builtin_blocks env s
         | None => builtin_blocks env s
         end
    /\ (forall use_martian e,
           convert env use_martian (PStr s) = Raise e ->
           markdown_soup env s = Raise e)
    /\ (forall use_martian soup,
           markdown_soup env s = Ok soup ->
           exists blocks, convert env use_martian (PStr s) = Ok blocks).
Proof.
  intros env s. split; [apply convert_builtin|].
  split; [apply convert_with_bridge|]. split.
  - intros use_martian e H.
    apply (builtin_blocks_raises env s e), (convert_raises _ _ _ _ H).
  - intros use_martian soup H. apply (convert_returns _ _ _ soup H).
Qed.

Lemma convert_on_a_string_witness :
  markdown_soup plain_env "text"
  = Ok [Soup.Tag "p" [] [Soup.NavigableString "text"]]
  /\ (exists blocks, convert plain_env true (PStr "text") = Ok blocks)
  /\ convert rejecting_env true (PStr rejected_text) = Raise LibraryError
  /\ markdown_soup rejecting_env rejected_text = Raise LibraryError.
Proof.
  split; [reflexivity|]. split.
  - apply (proj2 (proj2 (proj2 (convert_on_a_string plain_env "text")))
                 true [Soup.Tag "p" [] [Soup.NavigableString "text"]]).
    reflexivity.
  - assert (convert rejecting_env true (PStr rejected_text)
            = Raise LibraryError) as H by reflexivity.
    split; [exact H|].
    apply (proj1 (proj2 (proj2 (convert_on_a_string rejecting_env
                                                     rejected_text)))
                 true LibraryError H).
Defined.















(** ** The answer of the bridge in the file-based conversion *)

Lemma link_tables_passes :
  forall bs,
    Forall (fun b => block_type b <> Some "table") bs ->
    link_tables (VList bs) = Ok (VList bs).
Proof.
  intros bs H. cbn [link_tables]. rewrite for_each_works; [reflexivity|].
  intros b Hb. rewrite Forall_forall in H. specialize (H b Hb).
  destruct b as [| | | | |d]; try reflexivity.
  unfold block_type in H. destruct (Dict.get "type" d) as [t|];
    [|reflexivity].
  destruct t as [| | |t| |]; try reflexivity. cbn [eq_str].
  destruct (String.eqb t "table") eqn:E; [|reflexivity].
  apply String.eqb_eq in E. subst t. contradiction.
Qed.

(** X10.  When the script is there, the temporary file can be written
    and [node] exits with code 0 and prints a list without a block of
    type [table], [clean_markdown_to_notion_blocks] returns that list as
    it is, also when it is empty; [npx] is not run and the built-in
    parser is not consulted.  With the link handler importable,
    [markdown_to_notion_blocks] with [fix_links] on returns the same
    list whatever [use_martian] is: turning the bridge off has no effect
    there. *)
Theorem clean_returns_the_answer_of_node :
  forall env s bs,
    s <> EmptyString ->
    script_exists env = true ->
    tempfile_fails env = false ->
    run_node env s = Exited 0 (Some (VList bs)) ->
    Forall (fun b => block_type b <> Some "table") bs ->
    clean_markdown_to_notion_blocks env (PStr s) = Ok (VList bs)
    /\ (LINK_HANDLER_AVAILABLE env = true ->
        forall use_martian,
          markdown_to_notion_blocks env (PStr s) use_martian true
          = Ok (VList bs)).
Proof.
  intros env s bs Hs Hscript Htemp Hnode Hbs.
  assert (clean_markdown_to_notion_blocks env (PStr s) = Ok (VList bs))
    as Hclean.
  { unfold clean_markdown_to_notion_blocks. cbn [bind normalize truthy].
    apply String.eqb_neq in Hs. rewrite Hs, Hscript, Htemp, Hnode.
    cbn [negb Z.eqb]. rewrite (link_tables_passes bs Hbs). reflexivity. }
  split; [exact Hclean|]. intros Hlh use_martian.
  unfold markdown_to_notion_blocks. rewrite Hlh. exact Hclean.
Qed.

Lemma clean_returns_the_answer_of_node_witness :
  "text" <> EmptyString
  /\ script_exists silent_node_env = true
  /\ tempfile_fails silent_node_env = false
  /\ run_node silent_node_env "text" = Exited 0 (Some (VList []))
  /\ Forall (fun b => block_type b <> Some "table") []
  /\ LINK_HANDLER_AVAILABLE silent_node_env = true
  /\ markdown_to_notion_blocks silent_node_env (PStr "text") false true
     = Ok (VList []).
Proof.
  split; [discriminate|]. do 3 (split; [reflexivity|]).
  split; [constructor|]. split; [reflexivity|].
  apply (clean_returns_the_answer_of_node silent_node_env "text" []);
    first [reflexivity | discriminate | constructor].
Defined.

(** ** The blocks of the classifier *)

Lemma convert_table_shaped :
  forall element b, In b (convert_table element) -> shaped_block b.
Proof.
  intros element b H. unfold convert_table in H.
  destruct (Soup.find_all ["tr"] element) as [|first_row rows];
    [contradiction|].
  destruct (Nat.eqb (length (Soup.find_all ["th"; "td"] first_row)) 0)
    eqn:E; [contradiction|].
  destruct H as [<-|[]]. apply shaped_table.
  apply Nat.eqb_neq in E. lia.
Qed.

(** X11.  Every block that the built-in classifier emits is of one of
    eleven types and carries, beside [object] and [type], one
    dictionary under the key that its type names: rich text for the
    seven text types, one run and a language for [code], nothing for
    [divider], an external URL that starts with [http://] or [https://]
    for [image], and a positive width, the header flags and the rows for
    [table]. *)
Theorem classifier_emits_shaped_blocks :
  forall soup b, In b (classify soup) -> shaped_block b.
Proof.
  intros soup b H. unfold classify in H. apply in_flat_map in H.
  destruct H as [element [_ Hin]].
  destruct element as [s|s|nm attrs cs]; cbn [convert_element] in Hin;
    try contradiction.
  repeat match type of Hin with
         | In _ (if String.eqb nm ?k then _ else _) =>
             let E := fresh "E" in
             destruct (String.eqb nm k) eqn:E
         end.
  all: try (apply convert_table_shaped in Hin; exact Hin).
  all: repeat match type of Hin with
         | In _ (match ?c with [] => _ | _ :: _ => _ end) =>
             let E := fresh "Hdiv" in
             destruct c eqn:E; [|rewrite <- E in Hin; clear E]
         | In _ (match ?c with Some _ => _ | None => _ end) => destruct c
         | In _ (if ?c then _ else _) =>
             let E := fresh "Hc" in destruct c eqn:E
         end.
  all: try contradiction.
  all: try (apply in_map_iff in Hin; destruct Hin as [x [<- Hx]]).
  all: try (destruct Hin as [<- | []]).
  all: try (apply shaped_rich_text; unfold rich_text_types; cbn [In]; tauto).
  - apply shaped_code.
  - apply shaped_divider.
  - apply shaped_image. assumption.
Qed.

Lemma classifier_emits_shaped_blocks_witness :
  In (rich_text_block "paragraph" [text_run "x"])
     (classify [Soup.Tag "p" [] [Soup.NavigableString "x"]])
  /\ shaped_block (rich_text_block "paragraph" [text_run "x"]).
Proof.
  split; [left; reflexivity|].
  apply (classifier_emits_shaped_blocks
           [Soup.Tag "p" [] [Soup.NavigableString "x"]]).
  left. reflexivity.
Defined.

(** ** The text of the inline formatter *)

Lemma get_text_tag :
  forall nm attrs cs, Soup.get_text (Soup.Tag nm attrs cs) = texts cs.
Proof.
  intros nm attrs cs. cbn [Soup.get_text].
  induction cs as [|c cs IH]; cbn [texts]; [reflexivity|].
  rewrite IH. reflexivity.
Qed.

Lemma text_of_runs_app :
  forall a b, text_of_runs (a ++ b) = text_of_runs a ++ text_of_runs b.
Proof.
  induction a as [|r a IH]; intros b; cbn [app text_of_runs];
    [reflexivity|].
  rewrite IH, append_assoc. reflexivity.
Qed.

Lemma nonempty_false : forall s, nonempty s = false -> s = EmptyString.
Proof.
  intros s H. unfold nonempty in H. apply negb_false_iff in H.
  apply String.eqb_eq, H.
Qed.

Lemma text_of_child :
  forall c, solid c = true -> text_of_runs (rich_text_of_child c)
                              = Soup.get_text c.
Proof.
  intros [s|s|nm attrs cs] H; cbn [solid] in H.
  - cbn [rich_text_of_child Soup.get_text].
    destruct (nonempty (PyStr.strip s)).
    + cbn. apply append_nil_r.
    + rewrite orb_false_r in H. apply String.eqb_eq in H. subst s.
      reflexivity.
  - cbn [rich_text_of_child Soup.get_text].
    apply negb_true_iff in H. rewrite H. reflexivity.
  - cbn [rich_text_of_child].
    destruct (if String.eqb nm "a"
              then Soup.attr (Soup.Tag nm attrs cs) "href" else None)
      as [href|].
    + destruct (nonempty (Soup.get_text (Soup.Tag nm attrs cs))) eqn:E.
      * cbn. apply append_nil_r.
      * apply nonempty_false in E. rewrite E. reflexivity.
    + destruct (nonempty (Soup.get_text (Soup.Tag nm attrs cs))) eqn:E.
      * cbn [text_of_runs app run_text content_of Dict.get String.eqb
             Ascii.eqb Bool.eqb].
        apply append_nil_r.
      * apply nonempty_false in E. rewrite E. reflexivity.
Qed.

(** X12.  The inline formatter keeps the text of an element that has no
    [script], [style], [template], [rt] or [rp] tag in it, the tags
    whose strings the text of an enclosing element leaves out: when
    every child is a tag, a string that is empty or holds more than
    white space, or a comment of white space, the contents of the runs,
    joined in order, are the text of the element. *)
Theorem formatter_keeps_the_text :
  forall nm attrs cs,
    plain_strings (Soup.Tag nm attrs cs) = true ->
    forallb solid cs = true ->
    text_of_runs (process_rich_text_element (Soup.Tag nm attrs cs))
    = Soup.get_text (Soup.Tag nm attrs cs).
Proof.
  intros nm attrs cs _ H. cbn [process_rich_text_element].
  destruct (if String.eqb nm "a"
            then Soup.attr (Soup.Tag nm attrs cs) "href" else None)
    as [href|].
  - destruct (nonempty (Soup.get_text (Soup.Tag nm attrs cs))) eqn:E.
    + cbn. apply append_nil_r.
    + apply nonempty_false in E. rewrite E. reflexivity.
  - rewrite get_text_tag.
    induction cs as [|c cs IH]; [reflexivity|].
    cbn [forallb] in H. apply andb_true_iff in H. destruct H as [Hc Hcs].
    cbn [flat_map texts]. rewrite text_of_runs_app, (text_of_child c Hc).
    rewrite (IH Hcs). reflexivity.
Qed.

Lemma formatter_keeps_the_text_witness :
  plain_strings
    (Soup.Tag "p" []
       [Soup.NavigableString "Read ";
        Soup.Tag "strong" [] [Soup.NavigableString "this"];
        Soup.NavigableString " now"]) = true
  /\ forallb solid [Soup.NavigableString "Read ";
                    Soup.Tag "strong" [] [Soup.NavigableString "this"];
                    Soup.NavigableString " now"] = true
  /\ text_of_runs
       (process_rich_text_element
          (Soup.Tag "p" []
             [Soup.NavigableString "Read ";
              Soup.Tag "strong" [] [Soup.NavigableString "this"];
              Soup.NavigableString " now"]))
     = Soup.get_text
         (Soup.Tag "p" []
            [Soup.NavigableString "Read ";
             Soup.Tag "strong" [] [Soup.NavigableString "this"];
             Soup.NavigableString " now"]).
Proof.
  split; [reflexivity|]. split; [reflexivity|].
  apply (formatter_keeps_the_text "p" []); reflexivity.
Defined.

(** ** Links in the tables of the bridge *)

Lemma mem_set_same : forall k v d, Dict.mem k (Dict.set k v d) = true.
Proof. intros k v d. unfold Dict.mem. rewrite get_set_same. reflexivity. Qed.

Lemma set_set_same :
  forall k v d, Dict.set k v (Dict.set k v d) = Dict.set k v d.
Proof. intros k v d. apply set_get_id, get_set_same. Qed.

Lemma for_each_idem :
  forall (f : value -> result value) l l',
    (forall x r, f x = Ok r -> f r = Ok r) ->
    for_each f l = Ok l' -> for_each f l' = Ok l'.
Proof.
  intros f l l' Hf H. apply for_each_Forall2 in H.
  apply for_each_works. intros y Hy.
  induction H as [|x y' l l' Hxy H IH]; [contradiction|].
  destruct Hy as [<-|Hy]; [exact (Hf _ _ Hxy) | exact (IH Hy)].
Qed.

Lemma link_text_obj_idem :
  forall x r, link_text_obj x = Ok r -> link_text_obj r = Ok r.
Proof.
  intros x r H. pose proof H as H0.
  destruct x as [| | | | |d]; try (injection H as <-; reflexivity).
  cbn [link_text_obj] in H.
  destruct (Dict.get "text" d) as [[| | | | |text]|] eqn:Ht;
    try discriminate H; [|injection H as <-; exact H0].
  destruct (truthy_value _ && negb (Dict.mem "link" text));
    [|injection H as <-; exact H0].
  destruct (match Dict.get "content" text with
            | Some c => c
            | None => VStr EmptyString
            end) as [| | |c| |]; try discriminate H.
  destruct (search_url c) as [u|]; [|injection H as <-; exact H0].
  injection H as <-. cbn [link_text_obj].
  rewrite get_set_same, mem_set_same, andb_false_r. reflexivity.
Qed.

Lemma link_cell_idem :
  forall x r, link_cell x = Ok r -> link_cell r = Ok r.
Proof.
  intros x r H. pose proof H as H0.
  destruct x as [| | |s|l|d]; try discriminate H;
    try (injection H as <-; exact H0).
  cbn [link_cell] in H. apply bind_ok in H. destruct H as [l' [Hl H]].
  injection H as <-. cbn [link_cell].
  rewrite (for_each_idem _ _ _ link_text_obj_idem Hl). reflexivity.
Qed.

Lemma getitem_dict :
  forall v k x,
    getitem v k = Ok x -> exists d, v = VDict d /\ Dict.get k d = Some x.
Proof.
  intros v k x H. destruct v as [| | | | |d]; try discriminate H.
  exists d. split; [reflexivity|]. cbn [getitem] in H.
  destruct (Dict.get k d); [injection H as <-; reflexivity | discriminate H].
Qed.

Lemma link_row_idem :
  forall x r, link_row x = Ok r -> link_row r = Ok r.
Proof.
  intros x r H. pose proof H as H0.
  destruct x as [| | | | |row]; try (injection H as <-; reflexivity).
  cbn [link_row] in H.
  destruct (Dict.get "table_row" row) as [table_row|] eqn:Hr;
    [|injection H as <-; exact H0].
  apply bind_ok in H. destruct H as [has [Hhas H]].
  destruct has; [|injection H as <-; exact H0].
  apply bind_ok in H. destruct H as [cells [Hcells H]].
  destruct cells as [| | | |cs|]; try (injection H as <-; exact H0).
  apply bind_ok in H. destruct H as [cs' [Hcs H]]. injection H as <-.
  destruct (getitem_dict _ _ _ Hcells) as [tr [-> Hget]].
  cbn [link_row LinkHandler.setitem].
  rewrite get_set_same. cbn [py_in bind getitem].
  rewrite mem_set_same, get_set_same. cbn [bind].
  rewrite (for_each_idem _ _ _ link_cell_idem Hcs). cbn [bind].
  cbn [LinkHandler.setitem]. rewrite !set_set_same. reflexivity.
Qed.

Lemma is_table_block_set :
  forall d v,
    is_table_block d = true ->
    is_table_block (Dict.set "table" v d) = true.
Proof.
  intros d v H. unfold is_table_block in *.
  rewrite get_set_other by discriminate.
  destruct (Dict.get "type" d) as [t|]; [|discriminate H].
  apply andb_true_iff in H. destruct H as [Ht _].
  rewrite Ht, mem_set_same. reflexivity.
Qed.

(** X13.  [process_table_with_links] is idempotent: a block that it
    returns is returned unchanged when it is given back. *)
Theorem table_link_pass_is_idempotent :
  forall block r,
    process_table_with_links block = Ok r ->
    process_table_with_links r = Ok r.
Proof.
  intros x r H. pose proof H as H0.
  destruct x as [| | | | |d]; try (injection H as <-; reflexivity).
  cbn [process_table_with_links] in H.
  destruct (is_table_block d) eqn:Hb; [|injection H as <-; exact H0].
  destruct (Dict.get "table" d) as [table|] eqn:Ht;
    [|injection H as <-; exact H0].
  apply bind_ok in H. destruct H as [has [Hhas H]].
  destruct has; [|injection H as <-; exact H0].
  apply bind_ok in H. destruct H as [children [Hch H]].
  destruct children as [| | | |rows|]; try (injection H as <-; exact H0).
  apply bind_ok in H. destruct H as [rows' [Hrows H]]. injection H as <-.
  destruct (getitem_dict _ _ _ Hch) as [t [-> Hget]].
  cbn [process_table_with_links LinkHandler.setitem].
  rewrite (is_table_block_set _ _ Hb), get_set_same.
  cbn [py_in bind getitem]. rewrite mem_set_same, get_set_same.
  cbn [bind]. rewrite (for_each_idem _ _ _ link_row_idem Hrows).
  cbn [bind LinkHandler.setitem]. rewrite !set_set_same. reflexivity.
Qed.

Lemma table_link_pass_is_idempotent_witness :
  process_table_with_links
    (one_cell_table (text_run "see https://x.example/a now"))
  = Ok (one_cell_table (link_run "see https://x.example/a now"
                                 "https://x.example/a"))
  /\ process_table_with_links
       (one_cell_table (link_run "see https://x.example/a now"
                                 "https://x.example/a"))
     = Ok (one_cell_table (link_run "see https://x.example/a now"
                                    "https://x.example/a")).
Proof.
  split; [vm_compute; reflexivity|].
  apply (table_link_pass_is_idempotent
           (one_cell_table (text_run "see https://x.example/a now"))).
  vm_compute. reflexivity.
Defined.

Lemma span_rest :
  forall p s,
    snd (PyStr.span p s) = EmptyString
    \/ exists c rest, snd (PyStr.span p s) = String c rest /\ p c = false.
Proof.
  intros p. induction s as [|c s IH]; cbn [PyStr.span]; [left; reflexivity|].
  destruct (p c) eqn:Hc.
  - destruct (PyStr.span p s) as [a b]. exact IH.
  - right. exists c, s. split; [reflexivity | exact Hc].
Qed.

Lemma match_plain_url_shape :
  forall s u,
    match_plain_url s = Some u ->
    exists rest,
      s = u ++ rest
      /\ (String.prefix "http://" u = true
          \/ String.prefix "https://" u = true)
      /\ all_chars (fun c => negb (PyStr.isspace c)) u = true
      /\ at_white_space rest.
Proof.
  assert (forall sch s u,
             all_chars (fun c => negb (PyStr.isspace c)) sch = true ->
             String.prefix sch s = true ->
             match PyStr.span (fun c => negb (PyStr.isspace c))
                              (drop (String.length sch) s) with
             | (String c body, _) => Some (sch ++ String c body)
             | (EmptyString, _) => None
             end = Some u ->
             exists rest,
               s = u ++ rest
               /\ String.prefix sch u = true
               /\ all_chars (fun c => negb (PyStr.isspace c)) u = true
               /\ at_white_space rest) as Hcase.
  { intros sch s u Hsch Hp H. apply prefix_app in Hp. destruct Hp as [r ->].
    rewrite drop_app in H.
    pose proof (span_app (fun c => negb (PyStr.isspace c)) r) as Happ.
    pose proof (all_chars_span (fun c => negb (PyStr.isspace c)) r) as Hall.
    pose proof (span_rest (fun c => negb (PyStr.isspace c)) r) as Hrest.
    destruct (PyStr.span (fun c => negb (PyStr.isspace c)) r) as [m rest].
    cbn [fst snd] in *. destruct m as [|c body]; [discriminate H|].
    injection H as <-. exists rest. split; [|split; [|split]].
    - rewrite <- Happ, append_assoc. reflexivity.
    - apply prefix_of_app.
    - rewrite all_chars_app, Hsch, Hall. reflexivity.
    - destruct Hrest as [->|[x [rest' [-> Hx]]]]; [left; reflexivity|].
      right. exists x, rest'. split; [reflexivity|].
      apply negb_false_iff, Hx. }
  intros s u H. unfold match_plain_url in H.
  destruct (String.prefix "https://" s) eqn:E1.
  - destruct (Hcase "https://" s u eq_refl E1 H) as [rest [Hs [Hp Hr]]].
    exists rest. split; [exact Hs|]. split; [right; exact Hp | exact Hr].
  - destruct (String.prefix "http://" s) eqn:E2; [|discriminate H].
    destruct (Hcase "http://" s u eq_refl E2 H) as [rest [Hs [Hp Hr]]].
    exists rest. split; [exact Hs|]. split; [left; exact Hp | exact Hr].
Qed.

Lemma search_url_shape :
  forall s u,
    search_url s = Some u ->
    exists before rest,
      s = before ++ u ++ rest
      /\ (String.prefix "http://" u = true
          \/ String.prefix "https://" u = true)
      /\ all_chars (fun c => negb (PyStr.isspace c)) u = true
      /\ at_white_space rest.
Proof.
  induction s as [|c s IH]; intros u H; cbn [search_url] in H.
  - destruct (match_plain_url EmptyString) as [u'|] eqn:E; [|discriminate H].
    injection H as ->.
    destruct (match_plain_url_shape _ _ E) as [rest Hr].
    exists EmptyString, rest. exact Hr.
  - destruct (match_plain_url (String c s)) as [u'|] eqn:E.
    + injection H as ->.
      destruct (match_plain_url_shape _ _ E) as [rest Hr].
      exists EmptyString, rest. exact Hr.
    + destruct (IH u H) as [before [rest [-> Hr]]].
      exists (String c before), rest. split; [reflexivity | exact Hr].
Qed.

(** X14.  What [process_table_with_links] does to a run of a cell.  A
    run without a link whose content holds a URL gets the first URL as
    its target and keeps its content; a run without a URL and a run that
    has a link are kept as they are.  The target starts with [http://]
    or [https://] and runs up to the next white space or the end of the
    content, so that punctuation written after a URL is part of the
    target. *)
Theorem table_link_target_runs_to_white_space :
  (forall content,
      link_text_obj (text_run content)
      = Ok (match search_url content with
            | Some u => link_run content u
            | None => text_run content
            end))
  /\ (forall content href,
         link_text_obj (link_run content href) = Ok (link_run content href))
  /\ (forall content u,
         search_url content = Some u ->
         exists before rest,
           content = before ++ u ++ rest
           /\ (String.prefix "http://" u = true
               \/ String.prefix "https://" u = true)
           /\ all_chars (fun c => negb (PyStr.isspace c)) u = true
           /\ at_white_space rest).
Proof.
  split; [|split].
  - intros content. unfold text_run, link_run.
    cbn [link_text_obj Dict.get String.eqb Ascii.eqb Bool.eqb Dict.mem
         truthy_value negb andb].
    destruct content as [|c content].
    + reflexivity.
    + destruct (search_url (String c content)); reflexivity.
  - intros content href. unfold link_run.
    cbn [link_text_obj Dict.get String.eqb Ascii.eqb Bool.eqb Dict.mem
         truthy_value negb andb].
    rewrite andb_false_r. reflexivity.
  - exact search_url_shape.
Qed.

Lemma table_link_target_runs_to_white_space_witness :
  search_url "(see https://x.example/a)." = Some "https://x.example/a)."
  /\ exists before rest,
      "(see https://x.example/a)." = before ++ "https://x.example/a)." ++ rest
      /\ (String.prefix "http://" "https://x.example/a)." = true
          \/ String.prefix "https://" "https://x.example/a)." = true)
      /\ all_chars (fun c => negb (PyStr.isspace c))
                   "https://x.example/a)." = true
      /\ at_white_space rest.
Proof.
  split; [reflexivity|].
  apply (proj2 (proj2 table_link_target_runs_to_white_space)
               "(see https://x.example/a)." "https://x.example/a).").
  reflexivity.
Defined.

(** * Properties of the debug report *)

(** ** The URLs that the report finds in blocks *)

Lemma extract_block_rich_text :
  forall ty runs,
    In ty rich_text_types ->
    Debug.extract_block (rich_text_block ty runs)
    = flat_map Debug.text_item_urls runs.
Proof.
  intros ty runs H. unfold rich_text_types in H. cbn [In] in H.
  repeat (destruct H as [<-|H]; [cbn; rewrite !app_nil_r; reflexivity|]).
  contradiction.
Qed.

Lemma extract_block_cells :
  forall cells,
    Forall (fun cell => is_list cell = true) cells ->
    Debug.extract_block (row_block cells) = [].
Proof.
  intros cells H. unfold row_block.
  cbn [Debug.extract_block String.eqb Ascii.eqb Bool.eqb andb app].
  rewrite !app_nil_r.
  induction H as [|cell cells Hc H IH]; [reflexivity|].
  destruct cell; try discriminate Hc. cbn [Debug.extract_block app].
  exact IH.
Qed.

Lemma fit_row_lists :
  forall width cells,
    Forall (fun cell => is_list cell = true) cells ->
    Forall (fun cell => is_list cell = true) (fit_row width cells).
Proof.
  intros width cells H. unfold fit_row.
  assert (Forall (fun cell => is_list cell = true)
                 (cells ++ repeat empty_cell (width - length cells))) as Hp.
  { apply Forall_app. split; [exact H|].
    apply Forall_forall. intros x Hx. apply repeat_spec in Hx. subst x.
    reflexivity. }
  destruct (Nat.ltb width _); [|exact Hp].
  apply Forall_firstn, Hp.
Qed.

Lemma extract_block_table_row :
  forall width row, Debug.extract_block (table_row width row) = [].
Proof.
  intros width row. unfold table_row.
  apply (extract_block_cells
           (fit_row width
                    (map (fun cell => VList (process_rich_text_element cell))
                         (Soup.find_all ["th"; "td"] row)))).
  apply fit_row_lists, Forall_forall. intros x Hx.
  apply in_map_iff in Hx. destruct Hx as [cell [<- _]]. reflexivity.
Qed.

Lemma extract_block_table :
  forall element, flat_map Debug.extract_block (convert_table element) = [].
Proof.
  intros element. unfold convert_table.
  destruct (Soup.find_all ["tr"] element) as [|first_row rows];
    [reflexivity|].
  destruct (Nat.eqb (length (Soup.find_all ["th"; "td"] first_row)) 0);
    [reflexivity|].
  cbn [flat_map Debug.extract_block String.eqb Ascii.eqb Bool.eqb andb app].
  rewrite !app_nil_r.
  generalize (length (Soup.find_all ["th"; "td"] first_row)).
  intros width.
  induction (first_row :: rows) as [|row rest IH]; [reflexivity|].
  cbn [map]. rewrite extract_block_table_row. exact IH.
Qed.

Lemma classify_tables :
  forall soup,
    Forall (fun e => Soup.has_name e "table" = true) soup ->
    flat_map Debug.extract_block (classify soup) = [].
Proof.
  intros soup H. unfold classify.
  induction H as [|element soup He H IH]; [reflexivity|].
  cbn [flat_map]. rewrite flat_map_app, IH, app_nil_r.
  destruct element as [s|s|nm attrs cs]; try discriminate He.
  cbn [Soup.has_name] in He. apply String.eqb_eq in He. subst nm.
  apply extract_block_table.
Qed.

Lemma filter_all :
  forall (A : Type) (f : A -> bool) l,
    (forall x, f x = true) -> filter f l = l.
Proof.
  intros A f l H. induction l as [|x l IH]; cbn [filter]; [reflexivity|].
  rewrite H, IH. reflexivity.
Qed.

(** X15.  The URLs that the debug report finds in blocks.  Of a block of
    one of the seven text types it finds the targets of the runs that
    have a link, in order: the target of a run with a link, nothing for
    a run without.  Of a table of the classifier it finds nothing,
    whatever its cells hold, because a cell is a list inside a list and
    the search passes over an element of a list that is not a
    dictionary.  For a text that markdown and the parser render as
    tables only, the report therefore finds no URL in the blocks and
    lists every URL of the text as missing. *)
Theorem debug_report_misses_table_links :
  (forall ty runs,
      In ty rich_text_types ->
      Debug.extract_block (rich_text_block ty runs)
      = flat_map Debug.text_item_urls runs)
  /\ (forall content href,
         Debug.text_item_urls (link_run content href) = [VStr href]
         /\ Debug.text_item_urls (text_run content) = [])
  /\ (forall element,
         Debug.extract_urls_from_blocks (VList (convert_table element))
         = Ok [])
  /\ (forall env s soup,
         s <> EmptyString ->
         MARKDOWN_LIBS_AVAILABLE env = true ->
         bridge_answer env s = None ->
         markdown_soup env s = Ok soup ->
         Forall (fun e => Soup.has_name e "table" = true) soup ->
         Debug.debug_markdown_conversion env (PStr s)
         = Debug.Finished
             (Ok (Debug.mkReport (PStr s) (Debug.findall s) []
                                 (Debug.findall s)
                                 (VList (classify soup))))).
Proof.
  split; [exact extract_block_rich_text|]. split; [|split].
  - intros content href. split; reflexivity.
  - intros element. cbn [Debug.extract_urls_from_blocks].
    rewrite extract_block_table. reflexivity.
  - intros env s soup Hs Hlibs Hbridge Hsoup Htables.
    unfold Debug.debug_markdown_conversion. cbn [Debug.opening].
    pose proof (convert_with_bridge env s) as Hc.
    rewrite Hbridge in Hc. rewrite Hc.
    rewrite (builtin_blocks_returns env s soup Hsoup). cbn [bind].
    unfold nonempty.
    apply String.eqb_neq in Hs. rewrite Hs, Hlibs. cbn [negb andb].
    cbn [Debug.extract_urls_from_blocks].
    rewrite (classify_tables _ Htables). cbn [bind].
    rewrite filter_all; [reflexivity|]. intros u. reflexivity.
Qed.

Lemma debug_report_misses_table_links_witness :
  mirror_table_masked <> EmptyString
  /\ MARKDOWN_LIBS_AVAILABLE mirror_env = true
  /\ bridge_answer mirror_env mirror_table_masked = None
  /\ markdown_soup mirror_env mirror_table_masked = Ok mirror_table_soup
  /\ Forall (fun e => Soup.has_name e "table" = true) mirror_table_soup
  /\ Debug.debug_markdown_conversion mirror_env (PStr mirror_table_masked)
     = Debug.Finished
         (Ok (Debug.mkReport
                (PStr mirror_table_masked)
                (Debug.findall mirror_table_masked) []
                (Debug.findall mirror_table_masked)
                (VList (classify mirror_table_soup)))).
Proof.
  split; [discriminate|]. split; [reflexivity|]. split; [reflexivity|].
  split; [reflexivity|].
  assert (Forall (fun e => Soup.has_name e "table" = true)
                 mirror_table_soup) as H
    by (repeat constructor).
  split; [exact H|].
  apply (proj2 (proj2 (proj2 debug_report_misses_table_links))
               mirror_env mirror_table_masked mirror_table_soup);
    first [discriminate | reflexivity | exact H].
Defined.

(** ** The [debug] flag *)

Lemma debug_report_on_a_string :
  forall env s soup,
    markdown_soup env s = Ok soup ->
    (forall answer, bridge_answer env s = Some answer ->
                    is_list answer = true) ->
    exists r,
      Debug.debug_markdown_conversion env (PStr s) = Debug.Finished (Ok r).
Proof.
  intros env s soup Hsoup Hlist. unfold Debug.debug_markdown_conversion.
  cbn [Debug.opening].
  rewrite convert_with_bridge.
  rewrite (builtin_blocks_returns env s soup Hsoup). cbn [bind].
  destruct (bridge_answer env s) as [answer|].
  - specialize (Hlist answer eq_refl).
    destruct (nonempty s && truthy_value answer).
    + destruct answer; try discriminate Hlist.
      cbn [Debug.extract_urls_from_blocks bind]. eexists. reflexivity.
    + cbn [Debug.extract_urls_from_blocks bind]. eexists. reflexivity.
  - cbn [Debug.extract_urls_from_blocks bind]. eexists. reflexivity.
Qed.

(** X16.  With [debug] off, [markdown_to_notion_blocks] with its
    [debug] parameter is the function without it.  With [debug] on and a
    string, it returns the same blocks, provided that what the bridge
    prints is a list and that markdown and the parser return on the
    string: the report is computed and only printed.  The report
    converts the text once more, with the bridge enabled: where [node]
    prints the empty list for a text on which the library raises, the
    function returns the empty list with [debug] off and raises with
    [debug] on. *)
Theorem debug_flag_is_silent_on_strings :
  (forall env md use_martian fix_links,
      Debug.markdown_to_notion_blocks env md use_martian false fix_links
      = Debug.Finished (markdown_to_notion_blocks env md use_martian
                                                  fix_links))
  /\ (forall env s soup use_martian fix_links,
         markdown_soup env s = Ok soup ->
         (forall answer, bridge_answer env s = Some answer ->
                         is_list answer = true) ->
         Debug.markdown_to_notion_blocks env (PStr s) use_martian true
                                         fix_links
         = Debug.Finished (markdown_to_notion_blocks env (PStr s) use_martian
                                                     fix_links))
  /\ (forall env s e use_martian,
         s <> EmptyString ->
         LINK_HANDLER_AVAILABLE env = true ->
         MARKDOWN_LIBS_AVAILABLE env = true ->
         script_exists env = true ->
         tempfile_fails env = false ->
         attempt (run_npx env s) = None ->
         run_node env s = Exited 0 (Some (VList [])) ->
         markdown_soup env s = Raise e ->
         markdown_to_notion_blocks env (PStr s) use_martian true
         = Ok (VList [])
         /\ Debug.markdown_to_notion_blocks env (PStr s) use_martian true
                                            true
            = Debug.Finished (Raise e)).
Proof.
  split; [|split].
  - intros env md use_martian fix_links.
    unfold Debug.markdown_to_notion_blocks, markdown_to_notion_blocks.
    destruct (fix_links && LINK_HANDLER_AVAILABLE env); [|reflexivity].
    destruct (clean_markdown_to_notion_blocks env md); reflexivity.
  - intros env s soup use_martian fix_links Hsoup Hlist.
    destruct (debug_report_on_a_string env s soup Hsoup Hlist) as [r Hr].
    unfold Debug.markdown_to_notion_blocks, markdown_to_notion_blocks.
    rewrite Hr.
    destruct (fix_links && LINK_HANDLER_AVAILABLE env); [|reflexivity].
    destruct (clean_markdown_to_notion_blocks env (PStr s)); reflexivity.
  - intros env s e use_martian Hs Hlh Hlibs Hscript Htemp Hnpx Hnode Hsoup.
    assert (clean_markdown_to_notion_blocks env (PStr s) = Ok (VList []))
      as Hclean.
    { unfold clean_markdown_to_notion_blocks. cbn [bind normalize truthy].
      apply String.eqb_neq in Hs. rewrite Hs, Hscript, Htemp, Hnode.
      reflexivity. }
    assert (convert env true (PStr s) = Raise e) as Hconv.
    { rewrite convert_with_bridge. unfold bridge_answer.
      rewrite Hscript, Htemp, Hnpx, Hnode. cbn [negb andb attempt].
      cbn [truthy_value]. rewrite andb_false_r.
      unfold builtin_blocks, nonempty.
      apply String.eqb_neq in Hs. rewrite Hs, Hlibs, Hsoup. reflexivity. }
    unfold Debug.markdown_to_notion_blocks, markdown_to_notion_blocks.
    rewrite Hlh, Hclean. cbn [andb]. split; [reflexivity|].
    unfold Debug.debug_markdown_conversion. cbn [Debug.opening].
    rewrite Hconv. reflexivity.
Qed.

Lemma debug_flag_is_silent_on_strings_witness :
  (markdown_soup plain_env "text"
   = Ok [Soup.Tag "p" [] [Soup.NavigableString "text"]]
   /\ (forall answer, bridge_answer plain_env "text" = Some answer ->
                      is_list answer = true)
   /\ Debug.markdown_to_notion_blocks plain_env (PStr "text") true true true
      = Debug.Finished
          (markdown_to_notion_blocks plain_env (PStr "text") true true))
  /\
  (rejected_text <> EmptyString
   /\ attempt (run_npx empty_answer_env rejected_text) = None
   /\ run_node empty_answer_env rejected_text = Exited 0 (Some (VList []))
   /\ markdown_soup empty_answer_env rejected_text = Raise LibraryError
   /\ markdown_to_notion_blocks empty_answer_env (PStr rejected_text)
                                true true
      = Ok (VList [])
   /\ Debug.markdown_to_notion_blocks empty_answer_env (PStr rejected_text)
                                      true true true
      = Debug.Finished (Raise LibraryError)).
Proof.
  assert (forall answer, bridge_answer plain_env "text" = Some answer ->
                         is_list answer = true) as H
    by (intros answer Ha; discriminate Ha).
  split.
  - split; [reflexivity|]. split; [exact H|].
    apply (proj1 (proj2 debug_flag_is_silent_on_strings)
                 plain_env "text"
                 [Soup.Tag "p" [] [Soup.NavigableString "text"]] true true
                 eq_refl H).
  - assert (rejected_text <> EmptyString) as Hs by discriminate.
    split; [exact Hs|]. do 3 (split; [reflexivity|]).
    apply (proj2 (proj2 debug_flag_is_silent_on_strings)
                 empty_answer_env rejected_text LibraryError true Hs
                 eq_refl eq_refl eq_refl eq_refl eq_refl eq_refl eq_refl).
Defined.

(** X17.  The debug helper reads its local [md_content_str] without
    having bound it when the argument is an object whose [__str__]
    raises and that has no [to_json]: it ends with [UnboundLocalError],
    whatever the environment.  With [debug] on, and links not fixed,
    [markdown_to_notion_blocks] then ends the same way, also for an
    object of a class named [List] whose items can be joined, for which
    it gives with [debug] off what [convert] gives for the joined text:
    blocks, when markdown and the parser return on that text. *)
Theorem debug_helper_reads_unbound_local :
  (forall env cls truth e items,
      Debug.debug_markdown_conversion env (PObj cls truth (Raise e) None items)
      = Debug.UnboundLocal)
  /\ (forall env cls truth e items use_martian,
         Debug.markdown_to_notion_blocks
           env (PObj cls truth (Raise e) None items) use_martian true false
         = Debug.UnboundLocal)
  /\ (forall env truth e items joined use_martian,
         join_items (Some items) = Ok joined ->
         markdown_to_notion_blocks
           env (PObj "List" truth (Raise e) None (Some items))
           use_martian false
         = convert env use_martian (PStr joined)
         /\ (forall soup,
                markdown_soup env joined = Ok soup ->
                exists blocks,
                  convert env use_martian (PStr joined) = Ok blocks)).
Proof.
  split; [|split].
  - reflexivity.
  - reflexivity.
  - intros env truth e items joined use_martian Hj. split.
    + unfold markdown_to_notion_blocks. cbn [andb].
      unfold convert at 1. cbn [String.eqb Ascii.eqb Bool.eqb try_except bind].
      rewrite Hj. reflexivity.
    + intros soup Hsoup. apply (convert_returns _ _ _ soup Hsoup).
Qed.

Lemma debug_helper_reads_unbound_local_witness :
  join_items (Some [Ok "# Title"; Ok "text"])
  = Ok "# Title
text"
  /\ markdown_to_notion_blocks
       plain_env
       (PObj "List" true (Raise UserError) None (Some [Ok "# Title"; Ok "text"]))
       false false
     = convert plain_env false (PStr "# Title
text")
  /\ Debug.markdown_to_notion_blocks
       plain_env
       (PObj "List" true (Raise UserError) None (Some [Ok "# Title"; Ok "text"]))
       false true false
     = Debug.UnboundLocal.
Proof.
  split; [reflexivity|]. split.
  - apply (proj2 (proj2 debug_helper_reads_unbound_local)
                 plain_env true UserError [Ok "# Title"; Ok "text"]).
    reflexivity.
  - apply (proj1 (proj2 debug_helper_reads_unbound_local)).
Defined.

(** * Properties of the action that prepares a page *)

(** ** Conversion of the markdown of a page *)



(** ** The title of a page *)











(** * Objects in place of strings *)

Lemma normalize_object :
  forall cls truth s to_json items,
    PyStr.strip s <> EmptyString ->
    normalize (PObj cls truth (Ok s) to_json items) = Ok (Some (PStr s)).
Proof.
  intros cls truth s to_json items H. apply String.eqb_neq in H.
  unfold normalize. cbn [bind try_except].
  destruct items; [rewrite H|]; reflexivity.
Qed.

Lemma strip_nonempty :
  forall s, PyStr.strip s <> EmptyString -> s <> EmptyString.
Proof. intros s H ->. apply H. reflexivity. Qed.

(** X20.  An object whose [__str__] returns a text that holds more than
    white space is converted as that text.  This holds of
    [clean_markdown_to_notion_blocks] for every object, and of [convert]
    and [markdown_to_notion_blocks] for an object of a class named
    [List] and for an object that is true; an object of another class
    that is false is converted to the empty list by [convert] whatever
    its text. *)
Theorem object_is_converted_as_its_string :
  forall env cls truth s to_json items,
    PyStr.strip s <> EmptyString ->
    clean_markdown_to_notion_blocks env (PObj cls truth (Ok s) to_json items)
    = clean_markdown_to_notion_blocks env (PStr s)
    /\ (cls = "List" \/ truth = true ->
        forall use_martian,
          convert env use_martian (PObj cls truth (Ok s) to_json items)
          = convert env use_martian (PStr s))
    /\ (cls = "List" \/ truth = true ->
        forall use_martian fix_links,
          markdown_to_notion_blocks
            env (PObj cls truth (Ok s) to_json items) use_martian fix_links
          = markdown_to_notion_blocks env (PStr s) use_martian fix_links)
    /\ (cls <> "List" -> truth = false ->
        forall use_martian,
          convert env use_martian (PObj cls truth (Ok s) to_json items)
          = Ok (VList [])).
Proof.
  intros env cls truth s to_json items Hs.
  pose proof (normalize_object cls truth s to_json items Hs) as Hn.
  assert (clean_markdown_to_notion_blocks
            env (PObj cls truth (Ok s) to_json items)
          = clean_markdown_to_notion_blocks env (PStr s)) as Hclean.
  { unfold clean_markdown_to_notion_blocks. rewrite Hn. reflexivity. }
  assert (cls = "List" \/ truth = true ->
          forall use_martian,
            convert env use_martian (PObj cls truth (Ok s) to_json items)
            = convert env use_martian (PStr s)) as Hconv.
  { intros Hc use_martian. unfold convert.
    destruct (String.eqb cls "List") eqn:E.
    - reflexivity.
    - destruct Hc as [-> | ->]; [discriminate E|].
      apply strip_nonempty, String.eqb_neq in Hs.
      cbn [bind truthy negb]. rewrite Hs. cbn [negb].
      unfold _convert_with_martian, _convert_with_bs4. rewrite Hn.
      reflexivity. }
  split; [exact Hclean|]. split; [exact Hconv|]. split.
  - intros Hc use_martian fix_links. unfold markdown_to_notion_blocks.
    rewrite Hclean, (Hconv Hc). reflexivity.
  - intros Hcls -> use_martian. unfold convert.
    apply String.eqb_neq in Hcls. rewrite Hcls. reflexivity.
Qed.

Lemma object_is_converted_as_its_string_witness :
  PyStr.strip "# Title" <> EmptyString
  /\ clean_markdown_to_notion_blocks
       plain_env (PObj "Doc" false (Ok "# Title") None None)
     = clean_markdown_to_notion_blocks plain_env (PStr "# Title").
Proof.
  split; [discriminate|].
  apply (object_is_converted_as_its_string
           plain_env "Doc" false "# Title" None None).
  discriminate.
Defined.

(** * The language of a code block *)

Lemma words_from_solid :
  forall s cur,
    all_chars (fun c => negb (PyStr.isspace c)) s = true ->
    Soup.words_from cur s
    = match cur ++ s with
      | EmptyString => []
      | w => [w]
      end.
Proof.
  induction s as [|c s IH]; intros cur H; cbn [Soup.words_from].
  - rewrite append_nil_r. destruct cur; reflexivity.
  - cbn [all_chars] in H. apply andb_true_iff in H. destruct H as [Hc Hs].
    apply negb_true_iff in Hc. rewrite Hc, (IH _ Hs), append_assoc.
    reflexivity.
Qed.

(** X21.  The language of a code block is what follows [language-] in
    the class of the [code] element: for a [pre] element whose first
    child is a [code] element of class [language-l], with [l] free of
    white space, the block carries the language [l] and the text of the
    element. *)
Theorem code_block_carries_its_language :
  forall attrs l cs more,
    all_chars (fun c => negb (PyStr.isspace c)) l = true ->
    convert_element
      (Soup.Tag "pre" attrs
                (Soup.Tag "code" [("class", "language-" ++ l)] cs :: more))
    = [VDict [("object", VStr "block"); ("type", VStr "code");
              ("code",
               VDict [("rich_text",
                       VList [text_run
                                (Soup.get_text
                                   (Soup.Tag "pre" attrs
                                      (Soup.Tag "code"
                                         [("class", "language-" ++ l)] cs
                                       :: more)))]);
                      ("language", VStr l)])]].
Proof.
  intros attrs l cs more H.
  assert (language_of
            (Soup.Tag "pre" attrs
               (Soup.Tag "code" [("class", "language-" ++ l)] cs :: more))
          = l) as Hl.
  { unfold language_of, Soup.find.
    cbn [Soup.descendants List.find Soup.has_name String.eqb Ascii.eqb
         Bool.eqb app].
    unfold Soup.classes.
    cbn [Soup.attr Soup.lookup_attr String.eqb Ascii.eqb Bool.eqb].
    rewrite (words_from_solid ("language-" ++ l) EmptyString).
    - cbn [append List.find].
      unfold PyStr.startswith.
      rewrite (prefix_of_app "language-" l
               : String.prefix "language-"
                   (String "l" (String "a" (String "n" (String "g"
                      (String "u" (String "a" (String "g" (String "e"
                         (String "-" l))))))))) = true).
      exact (drop_app "language-" l).
    - rewrite all_chars_app, H. reflexivity. }
  cbn [convert_element String.eqb Ascii.eqb Bool.eqb].
  rewrite Hl. reflexivity.
Qed.

Lemma code_block_carries_its_language_witness :
  all_chars (fun c => negb (PyStr.isspace c)) "python" = true
  /\ convert_element
       (Soup.Tag "pre" []
          [Soup.Tag "code" [("class", "language-python")]
                    [Soup.NavigableString "print(1)"]])
     = [VDict [("object", VStr "block"); ("type", VStr "code");
               ("code",
                VDict [("rich_text", VList [text_run "print(1)"]);
                       ("language", VStr "python")])]].
Proof.
  split; [reflexivity|].
  apply (code_block_carries_its_language
           [] "python" [Soup.NavigableString "print(1)"] []).
  reflexivity.
Defined.

(** * The pipeline with the built-in parser *)

Lemma fit_weaken : forall n m v, n <= m -> fit n v -> fit m v.
Proof. intros n m v H [W P]. split; [exact W | lia]. Qed.

Lemma fit_list :
  forall n l, Forall (fit n) l -> fit (S n) (VList l).
Proof.
  intros n l H. split.
  - apply well_shaped_list_intro. intros x Hx.
    rewrite Forall_forall in H. apply (H x Hx).
  - rewrite potential_list_eq. apply le_n_S.
    induction H as [|x l [_ Hx] _ IH]; cbn [list_potential]; lia.
Qed.

Lemma fit_dict_nil : forall n, fit (S n) (VDict []).
Proof. intros n. split; [reflexivity | cbn; lia]. Qed.

Lemma fit_dict_cons :
  forall n k x d,
    1 <= n ->
    entry_shaped k x = true ->
    fit n x ->
    fit (S n) (VDict d) ->
    fit (S n) (VDict ((k, x) :: d)).
Proof.
  intros n k x d Hn He [Wx Px] [Wd Pd]. split.
  - change (well_shaped (VDict ((k, x) :: d)))
      with (entry_shaped k x && well_shaped x && well_shaped (VDict d)).
    rewrite He, Wx, Wd. reflexivity.
  - rewrite potential_dict_eq in *. cbn [dict_potential].
    destruct (Dict.mem "content" ((k, x) :: d));
      destruct (Dict.mem "content" d); lia.
Qed.

Lemma fit_scalar :
  forall n v, scalar v = true -> fit n v.
Proof.
  intros n [| | | | |] H; try discriminate H; split; try reflexivity;
    cbn; lia.
Qed.

Ltac fit_literal :=
  repeat first
    [ apply fit_dict_nil
    | apply fit_dict_cons; [lia | reflexivity | | ]
    | apply fit_scalar; reflexivity ].

Lemma text_run_fit : forall c, fit 3 (text_run c).
Proof. intros c. split; [reflexivity | cbn; lia]. Qed.

Lemma link_run_fit : forall c u, fit 3 (link_run c u).
Proof. intros c u. split; [reflexivity | cbn; lia]. Qed.

Lemma rich_text_of_child_fit :
  forall child, Forall (fit 3) (rich_text_of_child child).
Proof.
  intros [s|s|nm attrs cs]; cbn [rich_text_of_child].
  - destruct (nonempty (PyStr.strip s)); repeat constructor;
      apply text_run_fit.
  - destruct (nonempty (PyStr.strip s)); repeat constructor;
      apply text_run_fit.
  - destruct (if String.eqb nm "a"
              then Soup.attr (Soup.Tag nm attrs cs) "href" else None)
      as [href|].
    + destruct (nonempty _); repeat constructor; apply link_run_fit.
    + destruct (nonempty _); [|constructor].
      constructor; [|constructor].
      destruct (match Soup.find "a" (Soup.Tag nm attrs cs) with
                | Some a => match Soup.attr a "href" with
                            | Some href => [("link", VDict [("url", VStr href)])]
                            | None => []
                            end
                | None => []
                end) as [|link rest] eqn:El.
      * unfold annotation_of.
        repeat match goal with
               | |- context [if ?c then _ else _] => destruct c
               end;
          (split; [reflexivity | cbn; lia]).
      * assert (exists href,
                   link :: rest = [("link", VDict [("url", VStr href)])])
          as [href ->].
        { destruct (Soup.find "a" (Soup.Tag nm attrs cs)) as [a|];
            [|discriminate El].
          destruct (Soup.attr a "href") as [href|]; [|discriminate El].
          exists href. symmetry. exact El. }
        unfold annotation_of.
        repeat match goal with
               | |- context [if ?c then _ else _] => destruct c
               end;
          (split; [reflexivity | cbn; lia]).
Qed.

Lemma process_rich_text_element_fit :
  forall element, Forall (fit 3) (process_rich_text_element element).
Proof.
  intros [s|s|nm attrs cs]; cbn [process_rich_text_element].
  - repeat constructor; apply text_run_fit.
  - repeat constructor; apply text_run_fit.
  - destruct (if String.eqb nm "a"
              then Soup.attr (Soup.Tag nm attrs cs) "href" else None)
      as [href|].
    + destruct (nonempty _); repeat constructor; apply link_run_fit.
    + apply Forall_forall. intros r Hr. apply in_flat_map in Hr.
      destruct Hr as [c [_ Hr]].
      pose proof (rich_text_of_child_fit c) as H.
      rewrite Forall_forall in H. apply H, Hr.
Qed.

Lemma rich_text_block_fit :
  forall ty runs,
    In ty rich_text_types -> Forall (fit 3) runs ->
    fit 6 (rich_text_block ty runs).
Proof.
  intros ty runs Hty Hruns. pose proof (fit_list _ _ Hruns) as Hl.
  unfold rich_text_block, rich_text_types in *. cbn [In] in Hty.
  repeat (destruct Hty as [<-|Hty];
          [fit_literal; apply (fit_weaken 4); [lia | exact Hl]|]).
  contradiction.
Qed.

Lemma fit_row_fit :
  forall width cells,
    Forall (fit 4) cells -> Forall (fit 4) (fit_row width cells).
Proof.
  intros width cells H. unfold fit_row.
  assert (Forall (fit 4)
                 (cells ++ repeat empty_cell (width - length cells))) as Hp.
  { apply Forall_app. split; [exact H|].
    apply Forall_forall. intros x Hx. apply repeat_spec in Hx. subst x.
    split; [reflexivity | cbn; lia]. }
  destruct (Nat.ltb width _); [|exact Hp].
  apply Forall_firstn, Hp.
Qed.

Lemma table_row_fit : forall width row, fit 7 (table_row width row).
Proof.
  intros width row. unfold table_row.
  assert (fit 5 (VList (fit_row width
                          (map (fun cell =>
                                  VList (process_rich_text_element cell))
                               (Soup.find_all ["th"; "td"] row))))) as Hc.
  { apply fit_list, fit_row_fit, Forall_forall. intros x Hx.
    apply in_map_iff in Hx. destruct Hx as [cell [<- _]].
    apply fit_list, process_rich_text_element_fit. }
  fit_literal. exact Hc.
Qed.

Lemma convert_table_fit :
  forall element, Forall (fit 10) (convert_table element).
Proof.
  intros element. unfold convert_table.
  destruct (Soup.find_all ["tr"] element) as [|first_row rows];
    [constructor|].
  destruct (Nat.eqb _ 0); [constructor|].
  constructor; [|constructor].
  generalize (length (Soup.find_all ["th"; "td"] first_row)). intros width.
  assert (fit 8 (VList (map (table_row width) (first_row :: rows)))) as Hr.
  { apply fit_list, Forall_forall. intros x Hx.
    apply in_map_iff in Hx. destruct Hx as [row [<- _]].
    apply table_row_fit. }
  fit_literal. exact Hr.
Qed.

Lemma classify_fit : forall soup, fit 11 (VList (classify soup)).
Proof.
  intros soup. apply fit_list, Forall_forall. intros b Hin.
  unfold classify in Hin. apply in_flat_map in Hin.
  destruct Hin as [element [_ Hin]].
  destruct element as [s|s|nm attrs cs]; cbn [convert_element] in Hin;
    try contradiction.
  repeat match type of Hin with
         | In _ (if String.eqb nm ?k then _ else _) =>
             let E := fresh "E" in
             destruct (String.eqb nm k) eqn:E
         end.
  all: try (pose proof (convert_table_fit (Soup.Tag nm attrs cs)) as Ht;
            rewrite Forall_forall in Ht; exact (Ht b Hin)).
  all: repeat match type of Hin with
         | In _ (match ?c with [] => _ | _ :: _ => _ end) =>
             let E := fresh "Hdiv" in
             destruct c eqn:E; [|rewrite <- E in Hin; clear E]
         | In _ (match ?c with Some _ => _ | None => _ end) => destruct c
         | In _ (if ?c then _ else _) =>
             let E := fresh "Hc" in destruct c eqn:E
         end.
  all: try contradiction.
  all: try (apply in_map_iff in Hin; destruct Hin as [x [<- Hx]]).
  all: try (destruct Hin as [<- | []]).
  all: try (apply (fit_weaken 6); [lia|];
            apply rich_text_block_fit;
            [unfold rich_text_types; cbn [In]; tauto
            |first [apply process_rich_text_element_fit
                   |repeat constructor; apply text_run_fit]]).
  all: split; [reflexivity | cbn; lia].
Qed.

(** What the built-in parser returns is a list of blocks of the shape
    that the traversal relies on. *)
Lemma builtin_blocks_fit :
  forall env s blocks,
    builtin_blocks env s = Ok blocks ->
    exists bs, blocks = VList bs /\ fit 11 (VList bs).
Proof.
  intros env s blocks. unfold builtin_blocks.
  destruct (nonempty s && MARKDOWN_LIBS_AVAILABLE env).
  - destruct (markdown_soup env s) as [soup|e|]; cbn [bind];
      try discriminate.
    intros H. injection H as <-. exists (classify soup).
    split; [reflexivity | apply classify_fit].
  - intros H. injection H as <-. exists [].
    split; [reflexivity | split; [reflexivity | cbn; lia]].
Qed.

(** The last step of [fix_markdown_links] on such a list. *)
Lemma resolution_returns :
  forall fuel links bs0,
    12 <= fuel ->
    fit 11 (VList bs0) ->
    exists bs,
      match links with
      | [] => Ok (VList bs0)
      | _ :: _ => postprocess_notion_blocks fuel (VList bs0) links
      end = Ok (VList bs)
      /\ Forall2 (fun b b' => block_type b' = block_type b) bs0 bs.
Proof.
  intros fuel links bs0 Hfuel [Hw Hp].
  assert (exists r,
             postprocess_notion_blocks fuel (VList bs0) links = Ok r)
    as [r Hr].
  { unfold postprocess_notion_blocks. destruct links as [|l links];
      [eexists; reflexivity|].
    destruct (process_block_total (make_lookup (l :: links)) fuel _ Hw
                                  ltac:(lia)) as [r [Hr _]].
    exists r. exact Hr. }
  destruct (postprocess_keeps_blocks _ _ _ _ Hr) as [bs [-> [_ Hbs]]].
  exists bs. split.
  - destruct links; [|exact Hr].
    cbn [postprocess_notion_blocks] in Hr. exact Hr.
  - clear Hr Hw Hp.
    induction Hbs as [|b b' l l' [_ Hb] _ IH]; constructor; assumption.
Qed.

(** X22.  With the built-in parser as the converter and fuel 12 for the
    traversal, the whole pipeline returns for every text on whose masked
    form markdown and the parser return, and raises only what they
    raise on it: the blocks that the classifier emits are of the shape
    that the traversal relies on and at most eleven levels deep.  The
    result is a list with as many blocks as the parser emitted for the
    masked text, each of the type it had. *)
Theorem pipeline_with_builtin_parser_returns :
  forall env md fuel,
    12 <= fuel ->
    (forall soup,
        markdown_soup env (fst (preprocess_markdown_links md)) = Ok soup ->
        exists bs,
          fix_markdown_links fuel md (builtin_backend env) = Ok (VList bs)
          /\ Forall2 (fun b b' => block_type b' = block_type b)
                     (if nonempty (fst (preprocess_markdown_links md))
                         && MARKDOWN_LIBS_AVAILABLE env
                      then classify soup else [])
                     bs)
    /\ (forall e,
           fix_markdown_links fuel md (builtin_backend env) = Raise e ->
           markdown_soup env (fst (preprocess_markdown_links md)) = Raise e).
Proof.
  intros env md fuel Hfuel. unfold fix_markdown_links, builtin_backend.
  destruct (preprocess_markdown_links md) as [masked links]. cbn [fst].
  rewrite convert_builtin. split.
  - intros soup Hsoup.
    rewrite (builtin_blocks_returns _ _ _ Hsoup). cbn [bind].
    apply (resolution_returns fuel links _ Hfuel).
    destruct (nonempty masked && MARKDOWN_LIBS_AVAILABLE env);
      [apply classify_fit | split; [reflexivity | cbn; lia]].
  - intros e He.
    destruct (builtin_blocks env masked) as [blocks|e'|] eqn:Hb;
      cbn [bind] in He; [| |discriminate He].
    + exfalso. destruct (builtin_blocks_fit _ _ _ Hb) as [bs0 [-> Hfit]].
      destruct (resolution_returns fuel links bs0 Hfuel Hfit) as [bs [Hbs _]].
      rewrite Hbs in He. discriminate He.
    + injection He as ->.
      apply (builtin_blocks_raises env masked e Hb).
Qed.

Lemma pipeline_with_builtin_parser_returns_witness :
  12 <= 12
  /\ markdown_soup mirror_env (fst (preprocess_markdown_links mirror_table_md))
     = Ok mirror_table_soup
  /\ exists bs,
      fix_markdown_links 12 mirror_table_md (builtin_backend mirror_env)
      = Ok (VList bs)
      /\ Forall2 (fun b b' => block_type b' = block_type b)
                 (classify mirror_table_soup)
                 bs.
Proof.
  split; [lia|]. split; [reflexivity|].
  apply (proj1 (pipeline_with_builtin_parser_returns
                  mirror_env mirror_table_md 12 (le_n 12))
               mirror_table_soup).
  reflexivity.
Defined.

(** * Link syntax inside a code fence *)

Lemma process_block_code :
  forall fuel link_lookup run run',
    process_block (S fuel) link_lookup run = Ok run' ->
    process_block (4 + fuel) link_lookup (code_block_of run)
    = Ok (code_block_of run').
Proof.
  intros fuel lk run run' Hrun.
  assert (process_block (2 + fuel) lk (VList [run]) = Ok (VList [run']))
    as Hl.
  { change (process_block (2 + fuel) lk (VList [run]))
      with (bind (for_each (process_block (S fuel) lk) [run])
                 (fun l' => Ok (VList l'))).
    cbn [for_each]. rewrite Hrun. reflexivity. }
  assert (process_block (3 + fuel) lk
                        (VDict [("rich_text", VList [run]);
                                ("language", VStr "plain text")])
          = Ok (VDict [("rich_text", VList [run']);
                       ("language", VStr "plain text")])) as Hd.
  { change (process_block (3 + fuel) lk
                          (VDict [("rich_text", VList [run]);
                                  ("language", VStr "plain text")]))
      with (bind (bind (process_block (2 + fuel) lk (VList [run]))
                       (fun v' =>
                          bind (Ok [("language", VStr "plain text")])
                               (fun d'' => Ok (("rich_text", v') :: d''))))
                 (fun d2 => Ok (VDict d2))).
    rewrite Hl. reflexivity. }
  unfold code_block_of.
  change (process_block (4 + fuel) lk ?b)
    with (process_block (S (3 + fuel)) lk b).
  cbn [process_block is_table_block Dict.get Dict.mem String.eqb
       Ascii.eqb Bool.eqb eq_str andb process_text bind
       Dict.for_items is_dict is_list orb].
  rewrite Hd. reflexivity.
Qed.

(** X23.  The first pass does not look at code fences.  A text of the
    form of a markdown link inside a fenced code block, such as an index
    followed by a call, is masked like any link; when the converter
    renders the masked text as one code block whose text holds the
    placeholder, postprocessing replaces the whole text of the code
    block by the display text of the entry and gives the run its
    target. *)
Theorem link_syntax_in_code_is_masked :
  forall pre t u post code_text converter_func fuel,
    all_chars (not_char "[") pre = true ->
    all_chars (not_char ":") pre = true ->
    all_chars (not_char "[") post = true ->
    all_chars (not_char ":") post = true ->
    t <> EmptyString -> u <> EmptyString ->
    all_chars (not_char "]") t = true ->
    all_chars (not_char ")") u = true ->
    converter_func (pre ++ "[LINKPLACEHOLDER_0]" ++ post)
    = Ok (VList [code_block code_text]) ->
    PyStr.contains code_text "LINKPLACEHOLDER_0" = true ->
    fix_markdown_links (5 + fuel)
                       (pre ++ "[" ++ t ++ "](" ++ u ++ ")" ++ post)
                       converter_func
    = Ok (VList [code_block_of (link_run t u)]).
Proof.
  intros pre t u post code_text converter_func fuel Hpre Hpre' Hpost Hpost'
         Ht Hu Hct Hcu Hconv Hcode.
  unfold fix_markdown_links.
  rewrite (preprocess_one_link pre t u post Hpre Hpre' Hpost Hpost'
                               Ht Hu Hct Hcu), Hconv.
  cbn [bind]. unfold postprocess_notion_blocks.
  change (make_lookup [mkLink "LINKPLACEHOLDER_0" t u])
    with [entry (mkLink "LINKPLACEHOLDER_0" t u)].
  change (process_block (5 + fuel) ?lk (VList ?l))
    with (bind (for_each (process_block (4 + fuel) lk) l)
               (fun l' => Ok (VList l'))).
  cbn [for_each].
  change (code_block code_text) with (code_block_of (text_run code_text)).
  rewrite (process_block_code fuel _ _ (link_run t u)); [reflexivity|].
  apply (text_run_resolves fuel (mkLink "LINKPLACEHOLDER_0" t u)).
  exact Hcode.
Qed.

Lemma link_syntax_in_code_is_masked_witness :
  builtin_backend fenced_call_env fenced_call_masked
  = Ok (VList [code_block ("v = a[LINKPLACEHOLDER_0]"
                           ++ String PyStr.newline EmptyString)])
  /\ fix_markdown_links 5 fenced_call_md (builtin_backend fenced_call_env)
     = Ok (VList [code_block_of (link_run "0" "x")]).
Proof.
  split; [vm_compute; reflexivity|].
  apply (link_syntax_in_code_is_masked
           ("```" ++ String PyStr.newline "v = a") "0" "x"
           (String PyStr.newline "```")
           ("v = a[LINKPLACEHOLDER_0]" ++ String PyStr.newline EmptyString)
           (builtin_backend fenced_call_env) 0);
    first [reflexivity | discriminate | vm_compute; reflexivity].
Defined.

(** * Up to ten links *)

(** Among the tokens of the first ten entries none occurs in another,
    bare or in brackets. *)
Lemma tokens_apart :
  forall m i j,
    i < 10 -> j < 10 ->
    PyStr.contains (token_of m i) (token_of m j) = true
    \/ PyStr.contains (bracketed (token_of m i)) (token_of m j) = true ->
    i = j.
Proof.
  intros m i j Hi Hj H. unfold token_of, bracketed in H.
  destruct i as [|[|[|[|[|[|[|[|[|[|i]]]]]]]]]]; [..|lia];
    (destruct j as [|[|[|[|[|[|[|[|[|[|j]]]]]]]]]]; [..|lia]);
    try reflexivity;
    destruct (Nat.ltb _ m); destruct (Nat.ltb _ m);
    destruct H as [H|H]; vm_compute in H; discriminate H.
Qed.

(** X24.  While preprocessing has recorded at most ten links, a run whose
    content is the token of an entry, bare or in brackets, is resolved
    by that entry: it gets the display text and the target of its own
    link.  Among the tokens of ten entries none occurs in another. *)
Theorem first_ten_links_resolve :
  forall fuel md i li,
    length (snd (preprocess_markdown_links md)) <= 10 ->
    nth_error (snd (preprocess_markdown_links md)) i = Some li ->
    process_block (S fuel) (make_lookup (snd (preprocess_markdown_links md)))
                  (text_run (bracketed (placeholder li)))
    = Ok (link_run (text li) (url li))
    /\ process_block (S fuel)
                     (make_lookup (snd (preprocess_markdown_links md)))
                     (text_run (placeholder li))
       = Ok (link_run (text li) (url li)).
Proof.
  intros fuel md i li Hlen Hi.
  destruct (preprocess_links_named md) as [m Hm].
  rewrite (make_lookup_distinct _ (named_by_index_distinct _ _ Hm)).
  assert (i < 10) as Hi10.
  { assert (nth_error (snd (preprocess_markdown_links md)) i <> None) as Hn
      by (rewrite Hi; discriminate).
    apply nth_error_Some in Hn. lia. }
  assert (forall content,
             content = placeholder li \/ content = bracketed (placeholder li) ->
             first_hit (map entry (snd (preprocess_markdown_links md)))
                       content (placeholder li) li) as Hhit.
  { intros content Hc. apply (first_hit_at_index _ _ i li Hi).
    - destruct Hc as [-> | ->];
        [apply contains_refl | apply contains_in_bracketed].
    - intros k lk Hk Hlk.
      destruct (PyStr.contains content (placeholder lk)) eqn:E;
        [|reflexivity].
      rewrite (Hm _ _ Hi) in Hc. rewrite (Hm _ _ Hlk) in E.
      assert (i = k); [|lia].
      apply (tokens_apart m i k Hi10 ltac:(lia)).
      destruct Hc as [-> | ->]; [left | right]; exact E. }
  split.
  - unfold text_run.
    rewrite (process_block_run
               fuel _ _ [("content", VStr (bracketed (placeholder li)))]
               (bracketed (placeholder li)) (placeholder li) li);
      [reflexivity | reflexivity | reflexivity | reflexivity |].
    apply Hhit. right. reflexivity.
  - unfold text_run.
    rewrite (process_block_run
               fuel _ _ [("content", VStr (placeholder li))]
               (placeholder li) (placeholder li) li);
      [reflexivity | reflexivity | reflexivity | reflexivity |].
    apply Hhit. left. reflexivity.
Qed.

Lemma first_ten_links_resolve_witness :
  length (snd (preprocess_markdown_links
                 "[a](https://a.example) and https://b.example")) <= 10
  /\ nth_error (snd (preprocess_markdown_links
                       "[a](https://a.example) and https://b.example")) 1
     = Some (mkLink "URLLINKPLACEHOLDER_1" "https://b.example"
                    "https://b.example")
  /\ process_block 1
       (make_lookup (snd (preprocess_markdown_links
                            "[a](https://a.example) and https://b.example")))
       (text_run "URLLINKPLACEHOLDER_1")
     = Ok (link_run "https://b.example" "https://b.example").
Proof.
  assert (length (snd (preprocess_markdown_links
                         "[a](https://a.example) and https://b.example"))
          <= 10) as Hlen by (vm_compute; lia).
  assert (nth_error (snd (preprocess_markdown_links
                            "[a](https://a.example) and https://b.example"))
                    1
          = Some (mkLink "URLLINKPLACEHOLDER_1" "https://b.example"
                         "https://b.example")) as Hi
    by (vm_compute; reflexivity).
  split; [exact Hlen|]. split; [exact Hi|].
  apply (first_ten_links_resolve
           0 "[a](https://a.example) and https://b.example" 1 _ Hlen Hi).
Defined.
(** * Code fences and the facade *)

(** ** Code blocks without tokens *)

Lemma token_holds_stem :
  forall m i, PyStr.contains (token_of m i) "LINKPLACEHOLDER_" = true.
Proof.
  intros m i. unfold token_of. apply contains_app.
  destruct (Nat.ltb i m).
  - exists EmptyString, (PyStr.of_nat i). reflexivity.
  - exists "URL", (PyStr.of_nat i). reflexivity.
Qed.

(** No token of preprocessing occurs in a string that does not hold
    what all tokens hold. *)
Lemma has_token_short :
  forall m links s,
    named_by_index m links ->
    PyStr.contains s "LINKPLACEHOLDER_" = false ->
    has_token (tokens_of links) s = false.
Proof.
  intros m links s Hnamed Hs. unfold has_token, tokens_of.
  destruct (existsb (PyStr.contains s) (map placeholder links)) eqn:E;
    [|reflexivity].
  apply existsb_exists in E. destruct E as [t [Hin Ht]].
  apply in_map_iff in Hin. destruct Hin as [l [<- Hl]].
  destruct (In_nth_error links l Hl) as [i Hi].
  rewrite (Hnamed i l Hi) in Ht.
  rewrite (contains_trans _ _ _ Ht (token_holds_stem m i)) in Hs.
  discriminate Hs.
Qed.

(** A token occurs in a code block only in its text or in its
    language. *)
Lemma code_block_mentions :
  forall m links language code,
    named_by_index m links ->
    mentions (tokens_of links) (code_block_in language code)
    = has_token (tokens_of links) code
      || has_token (tokens_of links) language.
Proof.
  intros m links language code Hnamed. unfold code_block_in, text_run.
  cbn [mentions].
  pose proof (fun s H => has_token_short m links s Hnamed H) as Hk.
  rewrite (Hk "object" eq_refl), (Hk "block" eq_refl), (Hk "type" eq_refl),
    (Hk "code" eq_refl), (Hk "rich_text" eq_refl), (Hk "text" eq_refl),
    (Hk "content" eq_refl), (Hk "language" eq_refl).
  cbn [orb]. rewrite !orb_false_r. reflexivity.
Qed.

(** Whenever postprocessing returns, with the links of a text, every
    code block whose text and language hold no token is as it was. *)
Lemma code_blocks_kept :
  forall md fuel bs r,
    postprocess_notion_blocks fuel (VList bs)
                              (snd (preprocess_markdown_links md)) = Ok r ->
    exists bs',
      r = VList bs'
      /\ Forall2
           (fun b b' =>
              forall language code,
                b = code_block_in language code ->
                has_token (tokens_of (snd (preprocess_markdown_links md)))
                          code = false ->
                has_token (tokens_of (snd (preprocess_markdown_links md)))
                          language = false ->
                b' = b)
           bs bs'.
Proof.
  intros md fuel bs r H.
  destruct (preprocess_links_named md) as [m Hnamed].
  destruct (snd (preprocess_markdown_links md)) as [|l links] eqn:El.
  - cbn [postprocess_notion_blocks] in H. injection H as <-.
    exists bs. split; [reflexivity|].
    induction bs; constructor;
      [intros language code _ _ _; reflexivity | assumption].
  - unfold postprocess_notion_blocks in H.
    destruct fuel as [|fuel]; [discriminate H|].
    cbn [process_block] in H.
    apply bind_ok in H. destruct H as [bs' [Hbs H]]. injection H as <-.
    exists bs'. split; [reflexivity|].
    apply for_each_Forall2 in Hbs.
    induction Hbs as [|b b' bs bs' Hb _ IH]; constructor; [|exact IH].
    intros language code -> Hcode Hlanguage.
    apply (process_block_keeps (tokens_of (l :: links)) _
                               (make_lookup_keys (l :: links))
                               fuel _ b'); [|exact Hb].
    rewrite (code_block_mentions m _ language code Hnamed), Hcode, Hlanguage.
    reflexivity.
Qed.

(** ** The pass over bare URLs and the fences *)

Lemma url_pass_keeps_fenced_lines :
  forall md,
    let processed :=
      re_sub match_markdown_link replace_markdown_link md [] in
    let lines := PyStr.split_lines (fst processed) in
    exists lines',
      fst (preprocess_markdown_links md) = PyStr.join_lines lines'
      /\ length lines' = length lines
      /\ (forall i line,
             nth_error lines i = Some line ->
             is_fence line || fence_state lines false i = true ->
             nth_error lines' i = Some line)
      /\ snd (preprocess_markdown_links md)
         = record_lines md (outside_fences lines false) (snd processed).
Proof.
  intros md processed lines. unfold preprocess_markdown_links.
  subst lines processed.
  destruct (re_sub match_markdown_link replace_markdown_link md [])
    as [processed links1]. cbn [fst snd].
  destruct (bare_url_lines_fenced md (PyStr.split_lines processed) false
                                  links1) as [Hlen [Hkeep Hrec]].
  destruct (bare_url_lines md (PyStr.split_lines processed) false links1)
    as [lines' links2]. cbn [fst snd] in *.
  exists lines'. repeat split; assumption.
Qed.

(** A fence that holds link syntax beside a URL.  The URL is on a line
    inside the fence and is neither replaced nor recorded, but the pass
    over markdown links has masked the index and the call before it:
    the run of the code block holds a token, and comes out with the
    display text [0] and the target [x] in place of its whole content.
    The URL is not in the output. *)
Lemma fenced_url_lost_beside_link_syntax :
  preprocess_markdown_links fenced_link_md
  = (fenced_link_masked, [mkLink "LINKPLACEHOLDER_0" "0" "x"])
  /\ nth_error (PyStr.split_lines fenced_link_md) 2
     = Some "https://example.com"
  /\ fence_state (PyStr.split_lines fenced_link_md) false 2 = true
  /\ nth_error (PyStr.split_lines fenced_link_masked) 2
     = Some "https://example.com"
  /\ (forall extra,
         fix_markdown_links (6 + extra) fenced_link_md
                            (builtin_backend fenced_link_env)
         = Ok (VList [code_block_of (link_run "0" "x")])).
Proof.
  repeat split; intros; vm_compute; reflexivity.
Qed.

Section FencedCode.
Variable env : environment.
Hypothesis libs : MARKDOWN_LIBS_AVAILABLE env = true.

(** What markdown and the parser make of the masked text: a [pre] with
    the fenced lines, and a paragraph with the token. *)
Hypothesis soup_fenced : markdown_soup env fenced_masked = Ok fenced_soup.

(** C4, as amended.  In preprocessing, with [links1] the links of the
    markdown links and [lines] the lines of the text after that pass:
    the masked text has the same number of lines; every line that is a
    fence marker or lies inside a fence, by the flag that the markers
    toggle, is in the masked text as it was; and the links recorded
    after [links1] are those of the lines outside the fences.  When the
    first pass finds no markdown link, these are the lines of the text
    itself and all links are those of bare URLs outside the fences.  In
    postprocessing, of blocks of the expected shape and with fuel above
    their [potential], every code block whose text and language hold
    no recorded token is returned as it was: its run keeps the text,
    without a link.  For the text [fenced_md], which has the same URL inside a
    fence and after it, the pipeline returns a code block whose run
    holds the URL as text, with no link, and a paragraph whose run has
    the URL as content and as link. *)
Theorem fenced_urls_stay_text :
  (forall md,
      let processed :=
        re_sub match_markdown_link replace_markdown_link md [] in
      let lines := PyStr.split_lines (fst processed) in
      exists lines',
        fst (preprocess_markdown_links md) = PyStr.join_lines lines'
        /\ length lines' = length lines
        /\ (forall i line,
               nth_error lines i = Some line ->
               is_fence line || fence_state lines false i = true ->
               nth_error lines' i = Some line)
        /\ snd (preprocess_markdown_links md)
           = record_lines md (outside_fences lines false) (snd processed))
  /\ (forall md,
         snd (re_sub match_markdown_link replace_markdown_link md []) = [] ->
         exists lines',
           fst (preprocess_markdown_links md) = PyStr.join_lines lines'
           /\ length lines' = length (PyStr.split_lines md)
           /\ (forall i line,
                  nth_error (PyStr.split_lines md) i = Some line ->
                  is_fence line
                  || fence_state (PyStr.split_lines md) false i = true ->
                  nth_error lines' i = Some line)
           /\ snd (preprocess_markdown_links md)
              = record_lines md
                             (outside_fences (PyStr.split_lines md) false)
                             [])
  /\ (forall md fuel bs,
         well_shaped (VList bs) = true ->
         potential (VList bs) < fuel ->
         exists bs',
           postprocess_notion_blocks fuel (VList bs)
                                     (snd (preprocess_markdown_links md))
           = Ok (VList bs')
           /\ Forall2
                (fun b b' =>
                   forall language code,
                     b = code_block_in language code ->
                     has_token
                       (tokens_of (snd (preprocess_markdown_links md)))
                       code = false ->
                     has_token
                       (tokens_of (snd (preprocess_markdown_links md)))
                       language = false ->
                     b' = b)
                bs bs')
  /\ preprocess_markdown_links fenced_md
     = (fenced_masked,
        [mkLink "URLLINKPLACEHOLDER_0" "https://example.com"
                "https://example.com"])
  /\ (forall fuel, 6 <= fuel ->
        fix_markdown_links fuel fenced_md (builtin_backend env)
        = Ok (VList
                [code_block ("https://example.com"
                             ++ String PyStr.newline EmptyString);
                 rich_text_block "paragraph"
                   [link_run "https://example.com" "https://example.com"]])).
Proof.
  split; [exact url_pass_keeps_fenced_lines|].
  split; [|split; [|split]].
  - intros md Hnone.
    pose proof (url_pass_keeps_fenced_lines md) as H. cbv zeta in H.
    rewrite (markdown_pass_same md Hnone), Hnone in H. exact H.
  - intros md fuel bs Hw Hp.
    assert (exists r,
               postprocess_notion_blocks
                 fuel (VList bs) (snd (preprocess_markdown_links md)) = Ok r)
      as [r Hr].
    { unfold postprocess_notion_blocks.
      destruct (snd (preprocess_markdown_links md)) as [|l links];
        [eexists; reflexivity|].
      destruct (process_block_total (make_lookup (l :: links)) fuel
                                    (VList bs) Hw Hp) as [r [Hr _]].
      exists r. exact Hr. }
    destruct (code_blocks_kept md fuel bs r Hr) as [bs' [-> Hall]].
    exists bs'. split; [exact Hr | exact Hall].
  - vm_compute. reflexivity.
  - intros fuel Hfuel.
    do 6 (destruct fuel as [|fuel]; [lia|]).
    unfold fix_markdown_links.
    replace (preprocess_markdown_links fenced_md)
      with (fenced_masked,
            [mkLink "URLLINKPLACEHOLDER_0" "https://example.com"
                    "https://example.com"])
      by (vm_compute; reflexivity).
    unfold builtin_backend, convert, _convert_with_bs4.
    cbn [normalize bind].
    replace (truthy (PStr fenced_masked)) with true by reflexivity.
    cbn [negb orb]. rewrite libs, soup_fenced. cbn [negb].
    vm_compute. reflexivity.
Qed.
End FencedCode.

Lemma fenced_urls_stay_text_witness :
  MARKDOWN_LIBS_AVAILABLE fenced_env = true
  /\ markdown_soup fenced_env fenced_masked = Ok fenced_soup
  /\ snd (re_sub match_markdown_link replace_markdown_link fenced_md []) = []
  /\ nth_error (PyStr.split_lines fenced_md) 1 = Some "https://example.com"
  /\ fence_state (PyStr.split_lines fenced_md) false 1 = true
  /\ (exists lines',
         fst (preprocess_markdown_links fenced_md) = PyStr.join_lines lines'
         /\ nth_error lines' 1 = Some "https://example.com")
  /\ fix_markdown_links 6 fenced_md (builtin_backend fenced_env)
     = Ok (VList
             [code_block ("https://example.com"
                          ++ String PyStr.newline EmptyString);
              rich_text_block "paragraph"
                [link_run "https://example.com" "https://example.com"]]).
Proof.
  assert (Hnone :
            snd (re_sub match_markdown_link replace_markdown_link
                        fenced_md []) = [])
    by (vm_compute; reflexivity).
  assert (Hline : nth_error (PyStr.split_lines fenced_md) 1
                  = Some "https://example.com")
    by (vm_compute; reflexivity).
  assert (Hstate : fence_state (PyStr.split_lines fenced_md) false 1 = true)
    by (vm_compute; reflexivity).
  split; [reflexivity|]. split; [reflexivity|].
  split; [exact Hnone|]. split; [exact Hline|]. split; [exact Hstate|].
  split.
  - destruct (proj1 (proj2 (fenced_urls_stay_text fenced_env eq_refl eq_refl))
                    fenced_md Hnone)
      as [lines' [Hjoin [_ [Hkeep _]]]].
    exists lines'. split; [exact Hjoin|].
    apply (Hkeep 1 "https://example.com" Hline).
    rewrite Hstate. apply orb_true_r.
  - apply (proj2 (proj2 (proj2 (proj2
             (fenced_urls_stay_text fenced_env eq_refl eq_refl)))) 6).
    lia.
Defined.

(** ** The facade and the link preservation protocol, in general *)

(** C2, as amended.  [markdown_to_notion_blocks] applies no link
    protocol: for every text it returns what the backend it selects
    returns for the text as it is, [clean_markdown_to_notion_blocks]
    when links are to be fixed and the link handler was imported and
    [convert] otherwise.  This is what masking the text, running that
    backend and resolving the placeholders returns for every text in
    which preprocessing finds no link.  For a text that is one URL,
    which the backend renders as a paragraph of one run, as it does the
    token, the facade returns the URL as plain text, and masking,
    converting and resolving returns it as a link. *)
Theorem facade_applies_no_link_protocol :
  (forall env md use_martian fix_links,
      markdown_to_notion_blocks env (PStr md) use_martian fix_links
      = if fix_links && LINK_HANDLER_AVAILABLE env
        then clean_markdown_to_notion_blocks env (PStr md)
        else convert env use_martian (PStr md))
  /\ (forall env md use_martian fix_links fuel,
         snd (preprocess_markdown_links md) = [] ->
         markdown_to_notion_blocks env (PStr md) use_martian fix_links
         = wrapped env fuel md use_martian fix_links)
  /\ (forall env sch body use_martian fix_links fuel,
         is_scheme sch -> body <> EmptyString ->
         all_chars url_char body = true ->
         selected_backend env use_martian fix_links (sch ++ body)
         = Ok (VList [rich_text_block "paragraph"
                        [text_run (sch ++ body)]]) ->
         selected_backend env use_martian fix_links "URLLINKPLACEHOLDER_0"
         = Ok (VList [rich_text_block "paragraph"
                        [text_run "URLLINKPLACEHOLDER_0"]]) ->
         markdown_to_notion_blocks env (PStr (sch ++ body)) use_martian
                                   fix_links
         = Ok (VList [rich_text_block "paragraph"
                        [text_run (sch ++ body)]])
         /\ wrapped env (5 + fuel) (sch ++ body) use_martian fix_links
            = Ok (VList [rich_text_block "paragraph"
                           [link_run (sch ++ body) (sch ++ body)]])
         /\ markdown_to_notion_blocks env (PStr (sch ++ body)) use_martian
                                      fix_links
            <> wrapped env (5 + fuel) (sch ++ body) use_martian fix_links).
Proof.
  split; [reflexivity|]. split.
  - intros env md use_martian fix_links fuel Hnone. unfold wrapped.
    rewrite (fix_markdown_links_no_links fuel md _ Hnone).
    rewrite (preprocess_no_links md Hnone). reflexivity.
  - intros env sch body use_martian fix_links fuel Hs Hb Hc Hurl Htoken.
    assert (markdown_to_notion_blocks env (PStr (sch ++ body)) use_martian
                                      fix_links
            = Ok (VList [rich_text_block "paragraph"
                           [text_run (sch ++ body)]])) as Hfacade
      by exact Hurl.
    assert (wrapped env (5 + fuel) (sch ++ body) use_martian fix_links
            = Ok (VList [rich_text_block "paragraph"
                           [link_run (sch ++ body) (sch ++ body)]]))
      as Hwrapped
      by (apply (one_url_pipeline sch body _ fuel Hs Hb Hc Htoken)).
    split; [exact Hfacade|]. split; [exact Hwrapped|].
    rewrite Hfacade, Hwrapped. discriminate.
Qed.

Lemma facade_applies_no_link_protocol_witness :
  is_scheme "https://"
  /\ "example.com" <> EmptyString
  /\ all_chars url_char "example.com" = true
  /\ selected_backend plain_env true true "https://example.com"
     = Ok (VList [rich_text_block "paragraph"
                    [text_run "https://example.com"]])
  /\ selected_backend plain_env true true "URLLINKPLACEHOLDER_0"
     = Ok (VList [rich_text_block "paragraph"
                    [text_run "URLLINKPLACEHOLDER_0"]])
  /\ markdown_to_notion_blocks plain_env (PStr "https://example.com")
                               true true
     <> wrapped plain_env 5 "https://example.com" true true.
Proof.
  assert (Hs : is_scheme "https://") by (right; reflexivity).
  assert (Hb : "example.com" <> EmptyString) by discriminate.
  split; [exact Hs|]. split; [exact Hb|].
  split; [reflexivity|]. split; [reflexivity|]. split; [reflexivity|].
  apply (proj2 (proj2 (facade_applies_no_link_protocol))
               plain_env "https://" "example.com" true true 0 Hs Hb
               eq_refl eq_refl eq_refl).
Defined.
